(** * Media Centre Allocation Merger: a shallow embedding of streamlit_app.py

    The development follows the source file top to bottom: Python strings
    and exceptions, the fragment of pandas the script calls (a DataFrame
    with labelled columns, label selection, concat, to_numeric, groupby/agg,
    sort_values), the fragment of openpyxl it calls (cells, column
    dimensions, column letters), then extract_alloc, merge_allocations,
    build_workbook and the top-level script with its upload loop.

    Conventions.
    - Text is a Python str, held as the bytes of its UTF-8 encoding
      ([string]); byte order on these is code-point order.
    - A number is an integer ([Z]): allocation quantities and store numbers
      are counts; fractional values, and text that denotes them, are
      outside the model. pandas keeps a column of integers as int64, or as
      float64 once it has a null; up to 2^53 in magnitude both hold every
      integer, and sums that stay within that range are exact in either.
      Sums are taken in Z; the statements that are about the value of a
      sum carry that bound.
    - A cell of a sheet or of a DataFrame is a [value]: null (NaN / None /
      <NA>), a number, or a text.
    - The header labels of an uploaded sheet are texts; what the search
      for the store-number column does on a label that is no text is
      written out in [locate_store_number].
    - Code that can stop is written in the [outcome] monad: it returns,
      raises a Python exception, or halts the script through st.stop()
      after showing a notice. *)

From Stdlib Require Import ZArith List Ascii String Lia Permutation Sorted.
From stdpp Require Import base tactics option list sorting gmap strings pretty.

Open Scope Z_scope.
Open Scope string_scope.
Open Scope list_scope.

(** ** Python values *)

Inductive value : Type :=
  | NA
  | Num (z : Z)
  | Str (s : string).

#[global] Instance value_eq_dec : EqDecision value.
Proof. solve_decision. Defined.

(** pd.isna *)
Definition isna (v : value) : bool :=
  match v with NA => true | _ => false end.

(** str(v): a missing cell reads as the float nan. *)
Definition str (v : value) : string :=
  match v with
  | NA => "nan"
  | Num z => pretty z
  | Str s => s
  end.

(** ** Exceptions, notices and the outcome of a computation *)

Inductive exn : Type :=
  | KeyError | IndexError | TypeError | ValueError
  | AttributeError | IllegalCharacterError.

(** A notice is what the page shows right before st.stop(). *)
Inductive notice : Type :=
  | StError (msg : string)
  | StInfo (msg : string).

Inductive outcome (A : Type) : Type :=
  | Ok (a : A)
  | Raise (e : exn)
  | Stopped (n : notice).

Arguments Ok {A} a.
Arguments Raise {A} e.
Arguments Stopped {A} n.

#[global] Instance outcome_ret : MRet outcome := fun A a => Ok a.

#[global] Instance outcome_bind : MBind outcome := fun A B k m =>
  match m with
  | Ok a => k a
  | Raise e => Raise e
  | Stopped n => Stopped n
  end.

Definition is_ok {A : Type} (m : outcome A) : bool :=
  match m with Ok _ => true | _ => false end.

(** Python's [a + b] on cell values: numbers add, texts concatenate, nan
    absorbs a number, every other mix is a TypeError. The sum of two
    numbers is their sum in Z, which is what an int64 or a float64 gives
    while the result stays within 2^53 in magnitude. *)
Definition py_add (a b : value) : outcome value :=
  match a, b with
  | Num x, Num y => Ok (Num (x + y))
  | Num _, NA | NA, Num _ | NA, NA => Ok NA
  | Str s, Str t => Ok (Str (s +:+ t))
  | _, _ => Raise TypeError
  end.

(** ** Python string methods *)

Module Py.

(** str.isspace on one ASCII character: TAB..CR, FS..US and space. *)
Definition isspace (a : ascii) : bool :=
  let n := nat_of_ascii a in
  (((9 <=? n) && (n <=? 13)) || ((28 <=? n) && (n <=? 32)))%nat.

(** A byte below 128 is an ASCII character: it is no part of the
    encoding of any other character. *)
Definition ascii_byte (a : ascii) : bool := (nat_of_ascii a <? 128)%nat.

(** The whitespace characters beyond ASCII, by the bytes of their
    encodings: U+0085 and U+00A0 take two bytes; U+1680, U+2000..U+200A,
    U+2028, U+2029, U+202F, U+205F and U+3000 take three. *)
Definition space2 (a b : ascii) : bool :=
  let x := nat_of_ascii a in
  let y := nat_of_ascii b in
  ((x =? 194) && ((y =? 133) || (y =? 160)))%nat.

Definition space3 (a b c : ascii) : bool :=
  let x := nat_of_ascii a in
  let y := nat_of_ascii b in
  let z := nat_of_ascii c in
  (((x =? 225) && (y =? 154) && (z =? 128))
   || ((x =? 226) && (y =? 128)
       && (((128 <=? z) && (z <=? 138)) || (z =? 168) || (z =? 169) || (z =? 175)))
   || ((x =? 226) && (y =? 129) && (z =? 159))
   || ((x =? 227) && (y =? 128) && (z =? 128)))%nat.

(** s.lstrip(): whitespace characters are removed from the left, whatever
    the number of bytes each takes. *)
Fixpoint lstrip (s : string) : string :=
  match s with
  | EmptyString => EmptyString
  | String a s1 =>
      if isspace a then lstrip s1
      else
        match s1 with
        | EmptyString => s
        | String b s2 =>
            if space2 a b then lstrip s2
            else
              match s2 with
              | EmptyString => s
              | String c s3 => if space3 a b c then lstrip s3 else s
              end
        end
  end.

(** s.rstrip(): the string is cut where nothing but whitespace follows. *)
Fixpoint rstrip (s : string) : string :=
  match s with
  | EmptyString => EmptyString
  | String a s' =>
      if String.eqb (lstrip s) EmptyString then EmptyString
      else String a (rstrip s')
  end.

Definition strip (s : string) : string := rstrip (lstrip s).

(** s.lower() on the ASCII letters. A character beyond ASCII is left as
    it is, where Python may change it; neither reading produces an ASCII
    letter of "store number" from such a character, so the comparison of
    line 43, the only use of lower(), is decided alike. *)
Definition lower_char (a : ascii) : ascii :=
  let n := nat_of_ascii a in
  if ((65 <=? n) && (n <=? 90))%nat then ascii_of_nat (n + 32) else a.

Fixpoint lower (s : string) : string :=
  match s with
  | EmptyString => EmptyString
  | String a s' => String (lower_char a) (lower s')
  end.

(** ", ".join(l) *)
Fixpoint join (sep : string) (l : list string) : string :=
  match l with
  | [] => ""
  | [s] => s
  | s :: l' => s +:+ sep +:+ join sep l'
  end.

End Py.

(** ** Constants of the script *)

Definition KEY_COLS : list string :=
  [ "Store Number"; "Store Name"; "Address Line 1"; "Address Line 2"; "City or Town";
    "County"; "Country"; "Post Code"; "Region / Area"; "Location Type"; "Trading Format" ].

Definition LABELS : list string :=
  [ "Brief Description"; "Total (inc Overs)"; "Total Allocations"; "Overs" ].

(** KEY_COLS.index("Trading Format") + 1: column K, counted from 1. *)
Definition LABEL_COL_XL : nat := 11.
Definition ITEM_START_XL : nat := (LABEL_COL_XL + 1)%nat.

Definition in_key_cols (c : string) : bool := bool_decide (c ∈ KEY_COLS).

(** ** The pandas fragment *)

Module Pd.

(** A DataFrame: its column labels, and its rows in index order, each
    row giving the cells under the labels from left to right. *)
Record DataFrame : Type := mkDF {
  columns : list string;
  rows : list (list value)
}.

(** pd.DataFrame() *)
Definition empty : DataFrame := mkDF [] [].

(** The cell of row [r] under label [c]; a label the frame does not have
    reads as null. *)
Fixpoint at_col (cols : list string) (r : list value) (c : string) : value :=
  match cols, r with
  | c' :: cs, v :: vs => if bool_decide (c' = c) then v else at_col cs vs c
  | _, _ => NA
  end.

(** df[c] as a Series *)
Definition series (df : DataFrame) (c : string) : list value :=
  map (fun r => at_col (columns df) r c) (rows df).

(** Rows laid out again under the labels [cols]. *)
Definition reindex (old : list string) (cols : list string) (r : list value)
  : list value :=
  map (at_col old r) cols.

(** df[cols] with a list of labels: KeyError when a label is missing.
    Written for a frame whose labels are unique, where each requested
    label selects one column; statements that read the cells of a
    selected frame assume [unique_labels] of the upload. *)
Definition getitem (df : DataFrame) (cols : list string) : outcome DataFrame :=
  if forallb (fun c => bool_decide (c ∈ columns df)) cols
  then Ok (mkDF cols (map (reindex (columns df) cols) (rows df)))
  else Raise KeyError.

(** Union of the column indexes in order of first appearance
    (concat with sort=False). *)
Definition union_columns (dfs : list DataFrame) : list string :=
  fold_left
    (fun acc df => acc ++ filter (fun c => c ∉ acc) (columns df))
    dfs [].

(** pd.concat(dfs, ignore_index=True, sort=False): the rows of all
    frames, in order, under the union of the labels; a frame without a
    label contributes nulls under it. *)
Definition concat (dfs : list DataFrame) : DataFrame :=
  let cols := union_columns dfs in
  mkDF cols
    (flat_map (fun df => map (reindex (columns df) cols) (rows df)) dfs).

Section Numeric.

(** pd.to_numeric recognises numeric text with pandas' own parser; the
    parser is a parameter of the development. *)
Variable parse_numeric : string -> option Z.

(** pd.to_numeric(v, errors="coerce") on one cell *)
Definition to_numeric (v : value) : value :=
  match v with
  | NA => NA
  | Num z => Num z
  | Str s => match parse_numeric s with Some z => Num z | None => NA end
  end.

(** One cell of the assignment below: coerced when its label is among
    [cs], kept otherwise. *)
Definition coerce_cell (cs : list string) (c : string) (v : value) : value :=
  if bool_decide (c ∈ cs) then to_numeric v else v.

(** df[cs] = df[cs].apply(pd.to_numeric, errors="coerce") *)
Definition apply_to_numeric (df : DataFrame) (cs : list string) : DataFrame :=
  mkDF (columns df)
    (map (fun r => zip_with (coerce_cell cs) (columns df) r) (rows df)).

End Numeric.

(** The two aggregations the script asks for. *)
Inductive agg_rule : Type := First | Sum.

(** GroupBy "first": the first entry that is not null; null when the
    group has none. *)
Fixpoint agg_first (vs : list value) : value :=
  match vs with
  | [] => NA
  | NA :: vs' => agg_first vs'
  | v :: _ => v
  end.

Definition number_or_zero (v : value) : Z :=
  match v with Num z => z | _ => 0 end.

(** The range of an int64. *)
Definition int64 (z : Z) : bool := ((- 2 ^ 63 <=? z) && (z <? 2 ^ 63))%Z.

(** The sum of the magnitudes of the numbers of a Series. While it is at
    most 2^53, every partial sum of the Series, in any order, is an
    integer that int64 and float64 hold exactly. *)
Definition magnitude (vs : list value) : Z :=
  foldr Z.add 0 (map (fun v => Z.abs (number_or_zero v)) vs).

(** GroupBy "sum" on a numeric column: nulls are skipped and the empty
    sum is 0 (min_count=0). The sum is taken in Z; it is the sum pandas
    computes while the [magnitude] of the group is at most 2^53. *)
Definition agg_sum (vs : list value) : value :=
  Num (foldr Z.add 0 (map number_or_zero vs)).

Definition aggregate (rule : agg_rule) (vs : list value) : value :=
  match rule with
  | First => agg_first vs
  | Sum => agg_sum vs
  end.

(** The key of a row in an Int64 column: a number, or <NA>. *)
Definition int64_key (v : value) : option Z :=
  match v with Num z => Some z | _ => None end.

Definition row_key (cols : list string) (by_ : string) (r : list value)
  : option Z :=
  int64_key (at_col cols r by_).

(** df.groupby(by, as_index=False).agg(rules), with the defaults
    sort=True and dropna=True: one row per distinct non-null key, keys
    ascending; the key column comes first, then one column per rule. *)
Definition groupby_agg (df : DataFrame) (by_ : string)
    (rules : list (string * agg_rule)) : outcome DataFrame :=
  if bool_decide (by_ ∈ columns df) then
    let keys := merge_sort Z.le (remove_dups (omap (row_key (columns df) by_) (rows df))) in
    Ok (mkDF (by_ :: map fst rules)
          (map (fun k =>
                  let grp := filter (fun r => row_key (columns df) by_ r = Some k)
                               (rows df) in
                  Num k ::
                  map (fun cr => aggregate (snd cr)
                                   (map (fun r => at_col (columns df) r (fst cr)) grp))
                      rules)
               keys))
  else Raise KeyError.

(** Ascending order of keys with nulls last (na_position="last"). *)
Definition key_le (a b : option Z) : Prop :=
  match a, b with
  | Some x, Some y => x <= y
  | _, None => True
  | None, Some _ => False
  end.

#[global] Instance key_le_dec a b : Decision (key_le a b).
Proof. destruct a, b; simpl; apply _. Defined.

Definition row_le (cols : list string) (by_ : string) (r1 r2 : list value) : Prop :=
  key_le (row_key cols by_ r1) (row_key cols by_ r2).

#[global] Instance row_le_dec cols by_ r1 r2 : Decision (row_le cols by_ r1 r2).
Proof. unfold row_le; apply _. Defined.

(** df.sort_values(by): rows in ascending order of the key column. *)
Definition sort_values (df : DataFrame) (by_ : string) : outcome DataFrame :=
  if bool_decide (by_ ∈ columns df)
  then Ok (mkDF (columns df) (merge_sort (row_le (columns df) by_) (rows df)))
  else Raise KeyError.

(** df[c].fillna(0) *)
Definition fillna0 (vs : list value) : list value :=
  map (fun v => if isna v then Num 0 else v) vs.

(** Series.sum(): + from left to right; 0 for an empty Series. On
    numbers this is the sum in Z, which is the sum pandas computes while
    the [magnitude] of the Series is at most 2^53. *)
Definition series_sum (vs : list value) : outcome value :=
  match vs with
  | [] => Ok (Num 0)
  | v :: vs' => fold_left (fun acc x => a ← acc; py_add a x) vs' (Ok v)
  end.

End Pd.

Import Pd.

(** ** The openpyxl fragment *)

Module Xl.

Record ColumnDimension : Type := mkDim {
  width : nat;
  hidden : bool
}.

(** A worksheet: the cells that exist, keyed by (row, column) counted
    from 1, and the column dimensions keyed by column letter. Fonts,
    fills, borders and alignments change no value and no dimension and
    are left out. *)
Record Worksheet : Type := mkWs {
  cells : gmap (nat * nat) value;
  column_dimensions : gmap string ColumnDimension
}.

Definition blank : Worksheet := mkWs ∅ ∅.

(** ILLEGAL_CHARACTERS_RE: the control characters other than TAB, LF
    and CR. *)
Definition illegal_character (a : ascii) : bool :=
  let n := nat_of_ascii a in
  ((n <=? 8) || (n =? 11) || (n =? 12) || ((14 <=? n) && (n <=? 31)))%nat.

(** A byte that continues a character begun by an earlier byte. *)
Definition continuation_byte (a : ascii) : bool :=
  let n := nat_of_ascii a in
  ((128 <=? n) && (n <=? 191))%nat.

(** value[:n], counted in characters. *)
Fixpoint take_chars (n : N) (s : string) : string :=
  match s with
  | EmptyString => EmptyString
  | String a s' =>
      if continuation_byte a then String a (take_chars n s')
      else if (n =? 0)%N then EmptyString
      else String a (take_chars (n - 1) s')
  end.

(** Cell.check_string: a text is cut to 32767 characters, and what is
    kept must hold no illegal character. *)
Definition check_string (s : string) : outcome string :=
  let s := take_chars 32767 s in
  if existsb illegal_character (list_ascii_of_string s)
  then Raise IllegalCharacterError
  else Ok s.

(** What the assignment cell.value = v stores. *)
Definition bind_value (v : value) : outcome value :=
  match v with
  | Str s => s' ← check_string s; Ok (Str s')
  | _ => Ok v
  end.

(** The value a cell holds once [v] has been assigned to it. *)
Definition stored (v : value) : value :=
  match v with
  | Str s => Str (take_chars 32767 s)
  | _ => v
  end.

(** The sheet with [v] as the value of the cell at row r, column c. *)
Definition set_cell (ws : Worksheet) (r c : nat) (v : value) : Worksheet :=
  mkWs (<[(r, c) := v]> (cells ws)) (column_dimensions ws).

(** ws.cell(row=r, column=c, value=v), and cell.value = v on that cell. *)
Definition write_cell (ws : Worksheet) (r c : nat) (v : value) : outcome Worksheet :=
  v' ← bind_value v;
  Ok (set_cell ws r c v').

Definition cell_value (ws : Worksheet) (r c : nat) : option value :=
  cells ws !! (r, c).

(** ws.max_column: the largest column index of a cell, 1 on an empty
    sheet. *)
Definition max_column (ws : Worksheet) : nat :=
  map_fold (fun rc _ acc => Nat.max (snd rc) acc) 1%nat (cells ws).

Definition set_dimension (ws : Worksheet) (letter : string) (d : ColumnDimension)
  : Worksheet :=
  mkWs (cells ws) (<[letter := d]> (column_dimensions ws)).

(** The loop of openpyxl.utils.get_column_letter: divmod by 26, with
    remainder 0 standing for Z and borrowing one from the quotient. *)
Fixpoint column_letters (fuel col_idx : nat) (letters : string) : string :=
  match fuel with
  | O => letters
  | S fuel' =>
      if (col_idx =? 0)%nat then letters
      else
        let q := (col_idx / 26)%nat in
        let r := (col_idx mod 26)%nat in
        if (r =? 0)%nat
        then column_letters fuel' (q - 1)%nat (String (ascii_of_nat (26 + 64)) letters)
        else column_letters fuel' q (String (ascii_of_nat (r + 64)) letters)
  end.

Definition get_column_letter (col_idx : nat) : string :=
  column_letters col_idx col_idx "".

End Xl.

Import Xl.

(** ** Loops *)

(** enumerate(l, start) *)
Fixpoint enumerate {A : Type} (start : nat) (l : list A) : list (nat * A) :=
  match l with
  | [] => []
  | a :: l' => (start, a) :: enumerate (S start) l'
  end.

(** A for loop whose body may raise or stop. *)
Fixpoint for_each {A S : Type} (body : S -> A -> outcome S) (l : list A) (s : S)
  : outcome S :=
  match l with
  | [] => Ok s
  | a :: l' => s' ← body s a; for_each body l' s'
  end.

(** ** Uploaded files and item metadata *)

(** One uploaded sheet as the two reads of extract_alloc see it:
    read_excel(header=6) gives the labels [header] and the rows [data]
    under them; read_excel(header=None) gives the whole grid [raw]. Header
    labels are texts. *)
Record UploadedFile : Type := mkFile {
  header : list string;
  data : list (list value);
  raw : list (list value)
}.

(** The dict stored per item reference. *)
Record MetaEntry : Type := mkMeta {
  brief_description : value;
  overs : value
}.

(** raw.shape[1] *)
Definition shape1 (grid : list (list value)) : nat :=
  foldr (fun r acc => Nat.max (List.length r) acc) 0%nat grid.

(** raw.iloc[r, c]: IndexError outside the grid; ragged rows read as
    padded with nulls. *)
Definition iloc (grid : list (list value)) (r c : nat) : outcome value :=
  match grid !! r with
  | Some cells_ =>
      if (c <? shape1 grid)%nat then Ok (default NA (cells_ !! c)) else Raise IndexError
  | None => Raise IndexError
  end.

Definition STORE_NUMBER_MISSING : string :=
  "❌ Could not find a 'Store Number' column in the uploaded file.".

Definition NO_FILES : string :=
  "Please upload at least one allocation export.".

Definition is_store_number (c : string) : bool :=
  String.eqb (Py.lower (Py.strip c)) "store number".

(** df.columns.str.strip() on one label: a label that is no text becomes
    nan. *)
Definition strip_label (h : value) : value :=
  match h with
  | Str s => Str (Py.strip s)
  | _ => NA
  end.

(** Lines 43 to 46, on the stripped labels: the generator calls
    c.strip() on each label in turn until one reads "store number"; a
    label that is no text has no strip() and raises AttributeError when
    the search reaches it; when the labels run out the error is shown
    and the script stops. *)
Fixpoint locate_store_number (cols : list value) : outcome string :=
  match cols with
  | [] => Stopped (StError STORE_NUMBER_MISSING)
  | Str c :: cols' => if is_store_number c then Ok c else locate_store_number cols'
  | _ :: _ => Raise AttributeError
  end.

(** ** build_workbook *)

(** A null cell of the frame is written as na_rep, the empty text. *)
Definition excel_value (v : value) : value :=
  if isna v then Str "" else v.

Definition write_row (r : nat) (vs : list value) (ws : Worksheet) : outcome Worksheet :=
  for_each (fun w jv => write_cell w r (fst jv) (snd jv)) (enumerate 1 vs) ws.

(** df.to_excel(writer, index=False, startrow=startrow), inside the
    with block of the ExcelWriter: the header goes to Excel row
    startrow+1, the rows below it, every cell through openpyxl. pandas
    refuses a frame larger than a sheet with ValueError before it creates
    the sheet; leaving the with block then saves a workbook without any
    sheet, which openpyxl refuses with IndexError, and that is the
    exception the caller sees. *)
Definition to_excel (df : DataFrame) (startrow : nat) : outcome Worksheet :=
  if ((2 ^ 20 <? List.length (rows df)) || (2 ^ 14 <? List.length (columns df)))%nat
  then Raise IndexError
  else
    ws ← write_row (startrow + 1) (map Str (columns df)) blank;
    for_each (fun w ir => write_row (fst ir) (map excel_value (snd ir)) w)
      (enumerate (startrow + 2) (rows df)) ws.

(** "C" <= col_letter <= "J", on strings. *)
Definition hide_test (col_letter : string) : bool :=
  String.leb "C" col_letter && String.leb col_letter "J".

(** The loop over range(1, ws.max_column + 1): width 18 everywhere, and
    hidden where the letter test holds. *)
Definition size_columns (ws : Worksheet) : Worksheet :=
  fold_left
    (fun w col_idx =>
       let col_letter := get_column_letter col_idx in
       set_dimension w col_letter (mkDim 18 (hide_test col_letter)))
    (seq 1 (max_column ws)) ws.

(** The value one summary cell receives; [NA] is a cell left without a
    value. The column total is computed for every label, the sum with the
    overage only under "Total (inc Overs)". *)
Definition item_overs (meta : gmap string MetaEntry) (item : string) : value :=
  match meta !! item with Some e => overs e | None => Num 0 end.

Definition summary_value (df : DataFrame) (meta : gmap string MetaEntry)
    (label item : string) : outcome value :=
  let data := meta !! item in
  let overs_ := item_overs meta item in
  total ← series_sum (fillna0 (series df item));
  if String.eqb label "Brief Description" then
    Ok (match data with Some e => brief_description e | None => Str "" end)
  else if String.eqb label "Total (inc Overs)" then py_add total overs_
  else if String.eqb label "Total Allocations" then Ok total
  else if String.eqb label "Overs" then Ok overs_
  else Ok NA.

Definition item_columns (df : DataFrame) : list string :=
  filter (fun c => c ∉ KEY_COLS) (columns df).

Definition summary_row (df : DataFrame) (meta : gmap string MetaEntry)
    (ws : Worksheet) (rl : nat * string) : outcome Worksheet :=
  let row_num := (2 + fst rl)%nat in
  let label := snd rl in
  ws ← write_cell ws row_num LABEL_COL_XL (Str label);
  for_each
    (fun w ii =>
       v ← summary_value df meta label (snd ii);
       write_cell w row_num (ITEM_START_XL + fst ii) v)
    (enumerate 0 (item_columns df)) ws.

Definition build_workbook (df : DataFrame) (meta : gmap string MetaEntry)
    (consolidated_on : string) : outcome Worksheet :=
  let STARTROW := (List.length LABELS + 1)%nat in
  ws ← to_excel df STARTROW;
  ws ← write_cell ws 1 1 (Str consolidated_on);
  let ws := size_columns ws in
  for_each (summary_row df meta) (enumerate 0 LABELS) ws.

(** ** The script *)

Record LoopState : Type := mkState {
  all_dfs : list DataFrame;
  meta : gmap string MetaEntry;
  seen_refs : gset string;
  duplicates : list string
}.

Definition initial_state : LoopState := mkState [] ∅ ∅ [].

(** What the page holds after a complete run. *)
Record Page : Type := mkPage {
  warning : option string;
  master_df : DataFrame;
  workbook : Worksheet;
  lines_count : Z;
  stores : nat;
  file_name : string
}.

(** The inner loop over item_cols: a reference already seen is a
    duplicate, any other becomes seen and new. *)
Definition classify (acc : gset string * list string * list string) (c : string)
  : gset string * list string * list string :=
  let '(seen, dups, new_cols) := acc in
  if bool_decide (c ∈ seen)
  then (seen, dups ++ [c], new_cols)
  else ({[ c ]} ∪ seen, dups, new_cols ++ [c]).

(** sorted(set(duplicates)) *)
Definition reported_duplicates (dups : list string) : list string :=
  merge_sort String.le (remove_dups dups).

Section Script.

Variable parse_numeric : string -> option Z.

(** The metadata loop over range(len(KEY_COLS), raw.shape[1]). *)
Definition read_meta (grid : list (list value)) : outcome (gmap string MetaEntry) :=
  for_each
    (fun (m : gmap string MetaEntry) col =>
       ref_ ← iloc grid 6 col;
       let ref := str ref_ in
       if String.eqb ref "nan" then Ok m
       else
         bd ← iloc grid 1 col;
         ov ← iloc grid 4 col;
         Ok (<[ref := mkMeta bd (if isna ov then Num 0 else ov)]> m))
    (seq (List.length KEY_COLS) (shape1 grid - List.length KEY_COLS)) ∅.

(** df["Store Number"] = pd.to_numeric(df["Store Number"],
    errors="coerce").astype("Int64"); with the label twice in the frame
    the right-hand side is a frame and to_numeric raises TypeError. The
    cast to Int64 keeps nulls and integers as they are and raises
    TypeError on a number that no int64 holds. *)
Definition store_number_to_Int64 (df : DataFrame) : outcome DataFrame :=
  if (1 <? List.length (filter (fun c => c = "Store Number") (columns df)))%nat
  then Raise TypeError
  else
    let df := apply_to_numeric parse_numeric df ["Store Number"] in
    if forallb (fun v => match v with Num z => int64 z | _ => true end)
         (series df "Store Number")
    then Ok df
    else Raise TypeError.

Definition extract_alloc (file : UploadedFile)
  : outcome (DataFrame * gmap string MetaEntry) :=
  let cols := map Py.strip (header file) in
  store_col ← locate_store_number (map Str cols);
  let cols :=
    if String.eqb store_col "Store Number" then cols
    else map (fun c => if String.eqb c store_col then "Store Number" else c) cols in
  df ← store_number_to_Int64 (mkDF cols (data file));
  meta_ ← read_meta (raw file);
  Ok (df, meta_).

Definition merge_allocations (dfs : list DataFrame) : outcome DataFrame :=
  match dfs with
  | [] => Ok Pd.empty
  | _ =>
      let combined := concat dfs in
      let num_cols := filter (fun c => c ∉ KEY_COLS) (columns combined) in
      let combined := apply_to_numeric parse_numeric combined num_cols in
      let agg_rules :=
        map (fun c => (c, if in_key_cols c then First else Sum))
            (filter (fun c => c ≠ "Store Number") (columns combined)) in
      grouped ← groupby_agg combined "Store Number" agg_rules;
      sort_values grouped "Store Number"
  end.

(** The body of the loop over the uploaded files. *)
Definition upload_step (st : LoopState) (up : UploadedFile) : outcome LoopState :=
  '(df_part, meta_part) ← extract_alloc up;
  let item_cols := item_columns df_part in
  let '(seen, dups, new_cols) :=
    fold_left classify item_cols (seen_refs st, duplicates st, []) in
  df_part ← getitem df_part (KEY_COLS ++ new_cols);
  let meta_part := filter (fun kv : string * MetaEntry => fst kv ∈ new_cols) meta_part in
  Ok (mkState (all_dfs st ++ [df_part]) (meta_part ∪ meta st) seen dups).

(** The script from the upload widget down to the download button; the
    two texts derived from the clock are arguments. *)
Definition script (consolidated_on file_ts : string)
    (alloc_files : list UploadedFile) : outcome Page :=
  match alloc_files with
  | [] => Stopped (StInfo NO_FILES)
  | _ =>
      st ← for_each upload_step alloc_files initial_state;
      let warning_ :=
        match duplicates st with
        | [] => None
        | _ => Some ("Duplicate brief reference(s) ignored: "
                     +:+ Py.join ", " (reported_duplicates (duplicates st)))
        end in
      master ← merge_allocations (all_dfs st);
      wb ← build_workbook master (meta st) consolidated_on;
      Ok (mkPage warning_ master wb
            (Z.of_nat (List.length (columns master)) - Z.of_nat (List.length KEY_COLS))
            (List.length (rows master))
            ("Consolidated_Allocation_" +:+ file_ts +:+ ".xlsx"))
  end.

End Script.

(** ** Reading tables

    Vocabulary used to state what the merged table holds. *)

(** The cells under label [c] of the rows whose store number is [k], over
    the tables in order and, within a table, in row order. *)
Definition group_cells (dfs : list DataFrame) (k : Z) (c : string) : list value :=
  flat_map
    (fun df =>
       map (fun r => at_col (columns df) r c)
           (filter (fun r => row_key (columns df) "Store Number" r = Some k) (rows df)))
    dfs.

(** The store numbers present in a list of tables. *)
Definition store_numbers (dfs : list DataFrame) : list Z :=
  flat_map (fun df => omap (row_key (columns df) "Store Number") (rows df)) dfs.

(** A table as the upload loop hands it to merge_allocations: labels are
    unique, the key columns are all there, and the store-number column is
    an Int64 column (numbers and <NA>, no text). *)
Definition allocation_table (df : DataFrame) : bool :=
  bool_decide (NoDup (columns df))
  && forallb (fun k => bool_decide (k ∈ columns df)) KEY_COLS
  && forallb (fun v => match v with Str _ => false | _ => true end)
       (series df "Store Number").

(** The table without the rows whose store number is null. *)
Definition without_null_stores (df : DataFrame) : DataFrame :=
  mkDF (columns df)
    (filter (fun r => is_Some (row_key (columns df) "Store Number" r)) (rows df)).

(** A store-number cell that the cast to Int64 accepts whatever the
    dtype of its column: null, or an integer of magnitude at most 2^53. *)
Definition int64_safe (v : value) : bool :=
  match v with
  | Num z => (Z.abs z <=? 2 ^ 53)%Z
  | _ => true
  end.

(** The labels of the extracted table: the stripped header with the
    located column renamed. *)
Definition extracted_labels (file : UploadedFile) (store_col : string) : list string :=
  if String.eqb store_col "Store Number" then map Py.strip (header file)
  else map (fun c => if String.eqb c store_col then "Store Number" else c)
           (map Py.strip (header file)).

(** An upload whose labels are distinct once stripped. *)
Definition unique_labels (f : UploadedFile) : bool :=
  bool_decide (NoDup (map Py.strip (header f))).

(** An upload without a column that reads "store number" once stripped
    and lower-cased. *)
Definition lacks_store_number (f : UploadedFile) : bool :=
  forallb (fun c => negb (is_store_number c)) (map Py.strip (header f)).

Section Reading.

Variable parse_numeric : string -> option Z.

(** What the merged table holds for store [k] under label [c]. *)
Definition merged_cell (dfs : list DataFrame) (k : Z) (c : string) : value :=
  if in_key_cols c then agg_first (group_cells dfs k c)
  else agg_sum (map (to_numeric parse_numeric) (group_cells dfs k c)).

Definition merged_row (dfs : list DataFrame) (k : Z) : list value :=
  Num k :: map (merged_cell dfs k)
             (filter (fun c => c ≠ "Store Number") (union_columns dfs)).

(** The quantity of store [k] under label [c] in one table: text is
    coerced as to_numeric does and nulls count for 0. *)
Definition store_total (df : DataFrame) (k : Z) (c : string) : Z :=
  foldr Z.add 0
    (map (fun r => number_or_zero (to_numeric parse_numeric (at_col (columns df) r c)))
         (filter (fun r => row_key (columns df) "Store Number" r = Some k) (rows df))).

(** The item references of an upload: the labels of its extracted table
    outside KEY_COLS; none when extraction fails. *)
Definition item_refs (f : UploadedFile) : list string :=
  match extract_alloc parse_numeric f with
  | Ok (df, _) => item_columns df
  | _ => []
  end.

(** How the table that the upload loop collects for an upload relates to
    the upload: the key columns, then some of its item references, with
    the rows of the extracted table re-indexed to these labels. *)
Definition table_of_upload (f : UploadedFile) (fr : DataFrame) : Prop :=
  exists df meta_ new_cols,
    extract_alloc parse_numeric f = Ok (df, meta_)
    /\ columns fr = KEY_COLS ++ new_cols
    /\ (forall c, c ∈ new_cols -> c ∈ item_columns df)
    /\ rows fr = map (reindex (columns df) (columns fr)) (rows df).

End Reading.

(** ** Sample inputs

    Concrete uploads and tables on which the statements below are
    evaluated. *)

(** Unsigned decimal text, standing in for pandas' parser on the samples. *)
Definition digit_value (a : ascii) : option Z :=
  let n := nat_of_ascii a in
  if ((48 <=? n) && (n <=? 57))%nat then Some (Z.of_nat (n - 48)) else None.

Fixpoint parse_digits (acc : Z) (s : string) : option Z :=
  match s with
  | EmptyString => Some acc
  | String a s' =>
      match digit_value a with
      | Some d => parse_digits (10 * acc + d) s'
      | None => None
      end
  end.

Definition parse_decimal (s : string) : option Z :=
  match s with
  | EmptyString => None
  | _ => parse_digits 0 s
  end.

(** One data row: store number, store name, the nine other key cells left
    empty, then the quantities. *)
Definition store_row (number name : value) (quantities : list value) : list value :=
  [number; name] ++ replicate 9 NA ++ quantities.

(** The grid of a sheet as far as the metadata loop reads it: descriptions
    in row 1, overages in row 4, references in row 6, all to the right of
    the eleven key columns. *)
Definition sample_raw (descriptions overages refs : list value) : list (list value) :=
  [ []; replicate 11 NA ++ descriptions; []; [];
    replicate 11 NA ++ overages; []; replicate 11 NA ++ refs ].

(** Two exports that both carry the reference BR-1; store 1 has quantity
    3 in the first and 5 in the second. *)
Definition north_table : DataFrame :=
  mkDF (KEY_COLS ++ ["BR-1"])
    [ store_row (Num 1) (Str "Leeds") [Num 3];
      store_row (Num 2) (Str "York") [Num 4] ].

Definition south_table : DataFrame :=
  mkDF (KEY_COLS ++ ["BR-1"]) [ store_row (Num 1) (Str "Leeds") [Num 5] ].

Definition north : UploadedFile :=
  mkFile (columns north_table) (rows north_table)
    (sample_raw [Str "Poster"] [Num 2] [Str "BR-1"]).

Definition south : UploadedFile :=
  mkFile (columns south_table) (rows south_table)
    (sample_raw [Str "Poster again"] [NA] [Str "BR-1"]).

(** An export whose only row has text in the store-number column. *)
Definition unnumbered : UploadedFile :=
  mkFile (KEY_COLS ++ ["BR-2"]) [ store_row (Str "n/a") (Str "Hull") [Num 7] ]
    (sample_raw [Str "Leaflet"] [Num 1] [Str "BR-2"]).

(** A table in which store 1 has two rows, the first without a name. *)
Definition unnamed_first : DataFrame :=
  mkDF (KEY_COLS ++ ["BR-3"])
    [ store_row (Num 1) NA [Num 1];
      store_row (Num 1) (Str "Leeds") [Num 1] ].


(** An export whose store-number column is found tolerantly but whose
    "Store Name" column is missing. *)
Definition no_store_name : UploadedFile :=
  mkFile ["  store NUMBER "; "BR-5"] [ [Num 1; Num 2] ] [].

(** Sixty-eight item references, a merged table that carries them all
    (with no store), and an export that carries them all for one store. *)
Definition many_refs : list string :=
  map (fun i => "BR-" +:+ pretty (Z.of_nat i)) (seq 1 68).

Definition wide_table : DataFrame := mkDF (KEY_COLS ++ many_refs) [].

Definition wide_upload : UploadedFile :=
  mkFile (KEY_COLS ++ many_refs)
    [ store_row (Num 1) (Str "Leeds") (replicate 68 (Num 1)) ]
    (sample_raw (replicate 68 (Str "Poster")) (replicate 68 NA) (map Str many_refs)).

(** The merged table of [north_table] and [south_table]. *)
Definition north_south_table : DataFrame :=
  mkDF (KEY_COLS ++ ["BR-1"])
    [ store_row (Num 1) (Str "Leeds") [Num 8];
      store_row (Num 2) (Str "York") [Num 4] ].

(** Metadata of BR-1, with a numeric overage and with an overage cell
    that holds text. *)
Definition poster_meta : gmap string MetaEntry :=
  {[ "BR-1" := mkMeta (Str "Poster") (Num 2) ]}.

Definition tbc_meta : gmap string MetaEntry :=
  {[ "BR-1" := mkMeta (Str "Poster") (Str "TBC") ]}.

(** An export with two store-number columns, the first in lower case. *)
Definition two_store_numbers : UploadedFile :=
  mkFile ["store number"; "Store Number"; "BR-6"] [ [Num 1; Num 1; Num 2] ] [].

(** * Properties *)

(** ** The helpers on small inputs *)

Example strip_lower_store_number :
  Py.strip "  Store NUMBER " = "Store NUMBER"
  /\ Py.lower "Store NUMBER" = "store number"
  /\ is_store_number "STORE number" = true
  /\ is_store_number "Store No" = false.
Proof. split_and!; reflexivity. Qed.

(** A no-break space (U+00A0) and an em space (U+2003) are stripped as
    the ASCII blanks are; a letter with an accent is not. *)
Example strip_beyond_ascii :
  Py.strip "  Store Name " = "Store Name"
  /\ is_store_number " store number " = true
  /\ Py.strip " été " = "été".
Proof. split_and!; vm_compute; reflexivity. Qed.

Example header_search :
  locate_store_number (map strip_label [Str "Shop "; Str " store NUMBER"; Num 7])
  = Ok "store NUMBER"
  /\ locate_store_number (map strip_label [Str "Shop"; Num 7; Str "Store Number"])
     = Raise AttributeError
  /\ locate_store_number (map strip_label [Str "Shop"; Str "Store Name"])
     = Stopped (StError STORE_NUMBER_MISSING).
Proof. split_and!; vm_compute; reflexivity. Qed.

Example cell_texts :
  check_string "Leeds" = Ok "Leeds"
  /\ check_string (String "001"%char "Leeds") = Raise IllegalCharacterError
  /\ check_string (String "009"%char "Leeds") = Ok (String "009"%char "Leeds")
  /\ take_chars 2 "été" = "ét"
  /\ excel_value NA = Str "".
Proof. split_and!; vm_compute; reflexivity. Qed.

Example column_letters_by_index :
  map get_column_letter [1; 3; 10; 11; 12; 26; 27; 78; 79; 702; 703]%nat
  = ["A"; "C"; "J"; "K"; "L"; "Z"; "AA"; "BZ"; "CA"; "ZZ"; "AAA"].
Proof. vm_compute. reflexivity. Qed.

Example hide_test_by_letter :
  map hide_test ["B"; "C"; "J"; "K"; "BZ"; "CA"; "IZ"; "JA"]
  = [false; true; true; false; false; true; true; false].
Proof. vm_compute. reflexivity. Qed.

Example python_sums :
  py_add (Num 3) (Num 5) = Ok (Num 8)
  /\ py_add (Num 3) (Str "5") = Raise TypeError
  /\ series_sum (fillna0 [Num 3; NA; Num 5]) = Ok (Num 8)
  /\ agg_first [NA; Str "Leeds"; Str "York"] = Str "Leeds"
  /\ agg_sum [NA; NA] = Num 0.
Proof. split_and!; reflexivity. Qed.

(** ** Cells and labels *)

Lemma at_col_map (f : string -> value) (cols : list string) (c : string) :
  c ∈ cols -> at_col cols (map f cols) c = f c.
Proof.
  induction cols as [|c' cs IH]; intros Hin; simpl.
  - by apply elem_of_nil in Hin.
  - case_bool_decide as Hc; [by subst|].
    apply IH. apply elem_of_cons in Hin as [->|]; [done|done].
Qed.

Lemma at_col_missing (cols : list string) (r : list value) (c : string) :
  c ∉ cols -> at_col cols r c = NA.
Proof.
  revert r; induction cols as [|c' cs IH]; intros r Hin; simpl; [done|].
  destruct r as [|v vs]; [done|].
  case_bool_decide as Hc.
  - subst. exfalso. apply Hin. left.
  - apply IH. intros ?. apply Hin. by right.
Qed.

Lemma at_col_reindex (old cols : list string) (r : list value) (c : string) :
  c ∈ cols -> at_col cols (reindex old cols r) c = at_col old r c.
Proof. intros. unfold reindex. by rewrite at_col_map. Qed.

Lemma at_col_zip_with (g : string -> value -> value) (cols : list string)
    (r : list value) (c : string) :
  g c NA = NA -> at_col cols (zip_with g cols r) c = g c (at_col cols r c).
Proof.
  intros Hg. revert r; induction cols as [|c' cs IH]; intros r; simpl; [done|].
  destruct r as [|v vs]; simpl; [done|].
  case_bool_decide; [by subst|apply IH].
Qed.

Lemma at_col_rules {A : Type} (f : A -> string) (h : A -> value) (l : list A) (c : string) (a : A) :
  (forall x, x ∈ l -> f x = c -> h x = h a) -> (exists x, x ∈ l /\ f x = c) ->
  at_col (map f l) (map h l) c = h a.
Proof.
  induction l as [|x l IH]; intros Hall [y [Hy Hfy]]; simpl.
  - by apply elem_of_nil in Hy.
  - case_bool_decide as Hc.
    + apply Hall; [left|done].
    + apply IH.
      * intros z Hz. apply Hall. by right.
      * apply elem_of_cons in Hy as [->|Hy]; [done|eauto].
Qed.

(** ** The union of column indexes *)

Lemma union_fold_elem (dfs : list DataFrame) (acc : list string) (c : string) :
  c ∈ fold_left (fun acc df => acc ++ filter (fun c => c ∉ acc) (columns df)) dfs acc
  <-> c ∈ acc \/ exists df, df ∈ dfs /\ c ∈ columns df.
Proof.
  revert acc; induction dfs as [|df dfs IH]; intros acc; simpl.
  - split; [by left|]. intros [?|(df & Hdf & _)]; [done|]. by apply elem_of_nil in Hdf.
  - rewrite IH, elem_of_app, list_elem_of_filter. split.
    + intros [[?|[_ ?]]|(df' & ? & ?)].
      * by left.
      * right. exists df. split; [left|done].
      * right. exists df'. split; [by right|done].
    + intros [?|(df' & Hdf' & Hc)]; [by left; left|].
      apply elem_of_cons in Hdf' as [->|?].
      * left. destruct (decide (c ∈ acc)); [by left|by right].
      * right. by exists df'.
Qed.

Lemma elem_of_union_columns (dfs : list DataFrame) (c : string) :
  c ∈ union_columns dfs <-> exists df, df ∈ dfs /\ c ∈ columns df.
Proof.
  unfold union_columns. rewrite union_fold_elem. split; [|by right].
  intros [H|?]; [|done]. by apply elem_of_nil in H.
Qed.

Lemma union_fold_NoDup (dfs : list DataFrame) (acc : list string) :
  NoDup acc -> Forall (fun df => NoDup (columns df)) dfs ->
  NoDup (fold_left (fun acc df => acc ++ filter (fun c => c ∉ acc) (columns df)) dfs acc).
Proof.
  revert acc; induction dfs as [|df dfs IH]; intros acc Hacc Hall; simpl; [done|].
  inversion Hall; subst. apply IH; [|done].
  apply NoDup_app. split; [done|]. split.
  - intros x Hx Hx'. by apply list_elem_of_filter in Hx' as [? _].
  - by apply NoDup_filter.
Qed.

Lemma NoDup_union_columns (dfs : list DataFrame) :
  Forall (fun df => NoDup (columns df)) dfs -> NoDup (union_columns dfs).
Proof. apply union_fold_NoDup. constructor. Qed.

(** ** Grouping *)

Section Pipeline.

Variable parse_numeric : string -> option Z.

Lemma coerce_cell_NA (cs : list string) (c : string) :
  coerce_cell parse_numeric cs c NA = NA.
Proof. unfold coerce_cell. by case_bool_decide. Qed.

Lemma row_key_relabelled (cs cols old : list string) (r : list value) :
  "Store Number" ∈ cols -> "Store Number" ∉ cs ->
  row_key cols "Store Number"
    (zip_with (coerce_cell parse_numeric cs) cols (reindex old cols r))
  = row_key old "Store Number" r.
Proof.
  intros Hin Hnum. unfold row_key.
  rewrite at_col_zip_with by apply coerce_cell_NA.
  rewrite at_col_reindex by done. unfold coerce_cell.
  by rewrite bool_decide_eq_false_2.
Qed.

Lemma group_cells_of_frame (cs cols old : list string) (rs : list (list value))
    (c : string) (k : Z) :
  "Store Number" ∈ cols -> "Store Number" ∉ cs -> c ∈ cols ->
  map (fun r => at_col cols r c)
    (filter (fun r => row_key cols "Store Number" r = Some k)
       (map (fun r => zip_with (coerce_cell parse_numeric cs) cols (reindex old cols r)) rs))
  = map (coerce_cell parse_numeric cs c)
      (map (fun r => at_col old r c)
         (filter (fun r => row_key old "Store Number" r = Some k) rs)).
Proof.
  intros Hsn Hnum Hc. induction rs as [|r rs IH]; [done|].
  simpl map at 2. rewrite !filter_cons, row_key_relabelled by done.
  destruct (decide (row_key old "Store Number" r = Some k)); [|done].
  simpl. rewrite IH. f_equal.
  rewrite at_col_zip_with by apply coerce_cell_NA.
  by rewrite at_col_reindex.
Qed.

(** The rows of the concatenated and coerced frame, table by table. *)
Lemma combined_rows (cs cols : list string) (dfs : list DataFrame) :
  map (fun r => zip_with (coerce_cell parse_numeric cs) cols r)
    (flat_map (fun df => map (reindex (columns df) cols) (rows df)) dfs)
  = flat_map
      (fun df => map (fun r => zip_with (coerce_cell parse_numeric cs) cols
                                 (reindex (columns df) cols r)) (rows df))
      dfs.
Proof.
  induction dfs as [|df dfs IH]; [done|].
  simpl. rewrite map_app, IH. f_equal. by rewrite map_map.
Qed.

Lemma group_cells_combined (cs cols : list string) (dfs : list DataFrame)
    (c : string) (k : Z) :
  "Store Number" ∈ cols -> "Store Number" ∉ cs -> c ∈ cols ->
  map (fun r => at_col cols r c)
    (filter (fun r => row_key cols "Store Number" r = Some k)
       (map (fun r => zip_with (coerce_cell parse_numeric cs) cols r)
          (flat_map (fun df => map (reindex (columns df) cols) (rows df)) dfs)))
  = map (coerce_cell parse_numeric cs c) (group_cells dfs k c).
Proof.
  intros Hsn Hnum Hc. rewrite combined_rows. unfold group_cells.
  induction dfs as [|df dfs IH]; [done|].
  simpl. rewrite filter_app, !map_app, IH. f_equal.
  by apply group_cells_of_frame.
Qed.

Lemma keys_of_frame (cs cols old : list string) (rs : list (list value)) :
  "Store Number" ∈ cols -> "Store Number" ∉ cs ->
  omap (row_key cols "Store Number")
    (map (fun r => zip_with (coerce_cell parse_numeric cs) cols (reindex old cols r)) rs)
  = omap (row_key old "Store Number") rs.
Proof.
  intros Hsn Hnum. induction rs as [|r rs IH]; [done|].
  cbn [map omap list_omap]. rewrite row_key_relabelled by done.
  destruct (row_key old "Store Number" r); by rewrite IH.
Qed.

Lemma combined_keys (cs cols : list string) (dfs : list DataFrame) :
  "Store Number" ∈ cols -> "Store Number" ∉ cs ->
  omap (row_key cols "Store Number")
    (map (fun r => zip_with (coerce_cell parse_numeric cs) cols r)
       (flat_map (fun df => map (reindex (columns df) cols) (rows df)) dfs))
  = store_numbers dfs.
Proof.
  intros Hsn Hnum. rewrite combined_rows. unfold store_numbers.
  induction dfs as [|df dfs IH]; [done|].
  simpl. rewrite omap_app, IH. f_equal. by apply keys_of_frame.
Qed.


Lemma Sorted_map_inv {A B : Type} (R : relation B) (R' : relation A) (f : A -> B)
    (l : list A) :
  (forall x y, R (f x) (f y) -> R' x y) -> Sorted R (map f l) -> Sorted R' l.
Proof.
  intros HR. induction l as [|a l IH]; simpl; intros HS; [constructor|].
  inversion HS as [|? ? Hs Hhd]; subst. constructor; [by apply IH|].
  destruct l as [|b l]; simpl in *; [constructor|].
  inversion Hhd; subst. constructor. by apply HR.
Qed.

#[local] Instance key_le_total : Total key_le.
Proof. intros [x|] [y|]; simpl; auto. lia. Qed.

#[local] Instance row_le_total (cols : list string) (by_ : string) :
  Total (row_le cols by_).
Proof. intros r1 r2. unfold row_le. apply key_le_total. Qed.

Lemma merge_allocations_nonempty (dfs : list DataFrame) :
  dfs ≠ [] ->
  merge_allocations parse_numeric dfs =
    (let combined := concat dfs in
     let num_cols := filter (fun c => c ∉ KEY_COLS) (columns combined) in
     let combined := apply_to_numeric parse_numeric combined num_cols in
     let agg_rules :=
       map (fun c => (c, if in_key_cols c then First else Sum))
           (filter (fun c => c ≠ "Store Number") (columns combined)) in
     grouped ← groupby_agg combined "Store Number" agg_rules;
     sort_values grouped "Store Number").
Proof. by destruct dfs. Qed.

Lemma store_number_is_key : "Store Number" ∈ KEY_COLS.
Proof. unfold KEY_COLS. left. Qed.

Lemma merged_cells_of_rules (dfs : list DataFrame) (k : Z) (c : string) :
  let cols := union_columns dfs in
  let num_cols := filter (fun c => c ∉ KEY_COLS) cols in
  "Store Number" ∈ cols -> c ∈ cols ->
  aggregate (if in_key_cols c then First else Sum)
    (map (fun r => at_col cols r c)
       (filter (fun r => row_key cols "Store Number" r = Some k)
          (map (fun r => zip_with (coerce_cell parse_numeric num_cols) cols r)
             (flat_map (fun df => map (reindex (columns df) cols) (rows df)) dfs))))
  = merged_cell parse_numeric dfs k c.
Proof.
  intros cols num_cols Hsn Hc.
  assert ("Store Number" ∉ num_cols) as Hnum.
  { intros [Hk _]%list_elem_of_filter. apply Hk, store_number_is_key. }
  rewrite group_cells_combined by done.
  unfold merged_cell, in_key_cols. case_bool_decide as Hkey; simpl.
  - f_equal. rewrite <- (map_id (group_cells dfs k c)) at 2.
    apply map_ext. intros v. unfold coerce_cell.
    rewrite bool_decide_eq_false_2; [done|].
    intros [Hk _]%list_elem_of_filter. by apply Hk.
  - f_equal. apply map_ext. intros v. unfold coerce_cell.
    rewrite bool_decide_eq_true_2; [done|].
    apply list_elem_of_filter. split; done.
Qed.

(** merge_allocations on a non-empty list of tables with a store-number
    column: its labels, and its rows as one [merged_row] per store number,
    in ascending order without repetition. *)
Lemma merge_allocations_spec (dfs : list DataFrame) :
  dfs ≠ [] -> "Store Number" ∈ union_columns dfs ->
  exists ks : list Z,
    merge_allocations parse_numeric dfs
    = Ok (mkDF ("Store Number" :: filter (fun c => c ≠ "Store Number") (union_columns dfs))
            (map (merged_row parse_numeric dfs) ks))
    /\ NoDup ks /\ Sorted Z.le ks /\ (forall k, k ∈ ks <-> k ∈ store_numbers dfs).
Proof.
  intros Hne Hsn. rewrite merge_allocations_nonempty by done.
  cbv zeta. unfold concat, apply_to_numeric. cbn [columns rows].
  set (cols := union_columns dfs) in *.
  set (num_cols := filter (fun c => c ∉ KEY_COLS) cols).
  assert ("Store Number" ∉ num_cols) as Hnum.
  { intros [Hk _]%list_elem_of_filter. apply Hk, store_number_is_key. }
  unfold groupby_agg. cbn [columns rows].
  rewrite bool_decide_eq_true_2 by done.
  cbn [mbind outcome_bind]. unfold sort_values. cbn [columns rows].
  rewrite bool_decide_eq_true_2 by left.
  rewrite combined_keys by done.
  rewrite !map_map. cbn [fst snd].
  rewrite (map_id (filter (fun c => c ≠ "Store Number") cols)).
  set (keys := merge_sort Z.le (remove_dups (store_numbers dfs))).
  set (gcols := "Store Number" :: filter (fun c => c ≠ "Store Number") cols).
  match goal with |- context [merge_sort (row_le gcols _) (map ?f keys)] =>
    assert (map f keys = map (merged_row parse_numeric dfs) keys) as ->
  end.
  { apply map_ext. intros k. unfold merged_row. f_equal.
    rewrite map_map. cbn [fst snd]. apply map_ext_in. intros c Hc%list_elem_of_In%list_elem_of_filter.
    destruct Hc as [_ Hc]. by apply merged_cells_of_rules. }
  set (sorted := merge_sort (row_le gcols "Store Number")
                   (map (merged_row parse_numeric dfs) keys)).
  assert (sorted ≡ₚ map (merged_row parse_numeric dfs) keys) as Hperm
    by apply merge_sort_Permutation.
  destruct (Permutation_map_inv _ _ Hperm) as (ks & Hks & Hpk).
  exists ks. split; [by rewrite Hks|].
  assert (keys ≡ₚ remove_dups (store_numbers dfs)) as Hkeys
    by apply merge_sort_Permutation.
  split; [|split].
  - rewrite <- Hpk, Hkeys. apply NoDup_remove_dups.
  - apply (Sorted_map_inv (row_le gcols "Store Number") Z.le (merged_row parse_numeric dfs)).
    + intros x y. unfold row_le, row_key, gcols, merged_row. simpl. auto.
    + rewrite <- Hks. apply (Sorted_merge_sort _).
  - intros k. by rewrite <- Hpk, Hkeys, elem_of_remove_dups.
Qed.

Lemma merge_allocations_ok_inv (dfs : list DataFrame) (m : DataFrame) :
  dfs ≠ [] -> merge_allocations parse_numeric dfs = Ok m ->
  "Store Number" ∈ union_columns dfs.
Proof.
  intros Hne Hm. destruct (decide ("Store Number" ∈ union_columns dfs)) as [|Hno]; [done|].
  rewrite merge_allocations_nonempty in Hm by done.
  cbv zeta in Hm. unfold concat, apply_to_numeric, groupby_agg in Hm.
  cbn [columns rows] in Hm. by rewrite bool_decide_eq_false_2 in Hm.
Qed.

Lemma allocation_table_columns (df : DataFrame) (c : string) :
  allocation_table df = true -> c ∈ KEY_COLS -> c ∈ columns df.
Proof.
  unfold allocation_table. rewrite !andb_true_iff, !forallb_forall.
  intros [[_ Hkeys] _] Hc. apply list_elem_of_In, Hkeys in Hc.
  by apply bool_decide_eq_true in Hc.
Qed.

Lemma allocation_tables_have_store_number (dfs : list DataFrame) :
  dfs ≠ [] -> forallb allocation_table dfs = true ->
  "Store Number" ∈ union_columns dfs.
Proof.
  intros Hne Hall. destruct dfs as [|df dfs]; [done|].
  simpl in Hall. apply andb_true_iff in Hall as [Hdf _].
  apply elem_of_union_columns. exists df. split; [left|].
  apply allocation_table_columns; [done|apply store_number_is_key].
Qed.

#[local] Instance Num_inj : Inj (=) (=) Num.
Proof. by intros x y [= ->]. Qed.

Lemma merged_store_number_series (dfs : list DataFrame) (cs : list string) (ks : list Z) :
  series (mkDF ("Store Number" :: cs) (map (merged_row parse_numeric dfs) ks))
    "Store Number"
  = map Num ks.
Proof. unfold series. cbn [columns rows]. rewrite map_map. by apply map_ext. Qed.

Lemma merged_row_at (dfs : list DataFrame) (k : Z) (c : string) :
  c ≠ "Store Number" -> c ∈ union_columns dfs ->
  at_col ("Store Number" :: filter (fun c => c ≠ "Store Number") (union_columns dfs))
    (merged_row parse_numeric dfs k) c
  = merged_cell parse_numeric dfs k c.
Proof.
  intros Hc Hin. unfold merged_row. cbn [at_col].
  rewrite bool_decide_eq_false_2 by done.
  apply at_col_map. by apply list_elem_of_filter.
Qed.

(** C1. For every non-empty list of extracted allocation tables,
    merge_allocations returns a table whose store-number column holds no
    value twice and is in ascending order. *)
Theorem merged_store_numbers_unique_sorted (dfs : list DataFrame) :
  dfs ≠ [] -> forallb allocation_table dfs = true ->
  exists (m : DataFrame) (zs : list Z),
    merge_allocations parse_numeric dfs = Ok m
    /\ series m "Store Number" = map Num zs
    /\ NoDup (series m "Store Number")
    /\ Sorted Z.le zs.
Proof.
  intros Hne Hall.
  destruct (merge_allocations_spec dfs Hne) as (ks & Hm & Hnd & Hs & _).
  { by apply allocation_tables_have_store_number. }
  eexists _, ks. split; [exact Hm|].
  rewrite merged_store_number_series. split; [done|]. split; [|done].
  apply (NoDup_fmap_2 Num), Hnd.
Qed.

Lemma merged_rows_inv (dfs : list DataFrame) (m : DataFrame) :
  dfs ≠ [] -> merge_allocations parse_numeric dfs = Ok m ->
  exists ks : list Z,
    m = mkDF ("Store Number" :: filter (fun c => c ≠ "Store Number") (union_columns dfs))
          (map (merged_row parse_numeric dfs) ks)
    /\ NoDup ks /\ Sorted Z.le ks /\ (forall k, k ∈ ks <-> k ∈ store_numbers dfs).
Proof.
  intros Hne Hm.
  destruct (merge_allocations_spec dfs Hne) as (ks & Hm' & Hrest).
  { by eapply merge_allocations_ok_inv. }
  exists ks. split; [congruence|done].
Qed.

(** The same, with the rows spelled out: the merged table is determined
    by the union of the labels, the store numbers and the cells of each
    store. *)
Lemma merge_allocations_rows (dfs : list DataFrame) :
  dfs ≠ [] -> "Store Number" ∈ union_columns dfs ->
  merge_allocations parse_numeric dfs
  = Ok (mkDF ("Store Number" :: filter (fun c => c ≠ "Store Number") (union_columns dfs))
          (merge_sort
             (row_le ("Store Number"
                      :: filter (fun c => c ≠ "Store Number") (union_columns dfs))
                "Store Number")
             (map (merged_row parse_numeric dfs)
                (merge_sort Z.le (remove_dups (store_numbers dfs)))))).
Proof.
  intros Hne Hsn. rewrite merge_allocations_nonempty by done.
  cbv zeta. unfold concat, apply_to_numeric. cbn [columns rows].
  set (cols := union_columns dfs) in *.
  set (num_cols := filter (fun c => c ∉ KEY_COLS) cols).
  assert ("Store Number" ∉ num_cols) as Hnum.
  { intros [Hk _]%list_elem_of_filter. apply Hk, store_number_is_key. }
  unfold groupby_agg. cbn [columns rows].
  rewrite bool_decide_eq_true_2 by done.
  cbn [mbind outcome_bind]. unfold sort_values. cbn [columns rows].
  rewrite bool_decide_eq_true_2 by left.
  rewrite combined_keys by done.
  rewrite !map_map. cbn [fst snd].
  rewrite (map_id (filter (fun c => c ≠ "Store Number") cols)).
  do 3 f_equal. apply map_ext. intros k. unfold merged_row. f_equal.
  rewrite map_map. cbn [fst snd]. apply map_ext_in.
  intros c Hc%list_elem_of_In%list_elem_of_filter.
  destruct Hc as [_ Hc]. by apply merged_cells_of_rules.
Qed.

Lemma merge_allocations_no_key (dfs : list DataFrame) :
  dfs ≠ [] -> "Store Number" ∉ union_columns dfs ->
  merge_allocations parse_numeric dfs = Raise KeyError.
Proof.
  intros Hne Hno. rewrite merge_allocations_nonempty by done.
  cbv zeta. unfold concat, apply_to_numeric, groupby_agg.
  cbn [columns rows]. by rewrite bool_decide_eq_false_2.
Qed.

(** ** Rows without a store number *)

Lemma union_fold_without_null_stores (dfs : list DataFrame) (acc : list string) :
  fold_left (fun acc df => acc ++ filter (fun c => c ∉ acc) (columns df))
    (map without_null_stores dfs) acc
  = fold_left (fun acc df => acc ++ filter (fun c => c ∉ acc) (columns df)) dfs acc.
Proof. revert acc. induction dfs as [|df dfs IH]; intros acc; [done|]. simpl. apply IH. Qed.

Lemma omap_filter_is_Some {A B : Type} (g : A -> option B) (l : list A) :
  omap g (filter (fun x => is_Some (g x)) l) = omap g l.
Proof.
  induction l as [|x l IH]; [done|].
  rewrite filter_cons.
  destruct (decide (is_Some (g x))) as [[y Hy]|Hn].
  - cbn [omap list_omap]. rewrite Hy. f_equal. exact IH.
  - cbn [omap list_omap]. destruct (g x) as [y|] eqn:Hx; [|exact IH].
    destruct Hn. by exists y.
Qed.

Lemma filter_key_is_Some {A B : Type} `{EqDecision B} (g : A -> option B) (k : B)
    (l : list A) :
  filter (fun x => g x = Some k) (filter (fun x => is_Some (g x)) l)
  = filter (fun x => g x = Some k) l.
Proof.
  induction l as [|x l IH]; [done|].
  rewrite !filter_cons.
  destruct (decide (g x = Some k)) as [Hk|Hk].
  - rewrite decide_True by (by rewrite Hk). rewrite filter_cons.
    rewrite decide_True by done. by rewrite IH.
  - destruct (decide (is_Some (g x))); [|done].
    rewrite filter_cons. by rewrite decide_False.
Qed.

Lemma store_numbers_without_null_stores (dfs : list DataFrame) :
  store_numbers (map without_null_stores dfs) = store_numbers dfs.
Proof.
  unfold store_numbers. induction dfs as [|df dfs IH]; [done|].
  simpl. rewrite IH. f_equal. apply omap_filter_is_Some.
Qed.

Lemma group_cells_without_null_stores (dfs : list DataFrame) (k : Z) (c : string) :
  group_cells (map without_null_stores dfs) k c = group_cells dfs k c.
Proof.
  unfold group_cells. induction dfs as [|df dfs IH]; [done|].
  simpl. rewrite IH. do 2 f_equal.
  apply (filter_key_is_Some (row_key (columns df) "Store Number")).
Qed.

(** merge_allocations returns the same table when the rows without a
    store number are removed from its input. *)
Lemma merge_without_null_stores (dfs : list DataFrame) :
  merge_allocations parse_numeric (map without_null_stores dfs)
  = merge_allocations parse_numeric dfs.
Proof.
  destruct (decide (dfs = [])) as [->|Hne]; [done|].
  assert (map without_null_stores dfs ≠ []) as Hne' by (by destruct dfs).
  assert (union_columns (map without_null_stores dfs) = union_columns dfs) as Hcols
    by apply union_fold_without_null_stores.
  destruct (decide ("Store Number" ∈ union_columns dfs)) as [Hsn|Hno].
  - rewrite !merge_allocations_rows by (done || by rewrite Hcols).
    rewrite Hcols, store_numbers_without_null_stores.
    do 3 f_equal. apply map_ext. intros k. unfold merged_row. rewrite Hcols.
    f_equal. apply map_ext. intros c. unfold merged_cell.
    by rewrite group_cells_without_null_stores.
  - rewrite !merge_allocations_no_key by (done || by rewrite Hcols). done.
Qed.

Lemma agg_first_head (v : value) (vs : list value) :
  v ≠ NA -> agg_first (v :: vs) = v.
Proof. by destruct v. Qed.

Lemma agg_first_null (vs : list value) :
  agg_first vs = NA <-> forall v, v ∈ vs -> v = NA.
Proof.
  induction vs as [|v vs IH]; simpl.
  - split; [|done]. intros _ v Hv. by apply elem_of_nil in Hv.
  - destruct v as [|z|s].
    + rewrite IH. split.
      * intros H v [->|?]%elem_of_cons; [done|by apply H].
      * intros H v ?. apply H. by right.
    + split; [done|]. intros H. apply H. left.
    + split; [done|]. intros H. apply H. left.
Qed.

(** C6, as amended. Each key-attribute column of a merged row holds the
    first value that is not null among the rows of the store, in
    concatenation order of the input tables: the first row's value when
    that one is not null, and null only when every row of the store is
    null there. *)
Theorem key_attribute_first_non_null (dfs : list DataFrame) (m : DataFrame)
    (r : list value) (c : string) :
  dfs ≠ [] -> forallb allocation_table dfs = true ->
  merge_allocations parse_numeric dfs = Ok m ->
  r ∈ rows m -> c ∈ KEY_COLS -> c ≠ "Store Number" ->
  exists k : Z,
    at_col (columns m) r "Store Number" = Num k
    /\ at_col (columns m) r c = agg_first (group_cells dfs k c)
    /\ (forall v vs, group_cells dfs k c = v :: vs -> v ≠ NA ->
          at_col (columns m) r c = v)
    /\ (at_col (columns m) r c = NA <-> forall v, v ∈ group_cells dfs k c -> v = NA).
Proof.
  intros Hne Hall Hm Hr Hkey Hc.
  destruct (merged_rows_inv dfs m Hne Hm) as (ks & -> & _).
  cbn [rows columns] in *.
  apply list_elem_of_In, in_map_iff in Hr as (k & <- & _).
  exists k. split; [done|].
  assert (c ∈ union_columns dfs) as Hin.
  { destruct dfs as [|df dfs]; [done|]. simpl in Hall.
    apply andb_true_iff in Hall as [Hdf _].
    apply elem_of_union_columns. exists df. split; [left|].
    by apply allocation_table_columns. }
  rewrite merged_row_at by done.
  unfold merged_cell, in_key_cols. rewrite bool_decide_eq_true_2 by done.
  split; [done|]. split.
  - intros v vs -> Hv. by apply agg_first_head.
  - apply agg_first_null.
Qed.

(** C4. When two tables both carry an item column, and a store has one
    row in each with quantities 3 and 5 there, merge_allocations returns
    a table with a single row for that store, and that row shows 8 in
    that column. *)
Theorem shared_item_column_quantities_add_up (d1 d2 : DataFrame) (c : string)
    (k : Z) (r1 r2 : list value) :
  forallb allocation_table [d1; d2] = true ->
  c ∉ KEY_COLS ->
  filter (fun r => row_key (columns d1) "Store Number" r = Some k) (rows d1) = [r1] ->
  filter (fun r => row_key (columns d2) "Store Number" r = Some k) (rows d2) = [r2] ->
  at_col (columns d1) r1 c = Num 3 ->
  at_col (columns d2) r2 c = Num 5 ->
  exists (m : DataFrame) (r : list value),
    merge_allocations parse_numeric [d1; d2] = Ok m
    /\ r ∈ rows m
    /\ at_col (columns m) r "Store Number" = Num k
    /\ at_col (columns m) r c = Num 8
    /\ (forall r', r' ∈ rows m -> at_col (columns m) r' "Store Number" = Num k -> r' = r).
Proof.
  intros Hall Hc H1 H2 Hv1 Hv2.
  assert ([d1; d2] ≠ []) as Hne by done.
  destruct (merge_allocations_spec [d1; d2] Hne) as (ks & Hm & _ & _ & Hks).
  { by apply allocation_tables_have_store_number. }
  eexists _, (merged_row parse_numeric [d1; d2] k). split; [exact Hm|].
  cbn [rows columns].
  assert (r1 ∈ rows d1 /\ row_key (columns d1) "Store Number" r1 = Some k) as [Hr1 Hk1].
  { assert (r1 ∈ filter (fun r => row_key (columns d1) "Store Number" r = Some k) (rows d1))
      as Hin by (rewrite H1; left).
    apply list_elem_of_filter in Hin. tauto. }
  split; [|split; [|split]].
  - apply list_elem_of_In, in_map, list_elem_of_In, Hks.
    unfold store_numbers. apply list_elem_of_In, in_flat_map.
    exists d1. split; [by left|].
    apply list_elem_of_In, list_elem_of_omap. eauto.
  - done.
  - rewrite merged_row_at.
    + unfold merged_cell, in_key_cols. rewrite bool_decide_eq_false_2 by done.
      unfold group_cells. simpl. rewrite H1, H2. simpl. by rewrite Hv1, Hv2.
    + intros ->. apply Hc, store_number_is_key.
    + apply elem_of_union_columns. exists d1. split; [left|].
      destruct (decide (c ∈ columns d1)) as [|Hno]; [done|].
      by rewrite (at_col_missing _ _ _ Hno) in Hv1.
  - intros r' (k' & <- & _)%list_elem_of_In%in_map_iff Hk'.
    simpl in Hk'. by injection Hk' as ->.
Qed.

(** ** extract_alloc *)

Lemma find_none_forallb {A : Type} (f : A -> bool) (l : list A) :
  find f l = None <-> forallb (fun x => negb (f x)) l = true.
Proof.
  induction l as [|a l IH]; simpl; [done|].
  destruct (f a); simpl; [split; discriminate|done].
Qed.

(** On labels that are all texts the search is a plain find. *)
Lemma locate_store_number_text (cols : list string) :
  locate_store_number (map Str cols)
  = match find is_store_number cols with
    | Some c => Ok c
    | None => Stopped (StError STORE_NUMBER_MISSING)
    end.
Proof.
  induction cols as [|c cols IH]; simpl; [done|].
  by destruct (is_store_number c).
Qed.

Lemma extract_alloc_missing (file : UploadedFile) :
  lacks_store_number file = true ->
  extract_alloc parse_numeric file = Stopped (StError STORE_NUMBER_MISSING).
Proof.
  unfold lacks_store_number, extract_alloc. intros H%find_none_forallb.
  by rewrite locate_store_number_text, H.
Qed.

Lemma extract_alloc_ok_inv (file : UploadedFile) (df : DataFrame)
    (meta_ : gmap string MetaEntry) :
  extract_alloc parse_numeric file = Ok (df, meta_) ->
  exists store_col,
    find is_store_number (map Py.strip (header file)) = Some store_col
    /\ columns df = extracted_labels file store_col
    /\ rows df = map (fun r => zip_with (coerce_cell parse_numeric ["Store Number"])
                                 (columns df) r) (data file)
    /\ read_meta (raw file) = Ok meta_.
Proof.
  unfold extract_alloc. rewrite locate_store_number_text. intros H.
  destruct (find is_store_number (map Py.strip (header file))) as [sc|] eqn:Hf;
    [|discriminate].
  exists sc. split; [done|].
  cbn [mbind outcome_bind] in H.
  fold (extracted_labels file sc) in H.
  unfold store_number_to_Int64 in H. cbn [columns] in H.
  destruct (1 <? _)%nat; [discriminate|].
  destruct (forallb _ _); [|discriminate].
  cbn [mbind outcome_bind] in H.
  destruct (read_meta (raw file)) as [m| |]; cbn in H; [|discriminate..].
  injection H as <- <-. done.
Qed.

Lemma extracted_labels_store_number (file : UploadedFile) (store_col : string) :
  find is_store_number (map Py.strip (header file)) = Some store_col ->
  "Store Number" ∈ extracted_labels file store_col.
Proof.
  intros [Hin _]%find_some. unfold extracted_labels.
  destruct (String.eqb store_col "Store Number") eqn:He.
  - apply String.eqb_eq in He as <-. by apply list_elem_of_In.
  - apply list_elem_of_In, in_map_iff. exists store_col.
    by rewrite String.eqb_refl.
Qed.

Lemma extracted_labels_other (file : UploadedFile) (store_col c : string) :
  c ≠ "Store Number" -> c ∈ extracted_labels file store_col ->
  c ∈ map Py.strip (header file).
Proof.
  intros Hc. unfold extracted_labels.
  destruct (String.eqb store_col "Store Number"); [done|].
  intros (c' & Hc' & Hin)%list_elem_of_In%in_map_iff.
  destruct (String.eqb c' store_col); [done|]. subst. by apply list_elem_of_In.
Qed.

(** C5 needs the cells of the store-number column after extraction. *)
Lemma extract_alloc_store_numbers (file : UploadedFile) (df : DataFrame)
    (meta_ : gmap string MetaEntry) :
  extract_alloc parse_numeric file = Ok (df, meta_) ->
  series df "Store Number"
  = map (to_numeric parse_numeric)
      (series (mkDF (columns df) (data file)) "Store Number").
Proof.
  intros (sc & _ & _ & Hrows & _)%extract_alloc_ok_inv.
  unfold series. cbn [columns rows]. rewrite Hrows, !map_map.
  apply map_ext. intros r.
  rewrite at_col_zip_with by apply coerce_cell_NA.
  unfold coerce_cell. rewrite bool_decide_eq_true_2; [done|left].
Qed.

Lemma int64_safe_int64 (v : value) :
  int64_safe v = true -> match v with Num z => int64 z | _ => true end = true.
Proof.
  destruct v as [|z|s]; [done| |done]. unfold int64_safe, int64.
  change (2 ^ 53) with 9007199254740992. change (2 ^ 63) with 9223372036854775808.
  intros H%Z.leb_le. apply andb_true_iff. split; [apply Z.leb_le|apply Z.ltb_lt]; lia.
Qed.

(** Once a sheet is extracted, the same sheet with other data rows is
    extracted too, provided the cast accepts their store-number cells. *)
Lemma extract_alloc_safe_cells (h : list string) (d d' r : list (list value))
    (df : DataFrame) (meta_ : gmap string MetaEntry) :
  extract_alloc parse_numeric (mkFile h d r) = Ok (df, meta_) ->
  Forall (fun row => int64_safe (to_numeric parse_numeric
                                   (at_col (columns df) row "Store Number")) = true) d' ->
  is_ok (extract_alloc parse_numeric (mkFile h d' r)) = true.
Proof.
  intros He Hsafe.
  pose proof (extract_alloc_ok_inv _ _ _ He) as (sc & Hf & Hcols & _ & Hmeta).
  cbn [header raw] in Hf, Hcols, Hmeta. unfold extracted_labels in Hcols.
  cbn [header] in Hcols.
  unfold extract_alloc in He |- *. cbn [header data raw] in He |- *.
  rewrite locate_store_number_text, Hf in He |- *.
  cbn [mbind outcome_bind] in He |- *. rewrite <- Hcols in He |- *.
  unfold store_number_to_Int64 in He |- *. cbn [columns] in He |- *.
  destruct (1 <? _)%nat; [discriminate|].
  rewrite (proj2 (forallb_forall _ _)).
  - cbn [mbind outcome_bind]. by rewrite Hmeta.
  - intros v (row & <- & Hrow)%in_map_iff. cbn [columns rows apply_to_numeric] in *.
    apply in_map_iff in Hrow as (row0 & <- & Hrow0).
    rewrite at_col_zip_with by apply coerce_cell_NA.
    unfold coerce_cell. rewrite bool_decide_eq_true_2 by left.
    apply int64_safe_int64. rewrite Forall_forall in Hsafe.
    by apply Hsafe, list_elem_of_In.
Qed.

(** ** The upload loop *)

Lemma for_each_app {A S : Type} (body : S -> A -> outcome S) (l1 l2 : list A) (s : S) :
  for_each body (l1 ++ l2) s = (s' ← for_each body l1 s; for_each body l2 s').
Proof.
  revert s; induction l1 as [|a l1 IH]; intros s; simpl; [done|].
  destruct (body s a); simpl; [apply IH|done..].
Qed.

Lemma classify_fold (l : list string) (S : gset string) (D N : list string)
    (S' : gset string) (D' N' : list string) :
  fold_left classify l (S, D, N) = (S', D', N') ->
  (forall c, c ∈ N -> c ∈ S) -> NoDup N ->
  (forall c, c ∈ S' <-> c ∈ S \/ c ∈ l)
  /\ (forall c, c ∈ N' <-> c ∈ N \/ (c ∈ l /\ c ∉ S))
  /\ NoDup N'
  /\ (forall c, c ∈ D -> c ∈ D')
  /\ (forall c, c ∈ l -> c ∈ S -> c ∈ D').
Proof.
  revert S D N. induction l as [|c0 l IH]; intros S D N Hf HN Hnd.
  - simpl in Hf. injection Hf as <- <- <-. split_and!; try done.
    + intros c. rewrite elem_of_nil. tauto.
    + intros c. rewrite elem_of_nil. tauto.
    + intros c Hc. by apply elem_of_nil in Hc.
  - simpl in Hf. case_bool_decide as Hc0.
    + apply IH in Hf as (HS' & HN' & Hnd' & HD & HD'); [|done..].
      split_and!; [| |done| |].
      * intros c. rewrite HS', elem_of_cons.
        split; [tauto|]. intros [?|[->|?]]; auto.
      * intros c. rewrite HN', elem_of_cons.
        split; [tauto|]. intros [?|[[->|?] ?]]; auto. done.
      * intros c Hc. apply HD, elem_of_app. by left.
      * intros c [->|Hc]%elem_of_cons HcS; [|by apply HD'].
        apply HD, elem_of_app. right. left.
    + apply IH in Hf as (HS' & HN' & Hnd' & HD & HD').
      * split_and!; [| |done|done|].
        -- intros c. rewrite HS', elem_of_union, elem_of_singleton, elem_of_cons.
           tauto.
        -- intros c.
           rewrite HN', elem_of_app, list_elem_of_singleton, elem_of_union,
             elem_of_singleton, elem_of_cons.
           split.
           ++ intros [[? | ->] | [? Hn]]; [by left|right; auto|right].
              split; [by right|]. intros ?. apply Hn. by right.
           ++ intros [?|[[->|?] Hn]]; [by left; left|by left; right|].
              destruct (decide (c = c0)) as [->|Hne]; [by left; right|].
              right. split; [done|]. intros [?|?]; done.
        -- intros c [->|Hc]%elem_of_cons HcS; [done|].
           apply HD'; [done|]. apply elem_of_union. by right.
      * intros c [?|Hc]%elem_of_app; apply elem_of_union.
        -- right. by apply HN.
        -- left. apply list_elem_of_singleton in Hc. by apply elem_of_singleton.
      * apply NoDup_app. split; [done|]. split; [|apply NoDup_singleton].
        intros c Hc Hc'. apply list_elem_of_singleton in Hc' as ->.
        by apply Hc0, HN.
Qed.

Lemma forallb_elem_of (cols : list string) (l : list string) :
  forallb (fun c => bool_decide (c ∈ cols)) l = true <-> forall c, c ∈ l -> c ∈ cols.
Proof.
  rewrite forallb_forall. split.
  - intros H c Hc%list_elem_of_In. apply H in Hc. by apply bool_decide_eq_true in Hc.
  - intros H c Hc%list_elem_of_In. apply bool_decide_eq_true. by apply H.
Qed.

Lemma upload_step_ok_inv (st st' : LoopState) (f : UploadedFile) :
  upload_step parse_numeric st f = Ok st' ->
  exists df meta_ new_cols,
    extract_alloc parse_numeric f = Ok (df, meta_)
    /\ (forall k, k ∈ KEY_COLS -> k ∈ columns df)
    /\ all_dfs st' = all_dfs st
         ++ [mkDF (KEY_COLS ++ new_cols)
               (map (reindex (columns df) (KEY_COLS ++ new_cols)) (rows df))]
    /\ (forall c, c ∈ new_cols <-> c ∈ item_columns df /\ c ∉ seen_refs st)
    /\ NoDup new_cols
    /\ (forall c, c ∈ seen_refs st' <-> c ∈ seen_refs st \/ c ∈ item_columns df)
    /\ (forall c, c ∈ duplicates st -> c ∈ duplicates st')
    /\ (forall c, c ∈ item_columns df -> c ∈ seen_refs st -> c ∈ duplicates st').
Proof.
  unfold upload_step. intros H.
  destruct (extract_alloc parse_numeric f) as [[df meta_]| |] eqn:He;
    cbn [mbind outcome_bind] in H; [|discriminate..].
  destruct (fold_left classify (item_columns df) (seen_refs st, duplicates st, []))
    as [[seen dups] new_cols] eqn:Hc.
  unfold getitem in H.
  destruct (forallb _ (KEY_COLS ++ new_cols)) eqn:Hsel;
    cbn [mbind outcome_bind] in H; [|discriminate].
  injection H as <-. cbn [all_dfs seen_refs duplicates].
  apply classify_fold in Hc as (HS & HN & Hnd & HD & HD'); [| |constructor].
  - exists df, meta_, new_cols. split_and!; try done.
    + intros k Hk. apply (proj1 (forallb_elem_of _ _) Hsel).
      apply elem_of_app. by left.
    + intros c. rewrite HN, elem_of_nil. tauto.
  - intros c Hc'. by apply elem_of_nil in Hc'.
Qed.

Lemma item_columns_not_key (df : DataFrame) (c : string) :
  c ∈ item_columns df <-> c ∈ columns df /\ c ∉ KEY_COLS.
Proof. unfold item_columns. rewrite list_elem_of_filter. tauto. Qed.

Lemma NoDup_KEY_COLS : NoDup KEY_COLS.
Proof. apply (bool_decide_unpack _). by vm_compute. Qed.

Lemma item_refs_extracted (f : UploadedFile) (df : DataFrame)
    (meta_ : gmap string MetaEntry) :
  extract_alloc parse_numeric f = Ok (df, meta_) ->
  item_refs parse_numeric f = item_columns df.
Proof. unfold item_refs. by intros ->. Qed.

(** What the loop over the uploads leaves behind: one table per upload,
    each with unique labels and its store-number column; an item label of
    a new table was not seen before the loop and comes from one of the
    uploads; the references seen are those seen before plus the item
    references of the uploads; a reference seen before the loop and met
    again is recorded as a duplicate. *)
Lemma upload_loop_inv (files : list UploadedFile) (st st' : LoopState) :
  for_each (upload_step parse_numeric) files st = Ok st' ->
  exists frames,
    all_dfs st' = all_dfs st ++ frames
    /\ Forall (fun fr =>
         NoDup (columns fr) /\ (forall k, k ∈ KEY_COLS -> k ∈ columns fr)
         /\ (forall c, c ∈ columns fr -> c ∉ KEY_COLS ->
               (c ∉ seen_refs st)
               /\ (exists f, f ∈ files /\ c ∈ item_refs parse_numeric f)))
         frames
    /\ (forall c, c ∈ seen_refs st' <->
          c ∈ seen_refs st \/ exists f, f ∈ files /\ c ∈ item_refs parse_numeric f)
    /\ (forall c, c ∈ duplicates st -> c ∈ duplicates st')
    /\ (forall c, c ∈ seen_refs st ->
          (exists f, f ∈ files /\ c ∈ item_refs parse_numeric f) -> c ∈ duplicates st').
Proof.
  revert st. induction files as [|f files IH]; intros st H.
  - simpl in H. injection H as <-. exists []. rewrite app_nil_r.
    split_and!; try done.
    + intros c. split; [by left|]. intros [?|(f & Hf & _)]; [done|].
      by apply elem_of_nil in Hf.
    + intros c _ (f & Hf & _). by apply elem_of_nil in Hf.
  - simpl in H.
    destruct (upload_step parse_numeric st f) as [st1| |] eqn:Hstep;
      cbn [mbind outcome_bind] in H; [|discriminate..].
    apply upload_step_ok_inv in Hstep
      as (df & meta_ & new_cols & He & Hkeys & Hdfs & Hnew & Hnd & Hseen & Hd & Hd').
    apply IH in H as (frames & Hdfs' & Hfr & Hseen' & Hdd & Hdd').
    pose proof (item_refs_extracted f df meta_ He) as Hrefs.
    eexists (_ :: frames). split_and!.
    + rewrite Hdfs', Hdfs, <- app_assoc. done.
    + constructor; cbn [columns].
      * split_and!.
        -- apply NoDup_app. split; [apply NoDup_KEY_COLS|]. split; [|done].
           intros c Hk [Hc _]%Hnew. by apply item_columns_not_key in Hc as [_ ?].
        -- intros k Hk. apply elem_of_app. by left.
        -- intros c [?|[Hc Hns]%Hnew]%elem_of_app Hnk; [done|].
           split; [done|]. exists f. split; [left|by rewrite Hrefs].
      * eapply Forall_impl; [exact Hfr|]. cbn beta.
        intros fr (Hn & Hk & Hc). split_and!; [done..|].
        intros c Hin Hnk. destruct (Hc c Hin Hnk) as [Hns (f' & Hf' & Hr)].
        split.
        -- intros Hs. apply Hns, Hseen. by left.
        -- exists f'. split; [by right|done].
    + intros c. rewrite Hseen', Hseen. split.
      * intros [[?|Hc]|(f' & Hf' & Hr)].
        -- by left.
        -- right. exists f. split; [left|by rewrite Hrefs].
        -- right. exists f'. split; [by right|done].
      * intros [?|(f' & [->|Hf']%elem_of_cons & Hr)].
        -- by left; left.
        -- left; right. by rewrite <- Hrefs.
        -- right. by exists f'.
    + intros c Hc. by apply Hdd, Hd.
    + intros c Hs (f' & [->|Hf']%elem_of_cons & Hr).
      * apply Hdd, Hd'; [by rewrite <- Hrefs|done].
      * apply Hdd'; [apply Hseen; by left|by exists f'].
Qed.

Lemma script_ok_inv (con ts : string) (files : list UploadedFile) (page : Page) :
  script parse_numeric con ts files = Ok page ->
  exists st,
    files ≠ []
    /\ for_each (upload_step parse_numeric) files initial_state = Ok st
    /\ merge_allocations parse_numeric (all_dfs st) = Ok (master_df page)
    /\ build_workbook (master_df page) (meta st) con = Ok (workbook page)
    /\ warning page =
         match duplicates st with
         | [] => None
         | _ => Some ("Duplicate brief reference(s) ignored: "
                      +:+ Py.join ", " (reported_duplicates (duplicates st)))
         end.
Proof.
  unfold script. intros H. destruct files as [|f files]; [discriminate|].
  destruct (for_each (upload_step parse_numeric) (f :: files) initial_state)
    as [st| |] eqn:Hloop; cbn [mbind outcome_bind] in H; [|discriminate..].
  destruct (merge_allocations parse_numeric (all_dfs st)) as [m| |] eqn:Hm;
    cbn [mbind outcome_bind] in H; [|discriminate..].
  destruct (build_workbook m (meta st) con) as [wb| |] eqn:Hwb;
    cbn [mbind outcome_bind] in H; [|discriminate..].
  injection H as <-. exists st. cbn [master_df workbook warning].
  by split_and!.
Qed.

Lemma foldr_add_app (l1 l2 : list Z) :
  foldr Z.add 0 (l1 ++ l2) = foldr Z.add 0 l1 + foldr Z.add 0 l2.
Proof. induction l1 as [|x l1 IH]; simpl; lia. Qed.

Lemma group_cells_app (l1 l2 : list DataFrame) (k : Z) (c : string) :
  group_cells (l1 ++ l2) k c = group_cells l1 k c ++ group_cells l2 k c.
Proof. unfold group_cells. apply flat_map_app. Qed.

Lemma group_cells_absent (frs : list DataFrame) (k : Z) (c : string) :
  Forall (fun fr => c ∉ columns fr) frs ->
  foldr Z.add 0
    (map number_or_zero (map (to_numeric parse_numeric) (group_cells frs k c))) = 0.
Proof.
  induction 1 as [|fr frs Hc _ IH]; [done|].
  change (fr :: frs) with ([fr] ++ frs).
  rewrite group_cells_app, !map_app, foldr_add_app, IH.
  unfold group_cells. simpl. rewrite app_nil_r.
  induction (filter _ (rows fr)) as [|r rs IHr]; [done|].
  simpl. rewrite at_col_missing by done. simpl. lia.
Qed.

Lemma row_key_reindex (old cols : list string) (r : list value) :
  "Store Number" ∈ cols ->
  row_key cols "Store Number" (reindex old cols r) = row_key old "Store Number" r.
Proof. intros. unfold row_key. by rewrite at_col_reindex. Qed.

Lemma group_cells_reindexed (old cols : list string) (rs : list (list value))
    (c : string) (k : Z) :
  "Store Number" ∈ cols -> c ∈ cols ->
  map (fun r => at_col cols r c)
    (filter (fun r => row_key cols "Store Number" r = Some k) (map (reindex old cols) rs))
  = map (fun r => at_col old r c)
      (filter (fun r => row_key old "Store Number" r = Some k) rs).
Proof.
  intros Hsn Hc. induction rs as [|r rs IH]; [done|].
  simpl map at 2. rewrite !filter_cons, row_key_reindex by done.
  destruct (decide (row_key old "Store Number" r = Some k)); [|done].
  simpl. by rewrite IH, at_col_reindex.
Qed.

Lemma count_NoDup (l : list string) (c : string) :
  NoDup l -> c ∈ l -> List.length (filter (fun x => x = c) l) = 1%nat.
Proof.
  induction 1 as [|x l Hx Hnd IH]; intros Hc; [by apply elem_of_nil in Hc|].
  rewrite filter_cons. destruct (decide (x = c)) as [->|Hne].
  - simpl. f_equal. apply length_zero_iff_nil.
    destruct (filter _ l) as [|y ys] eqn:Hf; [done|].
    assert (y ∈ filter (fun x => x = c) l) as [-> ?]%list_elem_of_filter
      by (rewrite Hf; left). done.
  - apply IH. by apply elem_of_cons in Hc as [->|?].
Qed.

Lemma group_cells_single (fr : DataFrame) (k : Z) (c : string) :
  group_cells [fr] k c
  = map (fun r => at_col (columns fr) r c)
      (filter (fun r => row_key (columns fr) "Store Number" r = Some k) (rows fr)).
Proof. unfold group_cells. simpl. apply app_nil_r. Qed.

(** C2. Whenever the same item reference is a column of two different
    uploads, the merged table carries that column exactly once, its value
    for each store is the quantity of that store in the first upload that
    has the reference, and the reference is listed in the warning about
    ignored duplicates; the run still completes. Uploads are taken with
    the labels read_excel gives them, distinct within a sheet. *)
Theorem duplicate_reference_first_wins (con ts : string) (files : list UploadedFile)
    (page : Page) (i j : nat) (fi fj : UploadedFile) (c : string) :
  forallb unique_labels files = true ->
  script parse_numeric con ts files = Ok page ->
  files !! i = Some fi -> files !! j = Some fj -> (i < j)%nat ->
  c ∈ item_refs parse_numeric fi -> c ∈ item_refs parse_numeric fj ->
  exists (i0 : nat) (f0 : UploadedFile) (df0 : DataFrame)
         (meta0 : gmap string MetaEntry) (dups : list string),
    (i0 <= i)%nat /\ files !! i0 = Some f0
    /\ (forall i' f', (i' < i0)%nat -> files !! i' = Some f' ->
          c ∉ item_refs parse_numeric f')
    /\ extract_alloc parse_numeric f0 = Ok (df0, meta0)
    /\ c ∈ item_columns df0
    /\ List.length (filter (fun x => x = c) (columns (master_df page))) = 1%nat
    /\ (forall r, r ∈ rows (master_df page) ->
          exists k,
            at_col (columns (master_df page)) r "Store Number" = Num k
            /\ at_col (columns (master_df page)) r c
               = Num (store_total parse_numeric df0 k c))
    /\ c ∈ dups
    /\ warning page
       = Some ("Duplicate brief reference(s) ignored: " +:+ Py.join ", " dups).
Proof.
  intros _ Hscript Hi Hj Hij Hci Hcj.
  apply script_ok_inv in Hscript as (st & Hne & Hloop & Hm & _ & Hwarn).
  (* the first upload with the reference *)
  destruct (list_find_elem_of (fun f => c ∈ item_refs parse_numeric f) files fi)
    as [[i0 f0] Hfind]; [by eapply list_elem_of_lookup_2|done|].
  apply list_find_Some in Hfind as (Hi0 & Hc0 & Hmin).
  assert (i0 <= i)%nat as Hle.
  { destruct (decide (i0 <= i)%nat) as [|Hgt]; [done|].
    exfalso. apply (Hmin i fi); [done|lia|done]. }
  pose proof (take_drop_middle files i0 f0 Hi0) as Hsplit.
  set (pre := take i0 files) in *. set (post := drop (S i0) files) in *.
  assert (forall f, f ∈ pre -> c ∉ item_refs parse_numeric f) as Hpre.
  { intros f [i' Hi']%list_elem_of_lookup.
    pose proof (lookup_lt_Some _ _ _ Hi') as Hlt.
    unfold pre in Hi', Hlt. rewrite length_take in Hlt.
    rewrite lookup_take_lt in Hi' by lia. apply (Hmin i' f); [done|lia]. }
  assert (fj ∈ post) as Hpost.
  { apply list_elem_of_lookup. exists (j - S i0)%nat. unfold post.
    rewrite lookup_drop. replace (S i0 + (j - S i0))%nat with j by lia. done. }
  (* the loop, cut at that upload *)
  rewrite <- Hsplit, for_each_app in Hloop.
  destruct (for_each (upload_step parse_numeric) pre initial_state)
    as [st1| |] eqn:Hloop1; cbn [mbind outcome_bind] in Hloop; [|discriminate..].
  simpl in Hloop.
  destruct (upload_step parse_numeric st1 f0) as [st2| |] eqn:Hstep;
    cbn [mbind outcome_bind] in Hloop; [|discriminate..].
  apply upload_loop_inv in Hloop1 as (frs1 & Hdfs1 & Hfr1 & Hseen1 & _ & _).
  apply upload_step_ok_inv in Hstep
    as (df0 & meta0 & new_cols & He & Hkeys & Hdfs2 & Hnew & Hnd & Hseen2 & _ & _).
  apply upload_loop_inv in Hloop as (frs3 & Hdfs3 & Hfr3 & _ & _ & Hdup).
  rewrite (item_refs_extracted _ _ _ He) in Hc0.
  pose proof (proj1 (item_columns_not_key _ _) Hc0) as [_ Hnk].
  assert (c ∉ seen_refs st1) as Hns1.
  { rewrite Hseen1. intros [Hs|(f & Hf & Hcf)]; [by apply elem_of_empty in Hs|].
    by apply (Hpre f). }
  assert (c ∈ seen_refs st2) as Hs2 by (apply Hseen2; by right).
  assert (c ∈ new_cols) as Hcn by (by apply Hnew).
  set (cols0 := KEY_COLS ++ new_cols) in *.
  set (fr0 := mkDF cols0 (map (reindex (columns df0) cols0) (rows df0))) in *.
  assert (all_dfs st = frs1 ++ [fr0] ++ frs3) as Hdfs.
  { rewrite Hdfs3, Hdfs2, Hdfs1. simpl. by rewrite <- app_assoc. }
  assert (Forall (fun fr => c ∉ columns fr) frs1) as Habs1.
  { eapply Forall_impl; [exact Hfr1|]. cbn beta. intros fr (_ & _ & Hfr) Hin.
    destruct (Hfr c Hin Hnk) as [_ (f & Hf & Hcf)]. by apply (Hpre f). }
  assert (Forall (fun fr => c ∉ columns fr) frs3) as Habs3.
  { eapply Forall_impl; [exact Hfr3|]. cbn beta. intros fr (_ & _ & Hfr) Hin.
    by destruct (Hfr c Hin Hnk) as [Hns _]. }
  assert ("Store Number" ∈ cols0) as Hsn0
    by (apply elem_of_app; left; apply store_number_is_key).
  assert (c ∈ cols0) as Hc00 by (apply elem_of_app; by right).
  assert (NoDup cols0) as Hnd0.
  { apply NoDup_app. split; [apply NoDup_KEY_COLS|]. split; [|done].
    intros x Hk [Hx _]%Hnew. by apply item_columns_not_key in Hx as [_ ?]. }
  assert (all_dfs st ≠ []) as Hne'.
  { rewrite Hdfs. by destruct frs1. }
  destruct (merged_rows_inv _ _ Hne' Hm) as (ks & Hmaster & _).
  assert (c ∈ union_columns (all_dfs st)) as Hcu.
  { apply elem_of_union_columns. exists fr0. split; [|done].
    rewrite Hdfs. apply elem_of_app. right. left. }
  assert (c ≠ "Store Number") as Hcsn.
  { intros ->. apply Hnk, store_number_is_key. }
  exists i0, f0, df0, meta0, (reported_duplicates (duplicates st)).
  rewrite Hmaster. cbn [columns rows].
  split_and!; try done.
  - intros i' f' Hlt Hf'. by apply (Hmin i' f').
  - apply count_NoDup.
    + apply NoDup_cons. split.
      * by intros [? _]%list_elem_of_filter.
      * apply NoDup_filter, NoDup_union_columns.
        rewrite Hdfs. apply Forall_app. split.
        { eapply Forall_impl; [exact Hfr1|]. by intros fr (? & _). }
        constructor; [done|].
        eapply Forall_impl; [exact Hfr3|]. by intros fr (? & _).
    + right. by apply list_elem_of_filter.
  - intros r (k & <- & _)%list_elem_of_In%in_map_iff.
    exists k. split; [done|].
    rewrite merged_row_at by done.
    unfold merged_cell, in_key_cols. rewrite bool_decide_eq_false_2 by done.
    unfold agg_sum. f_equal.
    rewrite Hdfs, !group_cells_app, !map_app, !foldr_add_app.
    rewrite (group_cells_absent frs1), (group_cells_absent frs3) by done.
    rewrite group_cells_single. unfold fr0. cbn [columns rows].
    rewrite group_cells_reindexed by done.
    unfold store_total. rewrite !map_map. lia.
  - unfold reported_duplicates. rewrite merge_sort_Permutation, elem_of_remove_dups.
    apply Hdup; [done|]. by exists fj.
  - assert (c ∈ duplicates st) as Hin by (apply Hdup; [done|by exists fj]).
    rewrite Hwarn. destruct (duplicates st) as [|d ds]; [|done].
    by apply elem_of_nil in Hin.
Qed.

(** ** Stops and exceptions *)

Lemma for_each_not_stopped {A S : Type} (body : S -> A -> outcome S) (l : list A)
    (s : S) (n : notice) :
  (forall s a, body s a ≠ Stopped n) -> for_each body l s ≠ Stopped n.
Proof.
  intros Hb. revert s. induction l as [|a l IH]; intros s; simpl; [done|].
  destruct (body s a) as [s'| |n'] eqn:Hsa; simpl; [apply IH|done|].
  intros [= ->]. by apply (Hb s a).
Qed.

Lemma iloc_not_stopped (grid : list (list value)) (r c : nat) (n : notice) :
  iloc grid r c ≠ Stopped n.
Proof. unfold iloc. destruct (grid !! r); [|done]. by destruct (c <? _)%nat. Qed.

Lemma read_meta_not_stopped (grid : list (list value)) (n : notice) :
  read_meta grid ≠ Stopped n.
Proof.
  unfold read_meta. apply for_each_not_stopped. intros m col.
  destruct (iloc grid 6 col) as [v| |n'] eqn:H6; cbn [mbind outcome_bind];
    [|done|by apply iloc_not_stopped in H6].
  destruct (String.eqb (str v) "nan"); [done|].
  destruct (iloc grid 1 col) as [v1| |n'] eqn:H1; cbn [mbind outcome_bind];
    [|done|by apply iloc_not_stopped in H1].
  destruct (iloc grid 4 col) as [v4| |n'] eqn:H4; cbn [mbind outcome_bind];
    [done|done|by apply iloc_not_stopped in H4].
Qed.




Lemma script_nonempty (con ts : string) (files : list UploadedFile) :
  files ≠ [] ->
  script parse_numeric con ts files =
    (st ← for_each (upload_step parse_numeric) files initial_state;
     master ← merge_allocations parse_numeric (all_dfs st);
     wb ← build_workbook master (meta st) con;
     Ok (mkPage
           match duplicates st with
           | [] => None
           | _ => Some ("Duplicate brief reference(s) ignored: "
                        +:+ Py.join ", " (reported_duplicates (duplicates st)))
           end
           master wb
           (Z.of_nat (List.length (columns master)) - Z.of_nat (List.length KEY_COLS))
           (List.length (rows master))
           ("Consolidated_Allocation_" +:+ ts +:+ ".xlsx"))).
Proof. by destruct files. Qed.

Lemma upload_step_missing (st : LoopState) (f : UploadedFile) :
  lacks_store_number f = true ->
  upload_step parse_numeric st f = Stopped (StError STORE_NUMBER_MISSING).
Proof. intros H. unfold upload_step. by rewrite extract_alloc_missing. Qed.


Lemma upload_step_missing_key (st : LoopState) (f : UploadedFile) (df : DataFrame)
    (meta_ : gmap string MetaEntry) (k : string) :
  extract_alloc parse_numeric f = Ok (df, meta_) ->
  k ∈ KEY_COLS -> k ≠ "Store Number" -> k ∉ map Py.strip (header f) ->
  upload_step parse_numeric st f = Raise KeyError.
Proof.
  intros He Hk Hsn Hmiss.
  unfold upload_step. rewrite He. cbn [mbind outcome_bind].
  destruct (fold_left classify _ _) as [[seen dups] new_cols].
  unfold getitem.
  destruct (forallb _ (KEY_COLS ++ new_cols)) eqn:Hsel; [|done].
  exfalso. apply Hmiss.
  apply extract_alloc_ok_inv in He as (sc & _ & Hcols & _).
  apply (extracted_labels_other f sc); [done|]. rewrite <- Hcols.
  apply (proj1 (forallb_elem_of _ _) Hsel), elem_of_app. by left.
Qed.

(** C10. Only "Store Number" is located tolerantly. When an upload is
    read by extract_alloc (so it has a store-number column) but its
    stripped header lacks another key column, the selection
    df_part[KEY_COLS + new_cols] raises KeyError; with the uploads before
    it read without exception, that KeyError is the outcome of the run,
    not the reported error. *)
Theorem missing_key_column_raises_KeyError (con ts : string)
    (pre post : list UploadedFile) (f : UploadedFile) (st : LoopState)
    (df : DataFrame) (meta_ : gmap string MetaEntry) (k : string) :
  for_each (upload_step parse_numeric) pre initial_state = Ok st ->
  extract_alloc parse_numeric f = Ok (df, meta_) ->
  k ∈ KEY_COLS -> k ≠ "Store Number" -> k ∉ map Py.strip (header f) ->
  upload_step parse_numeric st f = Raise KeyError
  /\ script parse_numeric con ts (pre ++ f :: post) = Raise KeyError
  /\ script parse_numeric con ts (pre ++ f :: post)
     ≠ Stopped (StError STORE_NUMBER_MISSING).
Proof.
  intros Hpre He Hk Hsn Hmiss.
  assert (upload_step parse_numeric st f = Raise KeyError) as Hstep
    by (by eapply upload_step_missing_key).
  assert (script parse_numeric con ts (pre ++ f :: post) = Raise KeyError) as Hrun.
  { rewrite script_nonempty by (by destruct pre).
    rewrite for_each_app, Hpre. cbn [mbind outcome_bind]. simpl.
    by rewrite Hstep. }
  split_and!; [done|done|by rewrite Hrun].
Qed.

(** The converse reading of C10: a run that completes has found every key
    column other than "Store Number" under its exact stripped label, and
    a store-number column, in each upload. *)
Lemma completed_run_has_key_columns (con ts : string) (files : list UploadedFile)
    (page : Page) (f : UploadedFile) (k : string) :
  script parse_numeric con ts files = Ok page -> f ∈ files ->
  lacks_store_number f = false
  /\ (k ∈ KEY_COLS -> k ≠ "Store Number" -> k ∈ map Py.strip (header f)).
Proof.
  intros (st & _ & Hloop & _)%script_ok_inv Hf.
  apply list_elem_of_split in Hf as (pre & post & ->).
  rewrite for_each_app in Hloop.
  destruct (for_each (upload_step parse_numeric) pre initial_state)
    as [st1| |] eqn:Hpre; cbn [mbind outcome_bind] in Hloop; [|discriminate..].
  simpl in Hloop.
  destruct (upload_step parse_numeric st1 f) as [st2| |] eqn:Hstep;
    cbn [mbind outcome_bind] in Hloop; [|discriminate..].
  split.
  - destruct (lacks_store_number f) eqn:Hl; [|done].
    by rewrite upload_step_missing in Hstep.
  - intros Hk Hsn.
    destruct (decide (k ∈ map Py.strip (header f))) as [|Hno]; [done|].
    pose proof (upload_step_ok_inv _ _ _ Hstep) as (df & meta_ & ? & He & _).
    rewrite (upload_step_missing_key st1 f df meta_ k) in Hstep; done.
Qed.

(** ** What the loop hands to merge_allocations *)

Lemma to_numeric_not_text (v : value) :
  match to_numeric parse_numeric v with Str _ => false | _ => true end = true.
Proof. destruct v as [|z|s]; simpl; [done..|]. by destruct (parse_numeric s). Qed.

Lemma upload_step_extracts (st st' : LoopState) (f : UploadedFile) :
  upload_step parse_numeric st f = Ok st' ->
  is_ok (extract_alloc parse_numeric f) = true.
Proof. intros (df & meta_ & ? & -> & _)%upload_step_ok_inv. done. Qed.

Lemma upload_loop_extracts (files : list UploadedFile) (st st' : LoopState)
    (f : UploadedFile) :
  for_each (upload_step parse_numeric) files st = Ok st' -> f ∈ files ->
  is_ok (extract_alloc parse_numeric f) = true.
Proof.
  revert st. induction files as [|f' files IH]; intros st Hloop Hf.
  - by apply elem_of_nil in Hf.
  - simpl in Hloop.
    destruct (upload_step parse_numeric st f') as [st1| |] eqn:Hstep;
      cbn [mbind outcome_bind] in Hloop; [|discriminate..].
    apply elem_of_cons in Hf as [->|Hf].
    + by eapply upload_step_extracts.
    + by eapply IH.
Qed.

Lemma upload_loop_Int64 (files : list UploadedFile) (st st' : LoopState) :
  for_each (upload_step parse_numeric) files st = Ok st' ->
  Forall (fun fr => forallb (fun v => match v with Str _ => false | _ => true end)
                      (series fr "Store Number") = true) (all_dfs st) ->
  Forall (fun fr => forallb (fun v => match v with Str _ => false | _ => true end)
                      (series fr "Store Number") = true) (all_dfs st').
Proof.
  revert st. induction files as [|f files IH]; intros st Hloop Hst.
  - simpl in Hloop. by injection Hloop as <-.
  - simpl in Hloop.
    destruct (upload_step parse_numeric st f) as [st1| |] eqn:Hstep;
      cbn [mbind outcome_bind] in Hloop; [|discriminate..].
    apply (IH st1); [done|].
    apply upload_step_ok_inv in Hstep as (df & meta_ & new_cols & He & _ & -> & _).
    apply Forall_app. split; [done|]. constructor; [|done].
    unfold series. cbn [columns rows]. rewrite map_map.
    apply forallb_forall. intros v (r & <- & Hr)%in_map_iff.
    rewrite at_col_reindex
      by (apply elem_of_app; left; apply store_number_is_key).
    pose proof (extract_alloc_store_numbers f df meta_ He) as Hsn.
    assert (at_col (columns df) r "Store Number" ∈ series df "Store Number") as Hin.
    { unfold series. apply list_elem_of_In, in_map_iff. eauto. }
    rewrite Hsn in Hin.
    apply list_elem_of_In, in_map_iff in Hin as (v' & <- & _).
    apply to_numeric_not_text.
Qed.

(** The tables collected by the loop are allocation tables. *)
Lemma upload_loop_allocation_tables (files : list UploadedFile) (st : LoopState) :
  for_each (upload_step parse_numeric) files initial_state = Ok st ->
  forallb allocation_table (all_dfs st) = true.
Proof.
  intros Hloop.
  pose proof (upload_loop_Int64 _ _ _ Hloop (List.Forall_nil _)) as Hint.
  apply upload_loop_inv in Hloop as (frames & Hdfs & Hfr & _).
  simpl in Hdfs. rewrite Hdfs in *.
  apply forallb_forall. intros fr Hin%list_elem_of_In.
  rewrite Forall_forall in Hfr, Hint.
  destruct (Hfr fr Hin) as (Hnd & Hk & _).
  unfold allocation_table. rewrite !andb_true_iff. split_and!.
  - by apply bool_decide_eq_true.
  - by apply forallb_elem_of.
  - by apply Hint.
Qed.

(** C7, as amended. With no upload the script shows the notice asking for
    at least one export and stops there: no table is merged and no
    workbook is built; the notice is informational, not an error. Called
    by itself on an empty list, merge_allocations returns the empty,
    column-less table. *)
Theorem zero_files_stop_with_notice (con ts : string) :
  script parse_numeric con ts [] = Stopped (StInfo NO_FILES)
  /\ merge_allocations parse_numeric [] = Ok Pd.empty
  /\ columns Pd.empty = [] /\ rows Pd.empty = [].
Proof. split_and!; try done. Qed.

End Pipeline.

(** ** Loops and counts *)

Lemma for_each_invariant {A S : Type} (body : S -> A -> outcome S) (P : S -> Prop)
    (l : list A) (s s' : S) :
  (forall s a s', a ∈ l -> P s -> body s a = Ok s' -> P s') ->
  P s -> for_each body l s = Ok s' -> P s'.
Proof.
  revert s. induction l as [|a l IH]; intros s Hstep Hs H; simpl in H.
  - by injection H as <-.
  - destruct (body s a) as [s1| |] eqn:Hb; cbn [mbind outcome_bind] in H;
      [|discriminate..].
    apply (IH s1); [|by eapply Hstep; [left|..]|done].
    intros s2 a' s3 Ha'. apply Hstep. by right.
Qed.

Lemma count_pos (l : list string) (c : string) :
  c ∈ l -> (1 <= List.length (filter (fun x => x = c) l))%nat.
Proof.
  intros Hc. destruct (filter (fun x => x = c) l) as [|y ys] eqn:Hf; simpl; [|lia].
  exfalso. eapply filter_nil_not_elem_of; [exact Hf| |exact Hc]. done.
Qed.

Lemma for_each_ok {A S : Type} (body : S -> A -> outcome S) (l : list A) (s : S) :
  (forall s a, a ∈ l -> exists s', body s a = Ok s') ->
  exists s', for_each body l s = Ok s'.
Proof.
  revert s. induction l as [|a l IH]; intros s Hb; simpl; [by eexists|].
  destruct (Hb s a) as [s1 ->]; [left|]. cbn [mbind outcome_bind].
  apply IH. intros s2 a' Ha'. apply Hb. by right.
Qed.

Lemma for_each_raises {A S : Type} (body : S -> A -> outcome S) (l : list A) (s : S)
    (e : exn) :
  (forall s a, a ∈ l -> (exists s', body s a = Ok s') \/ body s a = Raise e) ->
  (exists a, a ∈ l /\ forall s, body s a = Raise e) ->
  for_each body l s = Raise e.
Proof.
  revert s. induction l as [|a l IH]; intros s Hb (a0 & Ha0 & Hr); simpl.
  - by apply elem_of_nil in Ha0.
  - destruct (Hb s a) as [[s1 Hs1]|Hs1]; [left| |]; rewrite Hs1;
      cbn [mbind outcome_bind]; [|done].
    apply IH; [intros s2 a' Ha'; apply Hb; by right|].
    apply elem_of_cons in Ha0 as [->|Ha0]; [|by exists a0].
    by rewrite Hr in Hs1.
Qed.

Lemma elem_of_enumerate {A : Type} (n : nat) (l : list A) (i : nat) (x : A) :
  (i, x) ∈ enumerate n l <-> (n <= i)%nat /\ l !! (i - n)%nat = Some x.
Proof.
  revert n. induction l as [|y l IH]; intros n; simpl.
  - rewrite elem_of_nil. split; [done|]. by intros [_ ?].
  - rewrite elem_of_cons, IH. split.
    + intros [[= -> ->]|[Hle Hl]].
      * split; [lia|]. by rewrite Nat.sub_diag.
      * split; [lia|]. by replace (i - n)%nat with (S (i - S n)) by lia.
    + intros [Hle Hl]. destruct (decide (i = n)) as [->|Hne].
      * left. rewrite Nat.sub_diag in Hl. by injection Hl as ->.
      * right. split; [lia|].
        by replace (i - n)%nat with (S (i - S n)) in Hl by lia.
Qed.

(** ** Writing cells *)

Lemma cell_value_set_cell (w : Worksheet) (r c r' c' : nat) (v : value) :
  cell_value (set_cell w r c v) r' c'
  = if decide ((r, c) = (r', c')) then Some v else cell_value w r' c'.
Proof. unfold cell_value, set_cell. cbn [cells]. apply lookup_insert. Qed.

Lemma bind_value_stored (v v' : value) : bind_value v = Ok v' -> v' = stored v.
Proof.
  destruct v as [|z|s]; simpl; [by intros [= <-]..|].
  unfold check_string. destruct (existsb _ _); [done|].
  cbn [mbind outcome_bind]. by intros [= <-].
Qed.

Lemma bind_value_legal (v : value) :
  is_ok (bind_value v) = true -> bind_value v = Ok (stored v).
Proof.
  destruct (bind_value v) as [v'| |] eqn:Hv; [|done..].
  by apply bind_value_stored in Hv as ->.
Qed.

Lemma bind_value_not_text (v : value) :
  (forall s, v ≠ Str s) -> bind_value v = Ok v /\ stored v = v.
Proof. destruct v as [|z|s]; [done..|]. intros H. by destruct (H s). Qed.

Lemma bind_value_raises (v : value) (e : exn) :
  bind_value v = Raise e -> e = IllegalCharacterError.
Proof.
  destruct v as [|z|s]; simpl; [done..|].
  unfold check_string. destruct (existsb _ _); [|done]. by intros [= <-].
Qed.

Lemma write_cell_inv (w w' : Worksheet) (r c : nat) (v : value) :
  write_cell w r c v = Ok w' -> w' = set_cell w r c (stored v).
Proof.
  unfold write_cell. destruct (bind_value v) as [v'| |] eqn:Hv;
    cbn [mbind outcome_bind]; [|done..].
  apply bind_value_stored in Hv as ->. by intros [= <-].
Qed.

Lemma write_cell_legal (w : Worksheet) (r c : nat) (v : value) :
  is_ok (bind_value v) = true -> write_cell w r c v = Ok (set_cell w r c (stored v)).
Proof. intros H. unfold write_cell. by rewrite bind_value_legal. Qed.

Lemma write_cell_not_text (w : Worksheet) (r c : nat) (v : value) :
  (forall s, v ≠ Str s) -> write_cell w r c v = Ok (set_cell w r c v).
Proof.
  intros H. unfold write_cell. by rewrite (proj1 (bind_value_not_text v H)).
Qed.

Lemma write_cells_spec (r : nat) (vs : list value) (n : nat) (ws ws' : Worksheet)
    (r' c' : nat) :
  for_each (fun w jv => write_cell w r (fst jv) (snd jv)) (enumerate n vs) ws = Ok ws' ->
  cell_value ws' r' c'
  = if decide (r' = r /\ (n <= c' < n + List.length vs)%nat)
    then stored <$> vs !! (c' - n)%nat
    else cell_value ws r' c'.
Proof.
  revert n ws. induction vs as [|v vs IH]; intros n ws H.
  - simpl in H. injection H as <-.
    case_decide as Hc; [|done]. destruct Hc as [_ Hc]. simpl in Hc. lia.
  - cbn [enumerate for_each fst snd] in H.
    destruct (write_cell ws r n v) as [w1| |] eqn:Hw; cbn [mbind outcome_bind] in H;
      [|discriminate..].
    apply write_cell_inv in Hw as ->. rewrite (IH _ _ H), cell_value_set_cell.
    cbn [List.length].
    destruct (decide (r' = r /\ (n <= c' < n + S (List.length vs))%nat)) as [[-> Hc]|Hno].
    + destruct (decide (c' = n)) as [->|Hne].
      * rewrite decide_False by lia. rewrite decide_True by done.
        by rewrite Nat.sub_diag.
      * rewrite decide_True by (split; [done|lia]).
        by replace (c' - n)%nat with (S (c' - S n)) by lia.
    + rewrite decide_False by (intros [-> ?]; apply Hno; split; [done|lia]).
      rewrite decide_False; [done|]. intros [= -> ->]. apply Hno. split; [done|lia].
Qed.

Lemma write_row_spec (r : nat) (vs : list value) (ws ws' : Worksheet) (r' c' : nat) :
  write_row r vs ws = Ok ws' ->
  cell_value ws' r' c'
  = if decide (r' = r /\ (1 <= c' < 1 + List.length vs)%nat)
    then stored <$> vs !! (c' - 1)%nat
    else cell_value ws r' c'.
Proof. apply write_cells_spec. Qed.

Lemma write_rows_below (rs : list (list value)) (n : nat) (ws ws' : Worksheet)
    (r' c' : nat) :
  (r' < n)%nat ->
  for_each (fun w ir => write_row (fst ir) (map excel_value (snd ir)) w)
    (enumerate n rs) ws = Ok ws' ->
  cell_value ws' r' c' = cell_value ws r' c'.
Proof.
  revert n ws. induction rs as [|row rs IH]; intros n ws Hlt H.
  - simpl in H. by injection H as <-.
  - cbn [enumerate for_each fst snd] in H.
    destruct (write_row n (map excel_value row) ws) as [w1| |] eqn:Hw;
      cbn [mbind outcome_bind] in H; [|discriminate..].
    rewrite (IH (S n) w1) by (lia || done).
    rewrite (write_row_spec _ _ _ _ _ _ Hw).
    rewrite decide_False; [done|]. intros [? _]. lia.
Qed.

Lemma write_rows_at (rs : list (list value)) (n : nat) (ws ws' : Worksheet)
    (i j : nat) (row : list value) (v : value) :
  rs !! i = Some row -> row !! j = Some v ->
  for_each (fun w ir => write_row (fst ir) (map excel_value (snd ir)) w)
    (enumerate n rs) ws = Ok ws' ->
  cell_value ws' (n + i) (S j) = Some (stored (excel_value v)).
Proof.
  revert n ws i. induction rs as [|row0 rs IH]; intros n ws i Hi Hj H.
  - by rewrite lookup_nil in Hi.
  - cbn [enumerate for_each fst snd] in H.
    destruct (write_row n (map excel_value row0) ws) as [w1| |] eqn:Hw;
      cbn [mbind outcome_bind] in H; [|discriminate..].
    destruct i as [|i].
    + injection Hi as ->.
      rewrite (write_rows_below rs (S n) w1 ws' (n + 0) (S j)) by (lia || done).
      rewrite (write_row_spec _ _ _ _ _ _ Hw).
      pose proof (lookup_lt_Some _ _ _ Hj) as Hlt.
      rewrite decide_True by (rewrite length_map; split; lia).
      replace (S j - 1)%nat with j by lia.
      change (map excel_value row) with (excel_value <$> row).
      by rewrite list_lookup_fmap, Hj.
    + replace (n + S i)%nat with (S n + i)%nat by lia. by apply (IH _ w1).
Qed.

Lemma to_excel_cells (df : DataFrame) (startrow : nat) (ws : Worksheet) :
  to_excel df startrow = Ok ws ->
  (forall j c, columns df !! j = Some c ->
     cell_value ws (startrow + 1) (S j) = Some (stored (Str c)))
  /\ (forall i row j v, rows df !! i = Some row -> row !! j = Some v ->
        cell_value ws (startrow + 2 + i) (S j) = Some (stored (excel_value v))).
Proof.
  unfold to_excel. destruct (_ || _); [discriminate|]. intros H.
  destruct (write_row (startrow + 1) (map Str (columns df)) blank) as [w0| |] eqn:Hh;
    cbn [mbind outcome_bind] in H; [|discriminate..].
  split.
  - intros j c Hj.
    rewrite (write_rows_below _ (startrow + 2) w0 ws (startrow + 1) (S j))
      by (lia || done).
    rewrite (write_row_spec _ _ _ _ _ _ Hh).
    pose proof (lookup_lt_Some _ _ _ Hj) as Hlt.
    rewrite decide_True by (rewrite length_map; lia).
    replace (S j - 1)%nat with j by lia.
    change (map Str (columns df)) with (Str <$> columns df).
    by rewrite list_lookup_fmap, Hj.
  - intros i row j v Hi Hj. by apply (write_rows_at _ _ _ _ _ _ _ _ Hi Hj H).
Qed.

(** ** The summary block *)

Lemma summary_cells_written (df : DataFrame) (meta : gmap string MetaEntry)
    (label : string) (row : nat) (items : list string) (n : nat) (w w' : Worksheet) :
  for_each
    (fun w ii =>
       v ← summary_value df meta label (snd ii);
       write_cell w row (ITEM_START_XL + fst ii) v)
    (enumerate n items) w = Ok w' ->
  (forall i item, items !! i = Some item ->
     exists v, summary_value df meta label item = Ok v
               /\ is_ok (bind_value v) = true
               /\ cell_value w' row (ITEM_START_XL + (n + i)) = Some (stored v))
  /\ (forall r c, r ≠ row -> cell_value w' r c = cell_value w r c)
  /\ (forall c, (c < ITEM_START_XL + n)%nat -> cell_value w' row c = cell_value w row c)
  /\ column_dimensions w' = column_dimensions w.
Proof.
  unfold ITEM_START_XL, LABEL_COL_XL.
  revert n w. induction items as [|item items IH]; intros n w H.
  - simpl in H. injection H as <-. split_and!; [|done..].
    intros i item Hi. by rewrite lookup_nil in Hi.
  - cbn [enumerate for_each fst snd] in H.
    destruct (summary_value df meta label item) as [v| |] eqn:Hv;
      cbn [mbind outcome_bind] in H; [|discriminate..].
    destruct (write_cell w row (11 + 1 + n) v) as [w1| |] eqn:Hw;
      cbn [mbind outcome_bind] in H; [|discriminate..].
    assert (is_ok (bind_value v) = true) as Hlegal.
    { unfold write_cell in Hw. by destruct (bind_value v). }
    apply write_cell_inv in Hw as ->.
    apply IH in H as (Hcells & Hrows & Hleft & Hdims).
    split_and!.
    + intros [|i] item' Hi.
      * injection Hi as <-. exists v. split; [done|]. split; [done|].
        rewrite Hleft by lia. rewrite cell_value_set_cell.
        rewrite decide_True; [done|f_equal; lia].
      * destruct (Hcells i item' Hi) as (v' & Hv' & Hl' & Hc).
        exists v'. split; [done|]. split; [done|]. rewrite <- Hc. f_equal. lia.
    + intros r c Hr. rewrite Hrows by done. rewrite cell_value_set_cell.
      rewrite decide_False; [done|]. intros [= ? ?]. done.
    + intros c Hc. rewrite Hleft by lia. rewrite cell_value_set_cell.
      rewrite decide_False; [done|]. intros [= ?]. lia.
    + by rewrite Hdims.
Qed.

Lemma summary_row_written (df : DataFrame) (meta : gmap string MetaEntry)
    (r_off : nat) (label : string) (w w' : Worksheet) :
  summary_row df meta w (r_off, label) = Ok w' ->
  (forall i item, item_columns df !! i = Some item ->
     exists v, summary_value df meta label item = Ok v
               /\ is_ok (bind_value v) = true
               /\ cell_value w' (2 + r_off) (ITEM_START_XL + i) = Some (stored v))
  /\ (forall r c, r ≠ (2 + r_off)%nat -> cell_value w' r c = cell_value w r c)
  /\ column_dimensions w' = column_dimensions w
  /\ cell_value w' (2 + r_off) LABEL_COL_XL = Some (stored (Str label)).
Proof.
  unfold summary_row. cbn [fst snd]. intros H.
  destruct (write_cell w (2 + r_off) LABEL_COL_XL (Str label)) as [w0| |] eqn:Hw;
    cbn [mbind outcome_bind] in H; [|discriminate..].
  apply write_cell_inv in Hw as ->.
  apply summary_cells_written in H as (Hcells & Hrows & Hleft & Hdims). split_and!.
  - intros i item Hi. destruct (Hcells i item Hi) as (v & Hv & Hl & Hc). by exists v.
  - intros r c Hr. rewrite Hrows by done. rewrite cell_value_set_cell.
    rewrite decide_False; [done|]. intros [= ? ?]. done.
  - by rewrite Hdims.
  - rewrite Hleft by (unfold ITEM_START_XL; lia).
    rewrite cell_value_set_cell. by rewrite decide_True.
Qed.

(** build_workbook, step by step. *)
Lemma build_workbook_ok_inv (df : DataFrame) (meta : gmap string MetaEntry)
    (consolidated_on : string) (ws : Worksheet) :
  build_workbook df meta consolidated_on = Ok ws ->
  exists ws0 w1 w2 w3,
    to_excel df (List.length LABELS + 1) = Ok ws0
    /\ is_ok (bind_value (Str consolidated_on)) = true
    /\ summary_row df meta
         (size_columns (set_cell ws0 1 1 (stored (Str consolidated_on))))
         (0%nat, "Brief Description") = Ok w1
    /\ summary_row df meta w1 (1%nat, "Total (inc Overs)") = Ok w2
    /\ summary_row df meta w2 (2%nat, "Total Allocations") = Ok w3
    /\ summary_row df meta w3 (3%nat, "Overs") = Ok ws.
Proof.
  unfold build_workbook. intros H.
  destruct (to_excel df (List.length LABELS + 1)) as [ws0| |];
    cbn [mbind outcome_bind] in H; [|discriminate..].
  destruct (write_cell ws0 1 1 (Str consolidated_on)) as [wa| |] eqn:Ha;
    cbn [mbind outcome_bind] in H; [|discriminate..].
  assert (is_ok (bind_value (Str consolidated_on)) = true) as Hlegal.
  { unfold write_cell in Ha. by destruct (bind_value (Str consolidated_on)). }
  apply write_cell_inv in Ha as ->.
  change (enumerate 0 LABELS) with
    [(0%nat, "Brief Description"); (1%nat, "Total (inc Overs)");
     (2%nat, "Total Allocations"); (3%nat, "Overs")] in H.
  cbn [for_each] in H.
  destruct (summary_row df meta _ (0%nat, _)) as [w1| |] eqn:H1;
    cbn [mbind outcome_bind] in H; [|discriminate..].
  destruct (summary_row df meta w1 _) as [w2| |] eqn:H2;
    cbn [mbind outcome_bind] in H; [|discriminate..].
  destruct (summary_row df meta w2 _) as [w3| |] eqn:H3;
    cbn [mbind outcome_bind] in H; [|discriminate..].
  destruct (summary_row df meta w3 _) as [w4| |] eqn:H4;
    cbn [mbind outcome_bind] in H; [|discriminate..].
  injection H as <-. by exists ws0, w1, w2, w3.
Qed.

Lemma numeric_sum_from (vs : list value) (acc : Z) :
  Forall (fun v => forall s, v ≠ Str s) vs ->
  fold_left (fun acc x => a ← acc; py_add a x) (fillna0 vs) (Ok (Num acc))
  = Ok (Num (acc + foldr Z.add 0 (map number_or_zero vs))).
Proof.
  intros H. revert acc. induction H as [|v vs Hv _ IH]; intros acc; simpl.
  - f_equal. f_equal. lia.
  - destruct v as [|z|s]; simpl.
    + rewrite IH. do 2 f_equal. lia.
    + rewrite IH. do 2 f_equal. lia.
    + by destruct (Hv s).
Qed.

Lemma numeric_series_sum (vs : list value) :
  Forall (fun v => forall s, v ≠ Str s) vs ->
  series_sum (fillna0 vs) = Ok (Num (foldr Z.add 0 (map number_or_zero vs))).
Proof.
  intros H. destruct H as [|v vs Hv H]; [done|].
  unfold series_sum. simpl.
  destruct v as [|z|s]; simpl; [by rewrite numeric_sum_from..|by destruct (Hv s)].
Qed.

(** A sum is within the magnitude of its terms. *)
Lemma sum_within_magnitude (vs : list value) :
  Z.abs (foldr Z.add 0 (map number_or_zero vs)) <= magnitude vs.
Proof.
  unfold magnitude. induction vs as [|v vs IH]; simpl; [done|]. lia.
Qed.


(** ** Hidden columns *)

(** Up to column 78 (BZ) the letter test hides exactly columns 3 to 10. *)
Lemma hide_test_up_to_BZ :
  forallb
    (fun i => Bool.eqb (hide_test (get_column_letter i)) ((3 <=? i) && (i <=? 10))%nat)
    (seq 1 78) = true.
Proof. vm_compute. reflexivity. Qed.

(** C9, evaluated where it fails: with 68 item columns the 68th sits in
    Excel column 79, whose letter CA passes the test "C" <= "CA" <= "J",
    and the workbook hides it, both when build_workbook is given such a
    table and when the script is run on an export with 68 references. *)
Theorem wide_table_hides_item_column :
  List.length (item_columns wide_table) = 68%nat
  /\ (ITEM_START_XL + 67 = 79)%nat
  /\ get_column_letter 79 = "CA"
  /\ hide_test "CA" = true
  /\ (ws ← build_workbook wide_table ∅ ""; Ok (column_dimensions ws !! "CA"))
     = Ok (Some (mkDim 18 true))
  /\ (page ← script parse_decimal "" "" [wide_upload];
      Ok (List.length (item_columns (master_df page)),
          column_dimensions (workbook page) !! "CA"))
     = Ok (68%nat, Some (mkDim 18 true)).
Proof. split_and!; vm_compute; reflexivity. Qed.

(** * The statements on the sample inputs *)

Lemma merged_store_numbers_unique_sorted_witness :
  exists (m : DataFrame) (zs : list Z),
    merge_allocations parse_decimal [north_table; south_table] = Ok m
    /\ series m "Store Number" = map Num zs
    /\ NoDup (series m "Store Number")
    /\ Sorted Z.le zs.
Proof.
  apply (merged_store_numbers_unique_sorted parse_decimal [north_table; south_table]);
    [done|vm_compute; reflexivity].
Defined.

Lemma duplicate_reference_first_wins_witness :
  exists page : Page,
    script parse_decimal "Consolidated on 04/11/2026 10:00" "20261104_1000"
      [north; south] = Ok page
    /\ exists (i0 : nat) (f0 : UploadedFile) (df0 : DataFrame)
              (meta0 : gmap string MetaEntry) (dups : list string),
         (i0 <= 0)%nat /\ [north; south] !! i0 = Some f0
         /\ (forall i' f', (i' < i0)%nat -> [north; south] !! i' = Some f' ->
               "BR-1" ∉ item_refs parse_decimal f')
         /\ extract_alloc parse_decimal f0 = Ok (df0, meta0)
         /\ "BR-1" ∈ item_columns df0
         /\ List.length (filter (fun x => x = "BR-1") (columns (master_df page))) = 1%nat
         /\ (forall r, r ∈ rows (master_df page) ->
               exists k,
                 at_col (columns (master_df page)) r "Store Number" = Num k
                 /\ at_col (columns (master_df page)) r "BR-1"
                    = Num (store_total parse_decimal df0 k "BR-1"))
         /\ "BR-1" ∈ dups
         /\ warning page
            = Some ("Duplicate brief reference(s) ignored: " +:+ Py.join ", " dups).
Proof.
  destruct (script parse_decimal "Consolidated on 04/11/2026 10:00" "20261104_1000"
              [north; south]) as [page| |] eqn:Hrun;
    [|vm_compute in Hrun; discriminate..].
  exists page. split; [done|].
  apply (duplicate_reference_first_wins parse_decimal
           "Consolidated on 04/11/2026 10:00" "20261104_1000"
           [north; south] page 0 1 north south "BR-1").
  - vm_compute; reflexivity.
  - exact Hrun.
  - reflexivity.
  - reflexivity.
  - lia.
  - apply (bool_decide_unpack _). vm_compute; reflexivity.
  - apply (bool_decide_unpack _). vm_compute; reflexivity.
Defined.


Lemma shared_item_column_quantities_add_up_witness :
  exists (m : DataFrame) (r : list value),
    merge_allocations parse_decimal [north_table; south_table] = Ok m
    /\ r ∈ rows m
    /\ at_col (columns m) r "Store Number" = Num 1
    /\ at_col (columns m) r "BR-1" = Num 8
    /\ (forall r', r' ∈ rows m -> at_col (columns m) r' "Store Number" = Num 1 -> r' = r).
Proof.
  apply (shared_item_column_quantities_add_up parse_decimal north_table south_table
           "BR-1" 1
           (store_row (Num 1) (Str "Leeds") [Num 3])
           (store_row (Num 1) (Str "Leeds") [Num 5])).
  - vm_compute; reflexivity.
  - apply (bool_decide_unpack _). vm_compute; reflexivity.
  - vm_compute; reflexivity.
  - vm_compute; reflexivity.
  - vm_compute; reflexivity.
  - vm_compute; reflexivity.
Defined.

Lemma key_attribute_first_non_null_witness :
  exists k : Z,
    at_col (KEY_COLS ++ ["BR-3"]) (store_row (Num 1) (Str "Leeds") [Num 2])
      "Store Number" = Num k
    /\ at_col (KEY_COLS ++ ["BR-3"]) (store_row (Num 1) (Str "Leeds") [Num 2])
         "Store Name" = agg_first (group_cells [unnamed_first] k "Store Name")
    /\ (forall v vs, group_cells [unnamed_first] k "Store Name" = v :: vs -> v ≠ NA ->
          at_col (KEY_COLS ++ ["BR-3"]) (store_row (Num 1) (Str "Leeds") [Num 2])
            "Store Name" = v)
    /\ (at_col (KEY_COLS ++ ["BR-3"]) (store_row (Num 1) (Str "Leeds") [Num 2])
          "Store Name" = NA
        <-> forall v, v ∈ group_cells [unnamed_first] k "Store Name" -> v = NA).
Proof.
  apply (key_attribute_first_non_null parse_decimal [unnamed_first]
           (mkDF (KEY_COLS ++ ["BR-3"]) [store_row (Num 1) (Str "Leeds") [Num 2]])
           (store_row (Num 1) (Str "Leeds") [Num 2]) "Store Name").
  - done.
  - vm_compute; reflexivity.
  - vm_compute; reflexivity.
  - left.
  - apply (bool_decide_unpack _). vm_compute; reflexivity.
  - done.
Defined.


Lemma missing_key_column_raises_KeyError_witness :
  exists st : LoopState,
    for_each (upload_step parse_decimal) [north] initial_state = Ok st
    /\ upload_step parse_decimal st no_store_name = Raise KeyError
    /\ script parse_decimal "" "" ([north] ++ no_store_name :: []) = Raise KeyError
    /\ script parse_decimal "" "" ([north] ++ no_store_name :: [])
       ≠ Stopped (StError STORE_NUMBER_MISSING).
Proof.
  destruct (for_each (upload_step parse_decimal) [north] initial_state)
    as [st| |] eqn:Hpre; [|vm_compute in Hpre; discriminate..].
  exists st. split; [done|].
  apply (missing_key_column_raises_KeyError parse_decimal "" "" [north] [] no_store_name
           st (mkDF ["Store Number"; "BR-5"] [[Num 1; Num 2]]) ∅ "Store Name").
  - exact Hpre.
  - vm_compute; reflexivity.
  - apply (bool_decide_unpack _). vm_compute; reflexivity.
  - done.
  - apply (bool_decide_unpack _). vm_compute; reflexivity.
Defined.

(** * Where the code departs from the stated behaviour *)

(** C5, counterexample: the row whose store number is the text "n/a" is
    extracted with a null store number and is absent from the merged
    table. *)
Lemma null_store_number_row_is_not_retained :
  (df_meta ← extract_alloc parse_decimal unnumbered;
   Ok (series (fst df_meta) "Store Number"))
  = Ok [NA]
  /\ (page ← script parse_decimal "" "" [unnumbered]; Ok (rows (master_df page)))
     = Ok [].
Proof. split; vm_compute; reflexivity. Qed.

(** C6, counterexample: the first row of store 1 has no store name, the
    second has "Leeds", and the merged row shows "Leeds", not null. *)
Lemma first_row_null_is_skipped :
  group_cells [unnamed_first] 1 "Store Name" = [NA; Str "Leeds"]
  /\ (m ← merge_allocations parse_decimal [unnamed_first];
      Ok (series m "Store Number", series m "Store Name"))
     = Ok ([Num 1], [Str "Leeds"])
  /\ Str "Leeds" ≠ NA.
Proof. split_and!; [vm_compute; reflexivity..|done]. Qed.

(** C7, counterexample: with no upload the script stops on the notice and
    no page, hence no workbook, is produced. *)
Lemma zero_files_produce_no_document :
  is_ok (script parse_decimal "Consolidated on 04/11/2026 10:00" "20261104_1000" [])
  = false.
Proof. reflexivity. Qed.


(** * Further properties of the code *)

Section Further.

Variable parse_numeric : string -> option Z.

(** ** extract_alloc, table side *)

Lemma extract_alloc_count (file : UploadedFile) (df : DataFrame)
    (meta_ : gmap string MetaEntry) :
  extract_alloc parse_numeric file = Ok (df, meta_) ->
  List.length (filter (fun c => c = "Store Number") (columns df)) = 1%nat.
Proof.
  intros H.
  pose proof (extract_alloc_ok_inv parse_numeric _ _ _ H) as (sc & Hf & Hcols & _).
  pose proof (extracted_labels_store_number file sc Hf) as Hin.
  rewrite <- Hcols in Hin. apply count_pos in Hin.
  unfold extract_alloc in H. rewrite locate_store_number_text, Hf in H.
  cbn [mbind outcome_bind] in H.
  unfold store_number_to_Int64 in H. cbn [columns] in H.
  fold (extracted_labels file sc) in H. rewrite <- Hcols in H.
  destruct (1 <? _)%nat eqn:Hlt; [discriminate|].
  apply Nat.ltb_ge in Hlt. lia.
Qed.

(** extract_alloc leaves one column labelled "Store Number", keeps the
    number of columns and of rows of the sheet, coerces the cells of that
    column with to_numeric and leaves every other cell as read. *)
Theorem extract_alloc_touches_only_store_number (file : UploadedFile)
    (df : DataFrame) (meta_ : gmap string MetaEntry) :
  extract_alloc parse_numeric file = Ok (df, meta_) ->
  List.length (filter (fun c => c = "Store Number") (columns df)) = 1%nat
  /\ List.length (columns df) = List.length (header file)
  /\ List.length (rows df) = List.length (data file)
  /\ (forall i r, data file !! i = Some r ->
        exists r', rows df !! i = Some r'
          /\ at_col (columns df) r' "Store Number"
             = to_numeric parse_numeric (at_col (columns df) r "Store Number")
          /\ forall c, c ≠ "Store Number" ->
               at_col (columns df) r' c = at_col (columns df) r c).
Proof.
  intros H. split; [by eapply extract_alloc_count|].
  pose proof (extract_alloc_ok_inv parse_numeric _ _ _ H) as (sc & Hf & Hcols & Hrows & _).
  split_and!.
  - rewrite Hcols. unfold extracted_labels.
    destruct (String.eqb sc "Store Number"); by rewrite !length_map.
  - by rewrite Hrows, length_map.
  - intros i r Hi. rewrite Hrows.
    change (map ?f (data file)) with (f <$> data file).
    rewrite list_lookup_fmap, Hi. eexists. split; [done|]. split.
    + rewrite at_col_zip_with by apply coerce_cell_NA.
      unfold coerce_cell. rewrite bool_decide_eq_true_2; [done|left].
    + intros c Hc. rewrite at_col_zip_with by apply coerce_cell_NA.
      unfold coerce_cell. rewrite bool_decide_eq_false_2; [done|].
      by intros ->%list_elem_of_singleton.
Qed.

(** ** extract_alloc, metadata side *)

(** Every metadata entry comes from one column of the grid to the right
    of the key columns: its key is the text of the reference cell (row 6)
    and is never "nan", its description is the cell of row 1, and its
    overage is the cell of row 4, or 0 when that cell is empty; so no
    entry has a null overage. *)
Theorem extract_alloc_meta_entries (file : UploadedFile) (df : DataFrame)
    (meta_ : gmap string MetaEntry) (k : string) (e : MetaEntry) :
  extract_alloc parse_numeric file = Ok (df, meta_) ->
  meta_ !! k = Some e ->
  k ≠ "nan"
  /\ overs e ≠ NA
  /\ exists (col : nat) (ref_ ov : value),
       (List.length KEY_COLS <= col < shape1 (raw file))%nat
       /\ iloc (raw file) 6 col = Ok ref_ /\ str ref_ = k
       /\ iloc (raw file) 1 col = Ok (brief_description e)
       /\ iloc (raw file) 4 col = Ok ov
       /\ overs e = (if isna ov then Num 0 else ov).
Proof.
  intros H Hk.
  apply (extract_alloc_ok_inv parse_numeric) in H as (_ & _ & _ & _ & Hmeta).
  unfold read_meta in Hmeta. revert k e Hk.
  eapply (for_each_invariant _
    (fun m : gmap string MetaEntry => forall k e, m !! k = Some e ->
       k ≠ "nan" /\ overs e ≠ NA
       /\ exists (col : nat) (ref_ ov : value),
            (List.length KEY_COLS <= col < shape1 (raw file))%nat
            /\ iloc (raw file) 6 col = Ok ref_ /\ str ref_ = k
            /\ iloc (raw file) 1 col = Ok (brief_description e)
            /\ iloc (raw file) 4 col = Ok ov
            /\ overs e = (if isna ov then Num 0 else ov)));
    [| |exact Hmeta].
  - intros m col m' Hcol Hm Hbody k e Hk.
    apply list_elem_of_In, in_seq in Hcol. cbv beta in Hbody.
    destruct (iloc (raw file) 6 col) as [ref_| |] eqn:H6;
      cbn [mbind outcome_bind] in Hbody; [|discriminate..].
    destruct (String.eqb (str ref_) "nan") eqn:Hnan.
    { injection Hbody as <-. by apply Hm. }
    destruct (iloc (raw file) 1 col) as [bd| |] eqn:H1;
      cbn [mbind outcome_bind] in Hbody; [|discriminate..].
    destruct (iloc (raw file) 4 col) as [ov| |] eqn:H4;
      cbn [mbind outcome_bind] in Hbody; [|discriminate..].
    injection Hbody as <-.
    destruct (decide (str ref_ = k)) as [Heq|Hne].
    + rewrite Heq, lookup_insert_eq in Hk. injection Hk as <-. cbn [overs brief_description].
      split_and!.
      * intros ->. rewrite Heq in Hnan. by rewrite String.eqb_refl in Hnan.
      * by destruct ov.
      * exists col, ref_, ov. split_and!; try done; lia.
    + rewrite lookup_insert_ne in Hk by done. by apply Hm.
  - intros k e Hk. by rewrite lookup_empty in Hk.
Qed.



(** ** merge_allocations *)

(** No store is lost and none is invented: the store numbers of the
    merged table are exactly the numeric store numbers of the input rows,
    so the table has as many rows as there are distinct ones. *)
Theorem merged_stores_are_the_input_stores (dfs : list DataFrame) (m : DataFrame) :
  dfs ≠ [] -> forallb allocation_table dfs = true ->
  merge_allocations parse_numeric dfs = Ok m ->
  (forall k, Num k ∈ series m "Store Number" <-> k ∈ store_numbers dfs)
  /\ List.length (rows m) = List.length (remove_dups (store_numbers dfs)).
Proof.
  intros Hne _ Hm.
  destruct (merged_rows_inv parse_numeric dfs m Hne Hm) as (ks & -> & Hnd & _ & Hks).
  rewrite merged_store_number_series. cbn [rows]. split.
  - intros k. rewrite <- Hks. split.
    + intros (k' & [= ->] & ?)%list_elem_of_In%in_map_iff. by apply list_elem_of_In.
    + intros Hk. apply list_elem_of_In, in_map, list_elem_of_In, Hk.
  - rewrite length_map. apply Permutation_length, NoDup_Permutation;
      [done|apply NoDup_remove_dups|].
    intros k. by rewrite Hks, elem_of_remove_dups.
Qed.

Lemma group_cells_total (dfs : list DataFrame) (k : Z) (c : string) :
  foldr Z.add 0
    (map number_or_zero (map (to_numeric parse_numeric) (group_cells dfs k c)))
  = foldr Z.add 0 (map (fun df => store_total parse_numeric df k c) dfs).
Proof.
  induction dfs as [|df dfs IH]; [done|].
  change (df :: dfs) with ([df] ++ dfs).
  rewrite group_cells_app, !map_app, foldr_add_app, IH, group_cells_single.
  simpl. unfold store_total. by rewrite !map_map.
Qed.

(** Every item column of a merged row is the sum, over all input tables,
    of the store's quantities in that column: text is coerced as
    to_numeric does, nulls and absent columns count for 0, and the result
    is a number even when every contribution is null. The quantities of
    a store are taken in the range where the sum of an int64 or float64
    column is exact; the merged quantity then lies in that range too. *)
Theorem merged_item_cell_is_sum_over_tables (dfs : list DataFrame) (m : DataFrame)
    (r : list value) (c : string) :
  dfs ≠ [] -> forallb allocation_table dfs = true ->
  merge_allocations parse_numeric dfs = Ok m ->
  r ∈ rows m -> c ∈ columns m -> c ∉ KEY_COLS ->
  (forall k, magnitude (map (to_numeric parse_numeric) (group_cells dfs k c)) <= 2 ^ 53) ->
  exists k : Z,
    at_col (columns m) r "Store Number" = Num k
    /\ at_col (columns m) r c
       = Num (foldr Z.add 0 (map (fun df => store_total parse_numeric df k c) dfs))
    /\ Z.abs (foldr Z.add 0 (map (fun df => store_total parse_numeric df k c) dfs))
       <= 2 ^ 53.
Proof.
  intros Hne _ Hm Hr Hc Hnk Hrange.
  destruct (merged_rows_inv parse_numeric dfs m Hne Hm) as (ks & -> & _).
  cbn [rows columns] in *.
  apply list_elem_of_In, in_map_iff in Hr as (k & <- & _).
  exists k. split; [done|].
  assert (c ≠ "Store Number") as Hcs.
  { intros ->. apply Hnk, store_number_is_key. }
  apply elem_of_cons in Hc as [?|[_ Hc]%list_elem_of_filter]; [done|].
  rewrite merged_row_at by done.
  unfold merged_cell, in_key_cols. rewrite bool_decide_eq_false_2 by done.
  unfold agg_sum. rewrite group_cells_total. split; [done|].
  rewrite <- group_cells_total.
  pose proof (sum_within_magnitude
                (map (to_numeric parse_numeric) (group_cells dfs k c))) as Hsum.
  specialize (Hrange k). lia.
Qed.

(** ** The upload loop, table by table *)

Lemma upload_step_ok_full (st st' : LoopState) (f : UploadedFile) :
  upload_step parse_numeric st f = Ok st' ->
  exists df meta_ seen dups new_cols,
    extract_alloc parse_numeric f = Ok (df, meta_)
    /\ fold_left classify (item_columns df) (seen_refs st, duplicates st, [])
       = (seen, dups, new_cols)
    /\ st' = mkState
               (all_dfs st
                ++ [mkDF (KEY_COLS ++ new_cols)
                      (map (reindex (columns df) (KEY_COLS ++ new_cols)) (rows df))])
               (filter (fun kv : string * MetaEntry => fst kv ∈ new_cols) meta_
                ∪ meta st)
               seen dups.
Proof.
  unfold upload_step. intros H.
  destruct (extract_alloc parse_numeric f) as [[df meta_]| |] eqn:He;
    cbn [mbind outcome_bind] in H; [|discriminate..].
  destruct (fold_left classify (item_columns df) (seen_refs st, duplicates st, []))
    as [[seen dups] new_cols] eqn:Hc.
  unfold getitem in H.
  destruct (forallb _ (KEY_COLS ++ new_cols)); cbn [mbind outcome_bind] in H;
    [|discriminate].
  injection H as <-. by exists df, meta_, seen, dups, new_cols.
Qed.

Lemma upload_loop_tables (files : list UploadedFile) (st st' : LoopState) :
  for_each (upload_step parse_numeric) files st = Ok st' ->
  exists frames,
    all_dfs st' = all_dfs st ++ frames
    /\ Forall2 (table_of_upload parse_numeric) files frames.
Proof.
  revert st. induction files as [|f files IH]; intros st H.
  - simpl in H. injection H as <-. exists []. by rewrite app_nil_r.
  - simpl in H.
    destruct (upload_step parse_numeric st f) as [st1| |] eqn:Hstep;
      cbn [mbind outcome_bind] in H; [|discriminate..].
    apply IH in H as (frames & Hdfs & Hall).
    apply upload_step_ok_inv in Hstep
      as (df & meta_ & new_cols & He & _ & Hdfs1 & Hnew & _).
    eexists (_ :: frames). split.
    + by rewrite Hdfs, Hdfs1, <- app_assoc.
    + constructor; [|done]. exists df, meta_, new_cols. cbn [columns rows].
      split_and!; try done. intros c Hc. by apply Hnew.
Qed.

Lemma upload_loop_seen_has_table (files : list UploadedFile) (st st' : LoopState)
    (c : string) :
  for_each (upload_step parse_numeric) files st = Ok st' ->
  c ∈ seen_refs st' ->
  c ∈ seen_refs st \/ exists fr, fr ∈ all_dfs st' /\ c ∈ columns fr.
Proof.
  revert st. induction files as [|f files IH]; intros st H Hc.
  - simpl in H. injection H as <-. by left.
  - simpl in H.
    destruct (upload_step parse_numeric st f) as [st1| |] eqn:Hstep;
      cbn [mbind outcome_bind] in H; [|discriminate..].
    pose proof (upload_loop_inv parse_numeric _ _ _ H) as (frames & Hdfs & _).
    destruct (IH st1 H Hc) as [Hs1|?]; [|by right].
    apply upload_step_ok_inv in Hstep
      as (df & meta_ & new_cols & He & _ & Hdfs1 & Hnew & _ & Hseen & _).
    apply Hseen in Hs1 as [?|Hitem]; [by left|].
    destruct (decide (c ∈ seen_refs st)) as [|Hns]; [by left|].
    right. eexists. split.
    + rewrite Hdfs, Hdfs1. apply elem_of_app. left. apply elem_of_app. right. left.
    + cbn [columns]. apply elem_of_app. right. by apply Hnew.
Qed.

Lemma filter_all {A : Type} (P : A -> Prop) `{forall x, Decision (P x)} (l : list A) :
  (forall x, x ∈ l -> P x) -> filter P l = l.
Proof.
  induction l as [|x l IH]; intros Hl; [done|].
  rewrite filter_cons_True by (apply Hl; left).
  f_equal. apply IH. intros y Hy. apply Hl. by right.
Qed.

Lemma union_fold_prefix (dfs : list DataFrame) (a : list string) :
  exists a', fold_left (fun acc df => acc ++ filter (fun c => c ∉ acc) (columns df))
               dfs (KEY_COLS ++ a) = KEY_COLS ++ a'.
Proof.
  revert a. induction dfs as [|df dfs IH]; intros a; cbn [fold_left]; [by exists a|].
  rewrite <- app_assoc. apply IH.
Qed.

Lemma union_columns_key_first (dfs : list DataFrame) (df : DataFrame) (n : list string) :
  columns df = KEY_COLS ++ n ->
  exists items, union_columns (df :: dfs) = KEY_COLS ++ items.
Proof.
  intros Hdf. unfold union_columns. cbn [fold_left app].
  rewrite filter_all by (intros x _ Hx; by apply elem_of_nil in Hx).
  rewrite Hdf. apply union_fold_prefix.
Qed.

(** The loop collects one table per upload, in upload order. With
    labels that are distinct within each sheet, every collected table is
    an allocation table whose labels are the key columns followed by item
    references of that upload, and whose rows are the data rows of the
    sheet in their order: under each of its labels a row holds the cell
    the sheet has there, the store number coerced with to_numeric. *)
Theorem upload_loop_collects_allocation_tables (files : list UploadedFile)
    (st : LoopState) :
  forallb unique_labels files = true ->
  for_each (upload_step parse_numeric) files initial_state = Ok st ->
  List.length (all_dfs st) = List.length files
  /\ forallb allocation_table (all_dfs st) = true
  /\ (forall i f fr, files !! i = Some f -> all_dfs st !! i = Some fr ->
        exists (df : DataFrame) (meta_ : gmap string MetaEntry) (refs : list string),
          extract_alloc parse_numeric f = Ok (df, meta_)
          /\ columns fr = KEY_COLS ++ refs
          /\ (forall c, c ∈ refs -> c ∈ item_refs parse_numeric f)
          /\ List.length (rows fr) = List.length (data f)
          /\ (forall j r, data f !! j = Some r ->
                exists r', rows fr !! j = Some r'
                  /\ at_col (columns fr) r' "Store Number"
                     = to_numeric parse_numeric (at_col (columns df) r "Store Number")
                  /\ forall c, c ∈ columns fr -> c ≠ "Store Number" ->
                       at_col (columns fr) r' c = at_col (columns df) r c)).
Proof.
  intros _ Hloop.
  pose proof (upload_loop_allocation_tables parse_numeric _ _ Hloop) as Halloc.
  apply upload_loop_tables in Hloop as (frames & Hdfs & Hall).
  simpl in Hdfs. rewrite Hdfs in *. split_and!; [|done|].
  - symmetry. by eapply Forall2_length.
  - intros i f fr Hf Hfr.
    destruct (Forall2_lookup_lr _ _ _ _ _ _ Hall Hf Hfr)
      as (df & meta_ & new_cols & He & Hcols & Hnew & Hrows).
    pose proof (extract_alloc_ok_inv parse_numeric _ _ _ He) as (_ & _ & _ & Hdf & _).
    exists df, meta_, new_cols. split_and!; [done|done| | |].
    + intros c Hc.
      rewrite (item_refs_extracted parse_numeric f df meta_ He). by apply Hnew.
    + by rewrite Hrows, Hdf, !length_map.
    + intros j r Hj. rewrite Hrows, Hdf.
      change (map ?g (map ?h (data f))) with (g <$> (h <$> data f)).
      rewrite !list_lookup_fmap, Hj. cbn [fmap option_fmap option_map].
      eexists. split; [done|]. split.
      * rewrite at_col_reindex
          by (rewrite Hcols; apply elem_of_app; left; apply store_number_is_key).
        rewrite at_col_zip_with by apply coerce_cell_NA.
        unfold coerce_cell. rewrite bool_decide_eq_true_2; [done|left].
      * intros c Hc Hne. rewrite at_col_reindex by done.
        rewrite at_col_zip_with by apply coerce_cell_NA.
        unfold coerce_cell. rewrite bool_decide_eq_false_2; [done|].
        by intros ->%list_elem_of_singleton.
Qed.

(** C5, as amended. A store-number cell that holds text without a number
    in it is coerced to null and causes no failure: a sheet that is
    extracted stays extracted whatever its store-number cells are, as
    long as each is null, such a text, or an integer of magnitude at most
    2^53 (a number that no int64 holds makes the cast raise TypeError).
    A row whose store number is null is then dropped by the grouping,
    not retained: the table collected for the upload carries the coerced
    store numbers, and the merged table is the one obtained when every
    row with a null store number is removed from the collected tables
    beforehand; it has one row per distinct store number that is not
    null, and holds no null store number. Uploads are taken with
    the labels read_excel gives them, distinct within a sheet. *)
Theorem null_store_numbers_are_dropped (con ts : string) (files : list UploadedFile)
    (page : Page) (i : nat) (f : UploadedFile) :
  forallb unique_labels files = true ->
  script parse_numeric con ts files = Ok page -> files !! i = Some f ->
  exists (df : DataFrame) (meta_ : gmap string MetaEntry) (st : LoopState)
         (fr : DataFrame),
    extract_alloc parse_numeric f = Ok (df, meta_)
    /\ series df "Store Number"
       = map (to_numeric parse_numeric)
           (series (mkDF (columns df) (data f)) "Store Number")
    /\ (forall s, parse_numeric s = None -> to_numeric parse_numeric (Str s) = NA)
    /\ (forall data',
          Forall (fun r => int64_safe (to_numeric parse_numeric
                                        (at_col (columns df) r "Store Number")) = true)
            data' ->
          is_ok (extract_alloc parse_numeric (mkFile (header f) data' (raw f))) = true)
    /\ for_each (upload_step parse_numeric) files initial_state = Ok st
    /\ all_dfs st !! i = Some fr
    /\ series fr "Store Number" = series df "Store Number"
    /\ merge_allocations parse_numeric (all_dfs st) = Ok (master_df page)
    /\ merge_allocations parse_numeric (map without_null_stores (all_dfs st))
       = Ok (master_df page)
    /\ List.length (rows (master_df page))
       = List.length (remove_dups (store_numbers (all_dfs st)))
    /\ (forall v, v ∈ series (master_df page) "Store Number" -> exists k, v = Num k)
    /\ NA ∉ series (master_df page) "Store Number".
Proof.
  intros _ (st & _ & Hloop & Hm & _)%script_ok_inv Hf.
  pose proof (upload_loop_tables _ _ _ Hloop) as (frames & Hdfs & Hall).
  simpl in Hdfs.
  destruct (Forall2_lookup_l _ _ _ _ _ Hall Hf)
    as (fr & Hfr & df & meta_ & new_cols & He & Hcols & _ & Hrows).
  assert (forall v, v ∈ series (master_df page) "Store Number" -> exists k, v = Num k)
    as Hnum.
  { destruct (decide (all_dfs st = [])) as [Hnil|Hne].
    - rewrite Hnil in Hm. injection Hm as <-. intros v Hv. by apply elem_of_nil in Hv.
    - destruct (merged_rows_inv _ _ _ Hne Hm) as (ks & -> & _).
      rewrite merged_store_number_series.
      intros v (k & <- & _)%list_elem_of_In%in_map_iff. by exists k. }
  exists df, meta_, st, fr. split_and!; try done.
  - by apply (extract_alloc_store_numbers parse_numeric f df meta_).
  - intros s Hs. simpl. by rewrite Hs.
  - intros data' Hsafe. destruct f as [h d r]. cbn [header raw].
    by apply (extract_alloc_safe_cells parse_numeric h d data' r df meta_).
  - by rewrite Hdfs.
  - unfold series. rewrite Hrows, map_map. apply map_ext. intros r.
    apply at_col_reindex. rewrite Hcols. apply elem_of_app. left.
    apply store_number_is_key.
  - by rewrite merge_without_null_stores.
  - assert (all_dfs st ≠ []) as Hne.
    { rewrite Hdfs. intros ->. by rewrite lookup_nil in Hfr. }
    destruct (merged_rows_inv _ _ _ Hne Hm) as (ks & -> & Hnd & _ & Hks).
    cbn [rows]. rewrite length_map.
    apply Permutation_length, NoDup_Permutation; [done|apply NoDup_remove_dups|].
    intros k. by rewrite Hks, elem_of_remove_dups.
  - intros Hna. by destruct (Hnum NA Hna).
Qed.

Lemma script_ok_page (con ts : string) (files : list UploadedFile) (page : Page) :
  script parse_numeric con ts files = Ok page ->
  exists st,
    files ≠ []
    /\ for_each (upload_step parse_numeric) files initial_state = Ok st
    /\ merge_allocations parse_numeric (all_dfs st) = Ok (master_df page)
    /\ lines_count page
       = Z.of_nat (List.length (columns (master_df page)))
         - Z.of_nat (List.length KEY_COLS)
    /\ stores page = List.length (rows (master_df page)).
Proof.
  unfold script. intros H. destruct files as [|f files]; [discriminate|].
  destruct (for_each (upload_step parse_numeric) (f :: files) initial_state)
    as [st| |] eqn:Hloop; cbn [mbind outcome_bind] in H; [|discriminate..].
  destruct (merge_allocations parse_numeric (all_dfs st)) as [m| |] eqn:Hm;
    cbn [mbind outcome_bind] in H; [|discriminate..].
  destruct (build_workbook m (meta st) con) as [wb| |] eqn:Hwb;
    cbn [mbind outcome_bind] in H; [|discriminate..].
  injection H as <-. exists st. cbn [master_df lines_count stores].
  by split_and!.
Qed.

(** In a completed run the merged table has the eleven key columns first,
    in their fixed order, then each item reference of the uploads exactly
    once; the line count of the success message is the number of those
    references (never negative) and the store count is the number of rows. *)
Theorem master_columns_are_keys_then_references (con ts : string)
    (files : list UploadedFile) (page : Page) :
  forallb unique_labels files = true ->
  script parse_numeric con ts files = Ok page ->
  exists refs : list string,
    columns (master_df page) = KEY_COLS ++ refs
    /\ NoDup refs
    /\ (forall c, c ∈ refs <-> exists f, f ∈ files /\ c ∈ item_refs parse_numeric f)
    /\ item_columns (master_df page) = refs
    /\ lines_count page = Z.of_nat (List.length refs)
    /\ stores page = List.length (rows (master_df page)).
Proof.
  intros _ (st & Hne & Hloop & Hm & Hlines & Hstores)%script_ok_page.
  pose proof (upload_loop_inv parse_numeric _ _ _ Hloop)
    as (frames & Hdfs & Hfr & Hseen & _).
  pose proof (upload_loop_tables _ _ _ Hloop) as (frames' & Hdfs' & Hall).
  simpl in Hdfs, Hdfs'. rewrite Hdfs in Hdfs'. subst frames'.
  destruct frames as [|fr frames].
  { apply Forall2_length in Hall. destruct files; [done|discriminate]. }
  assert (all_dfs st ≠ []) as Hne' by (by rewrite Hdfs).
  destruct (merged_rows_inv parse_numeric _ _ Hne' Hm) as (ks & Hmaster & _).
  assert (exists n, columns fr = KEY_COLS ++ n) as [n Hn].
  { inversion Hall as [|f0 ? fs ? (df & meta_ & n & _ & Hc & _)]; subst. by exists n. }
  destruct (union_columns_key_first frames fr n Hn) as [refs Hu].
  assert (NoDup (KEY_COLS ++ refs)) as Hnd.
  { rewrite <- Hu, <- Hdfs. apply NoDup_union_columns. rewrite Hdfs.
    eapply Forall_impl; [exact Hfr|]. by intros ? (? & _). }
  apply NoDup_app in Hnd as (_ & Hdisj & Hndr).
  assert (forall c, c ∈ refs -> c ∉ KEY_COLS) as Hrk.
  { intros c Hc Hk. by apply (Hdisj c). }
  assert (columns (master_df page) = KEY_COLS ++ refs) as Hcols.
  { rewrite Hmaster. cbn [columns]. rewrite Hdfs, Hu, filter_app.
    rewrite (filter_all _ refs).
    - reflexivity.
    - intros c Hc ->. apply (Hrk _ Hc), store_number_is_key. }
  exists refs. split_and!; try done.
  - intros c. split.
    + intros Hc.
      assert (c ∈ union_columns (all_dfs st)) as Hcu.
      { rewrite Hdfs, Hu. apply elem_of_app. by right. }
      apply elem_of_union_columns in Hcu as (fr' & Hfr' & Hcfr).
      rewrite Hdfs in Hfr'. rewrite Forall_forall in Hfr.
      destruct (Hfr fr' Hfr') as (_ & _ & Hitem).
      by destruct (Hitem c Hcfr (Hrk c Hc)) as [_ ?].
    + intros Hex.
      assert (c ∈ seen_refs st) as Hs by (apply Hseen; by right).
      destruct (upload_loop_seen_has_table _ _ _ c Hloop Hs) as [Hs0|(fr' & Hfr' & Hcfr)].
      { by apply elem_of_empty in Hs0. }
      assert (c ∈ KEY_COLS ++ refs) as Hin.
      { rewrite <- Hu, <- Hdfs. apply elem_of_union_columns. by exists fr'. }
      apply elem_of_app in Hin as [Hk|?]; [|done].
      destruct Hex as (f & Hf & Hcf).
      unfold item_refs in Hcf.
      destruct (extract_alloc parse_numeric f) as [[df ?]| |];
        [|by apply elem_of_nil in Hcf..].
      by apply item_columns_not_key in Hcf as [_ ?].
  - unfold item_columns. rewrite Hcols, filter_app.
    rewrite (filter_all _ refs) by done.
    replace (filter (fun c => c ∉ KEY_COLS) KEY_COLS) with (@nil string); [done|].
    symmetry. apply length_zero_iff_nil.
    destruct (filter (fun c => c ∉ KEY_COLS) KEY_COLS) as [|y ys] eqn:Hf; [done|].
    assert (y ∈ filter (fun c => c ∉ KEY_COLS) KEY_COLS) as [Hy Hy']%list_elem_of_filter
      by (rewrite Hf; left). done.
  - rewrite Hlines, Hcols, length_app. lia.
Qed.

(** ** Completed runs *)

(** A run that completes has read every upload: each one is extracted
    without exception, has a store-number column, and has every other key
    column under its exact label once stripped. *)
Theorem completed_run_read_every_upload (con ts : string) (files : list UploadedFile)
    (page : Page) (f : UploadedFile) :
  script parse_numeric con ts files = Ok page -> f ∈ files ->
  is_ok (extract_alloc parse_numeric f) = true
  /\ lacks_store_number f = false
  /\ (forall k, k ∈ KEY_COLS -> k ≠ "Store Number" -> k ∈ map Py.strip (header f)).
Proof.
  intros Hrun Hf.
  pose proof (script_ok_inv parse_numeric _ _ _ _ Hrun) as (st & _ & Hloop & _).
  split_and!.
  - by eapply upload_loop_extracts.
  - by eapply (completed_run_has_key_columns parse_numeric con ts files page f "").
  - intros k. by eapply (completed_run_has_key_columns parse_numeric con ts files page f k).
Qed.

(** ** Metadata across uploads *)

Lemma upload_loop_seen (files : list UploadedFile) (st : LoopState) (c : string) :
  for_each (upload_step parse_numeric) files initial_state = Ok st ->
  c ∈ seen_refs st <-> exists f, f ∈ files /\ c ∈ item_refs parse_numeric f.
Proof.
  intros (frames & _ & _ & Hseen & _)%upload_loop_inv.
  rewrite Hseen. split; [|by right].
  intros [Hs|?]; [|done]. by apply elem_of_empty in Hs.
Qed.

(** The metadata kept for a reference is the entry read from the first
    upload that has the reference as an item column; later uploads never
    replace it. *)
Theorem metadata_comes_from_first_upload (files : list UploadedFile) (st : LoopState)
    (k : string) (e : MetaEntry) :
  for_each (upload_step parse_numeric) files initial_state = Ok st ->
  meta st !! k = Some e ->
  exists (i : nat) (f : UploadedFile) (df : DataFrame) (meta_ : gmap string MetaEntry),
    files !! i = Some f
    /\ extract_alloc parse_numeric f = Ok (df, meta_)
    /\ meta_ !! k = Some e
    /\ k ∈ item_columns df
    /\ (forall j f', (j < i)%nat -> files !! j = Some f' ->
          k ∉ item_refs parse_numeric f').
Proof.
  revert st. induction files as [|f pre IH] using rev_ind; intros st Hloop Hk.
  - simpl in Hloop. injection Hloop as <-.
    unfold initial_state in Hk. cbn [meta] in Hk. by rewrite lookup_empty in Hk.
  - rewrite for_each_app in Hloop.
    destruct (for_each (upload_step parse_numeric) pre initial_state)
      as [st1| |] eqn:Hpre; cbn [mbind outcome_bind] in Hloop; [|discriminate..].
    simpl in Hloop.
    destruct (upload_step parse_numeric st1 f) as [st2| |] eqn:Hstep;
      cbn [mbind outcome_bind] in Hloop; [|discriminate..].
    injection Hloop as <-.
    apply upload_step_ok_full in Hstep
      as (df & meta_ & seen & dups & new_cols & He & Hfold & ->).
    cbn [meta] in Hk.
    assert (forall c, c ∈ new_cols <-> c ∈ item_columns df /\ c ∉ seen_refs st1) as Hnew.
    { apply (classify_fold parse_numeric) in Hfold as (_ & Hnew & _).
      - intros c. rewrite Hnew, elem_of_nil. tauto.
      - intros c Hc. by apply elem_of_nil in Hc.
      - constructor. }
    apply lookup_union_Some_raw in Hk as [Hk|[_ Hk]].
    + apply map_lookup_filter_Some in Hk as [Hk Hin]. cbn [fst] in Hin.
      apply Hnew in Hin as [Hitem Hns].
      exists (List.length pre), f, df, meta_. split_and!; try done.
      * by rewrite list_lookup_middle.
      * intros j f' Hj Hf' Hc. apply Hns.
        apply (upload_loop_seen pre st1 k Hpre). exists f'. split; [|done].
        rewrite lookup_app_l in Hf' by done. by eapply list_elem_of_lookup_2.
    + destruct (IH st1 eq_refl Hk) as (i & f0 & df0 & meta0 & Hi & He0 & Hm0 & Hc0 & Hmin).
      pose proof (lookup_lt_Some _ _ _ Hi) as Hlt.
      exists i, f0, df0, meta0. split_and!; try done.
      * by rewrite lookup_app_l.
      * intros j f' Hj Hf'. apply (Hmin j f' Hj).
        rewrite lookup_app_l in Hf' by lia. done.
Qed.

(** ** The warning about duplicates *)

Lemma extract_alloc_NoDup (f : UploadedFile) (df : DataFrame)
    (meta_ : gmap string MetaEntry) :
  unique_labels f = true ->
  extract_alloc parse_numeric f = Ok (df, meta_) ->
  NoDup (columns df).
Proof.
  intros Hu%bool_decide_eq_true He.
  pose proof (extract_alloc_count _ _ _ He) as Hcount.
  pose proof (extract_alloc_ok_inv parse_numeric _ _ _ He) as (sc & Hf & Hcols & _).
  rewrite Hcols in Hcount |- *. unfold extracted_labels in *.
  destruct (String.eqb sc "Store Number") eqn:Hsc; [done|].
  apply String.eqb_neq in Hsc.
  set (g := fun c : string => if String.eqb c sc then "Store Number" else c) in *.
  set (cols := map Py.strip (header f)) in *.
  assert (g sc = "Store Number") as Hgsc by (unfold g; by rewrite String.eqb_refl).
  assert (forall c, c ≠ sc -> g c = c) as Hgo.
  { intros c Hc. unfold g. by apply String.eqb_neq in Hc as ->. }
  assert (sc ∈ cols) as Hin.
  { apply find_some in Hf as [? _]. by apply list_elem_of_In. }
  assert ("Store Number" ∉ cols) as Hno.
  { intros Hsn. apply list_elem_of_split in Hin as (l1 & l2 & Hsplit).
    rewrite Hsplit in Hsn, Hcount.
    rewrite map_app in Hcount. cbn [map] in Hcount.
    rewrite filter_app, filter_cons_True, length_app in Hcount by done.
    cbn [List.length] in Hcount.
    assert (forall l, "Store Number" ∈ l ->
              (1 <= List.length (filter (fun c => c = "Store Number") (map g l)))%nat)
      as Hpos.
    { intros l Hl. apply count_pos, list_elem_of_In, in_map_iff.
      exists "Store Number". split; [by apply Hgo|by apply list_elem_of_In]. }
    apply elem_of_app in Hsn as [Hsn|[?|Hsn]%elem_of_cons]; [|done|].
    - apply Hpos in Hsn. lia.
    - apply Hpos in Hsn. lia. }
  change (map g cols) with (g <$> cols).
  apply NoDup_fmap_2_strong; [|done].
  intros x y Hx Hy Hxy.
  destruct (decide (x = sc)) as [->|Hxs], (decide (y = sc)) as [->|Hys]; try done.
  - rewrite Hgsc, (Hgo y) in Hxy by done. by subst.
  - rewrite Hgsc, (Hgo x) in Hxy by done. by subst.
  - by rewrite !Hgo in Hxy.
Qed.

Lemma classify_fold_dups (l : list string) (S : gset string) (D N : list string)
    (S' : gset string) (D' N' : list string) (c : string) :
  NoDup l ->
  fold_left classify l (S, D, N) = (S', D', N') ->
  c ∈ D' -> c ∈ D \/ (c ∈ l /\ c ∈ S).
Proof.
  intros Hnd. revert S D N.
  induction Hnd as [|c0 l Hc0 Hnd IH]; intros S D N Hf Hc.
  - simpl in Hf. injection Hf as <- <- <-. by left.
  - simpl in Hf. case_bool_decide as Hs.
    + destruct (IH _ _ _ Hf Hc) as [[?|Heq%list_elem_of_singleton]%elem_of_app|[? ?]].
      * by left.
      * subst. right. split; [left|done].
      * right. split; [by right|done].
    + destruct (IH _ _ _ Hf Hc) as [?|[Hl HS]]; [by left|].
      apply elem_of_union in HS as [Heq%elem_of_singleton|?].
      * by subst.
      * right. split; [by right|done].
Qed.

Lemma upload_loop_duplicates_sound (files : list UploadedFile) (st st' : LoopState)
    (c : string) :
  forallb unique_labels files = true ->
  for_each (upload_step parse_numeric) files st = Ok st' ->
  c ∈ duplicates st' ->
  c ∈ duplicates st
  \/ exists j fj, files !! j = Some fj /\ c ∈ item_refs parse_numeric fj
       /\ (c ∈ seen_refs st
           \/ exists i fi, (i < j)%nat /\ files !! i = Some fi
                /\ c ∈ item_refs parse_numeric fi).
Proof.
  revert st. induction files as [|f files IH]; intros st Hu Hloop Hc.
  - simpl in Hloop. injection Hloop as <-. by left.
  - simpl in Hu. apply andb_true_iff in Hu as [Hf Hu].
    simpl in Hloop.
    destruct (upload_step parse_numeric st f) as [st1| |] eqn:Hstep;
      cbn [mbind outcome_bind] in Hloop; [|discriminate..].
    pose proof (upload_step_ok_inv parse_numeric _ _ _ Hstep)
      as (df' & meta' & ? & He' & _ & _ & _ & _ & Hseen & _).
    apply upload_step_ok_full in Hstep
      as (df & meta_ & seen & dups & new_cols & He & Hfold & ->).
    rewrite He in He'. injection He' as <- <-.
    pose proof (item_refs_extracted parse_numeric f df meta_ He) as Hrefs.
    destruct (IH _ Hu Hloop Hc) as [Hd|(j & fj & Hj & Hcj & Hprev)].
    + cbn [duplicates] in Hd.
      assert (NoDup (item_columns df)) as Hnd
        by (apply NoDup_filter; by eapply extract_alloc_NoDup).
      destruct (classify_fold_dups _ _ _ _ _ _ _ c Hnd Hfold Hd) as [?|[Hl HS]];
        [by left|].
      right. exists 0%nat, f. split_and!; [done|by rewrite Hrefs|by left].
    + right. exists (S j), fj. split_and!; [done..|].
      destruct Hprev as [Hs|(i & fi & Hi & Hfi & Hci)].
      * apply Hseen in Hs as [?|Hitem]; [by left|].
        right. exists 0%nat, f. split_and!; [lia|done|by rewrite Hrefs].
      * right. exists (S i), fi. split_and!; [lia|done..].
Qed.

Lemma upload_loop_duplicates_complete (files : list UploadedFile) (st : LoopState)
    (c : string) (i j : nat) (fi fj : UploadedFile) :
  for_each (upload_step parse_numeric) files initial_state = Ok st ->
  (i < j)%nat -> files !! i = Some fi -> files !! j = Some fj ->
  c ∈ item_refs parse_numeric fi -> c ∈ item_refs parse_numeric fj ->
  c ∈ duplicates st.
Proof.
  intros Hloop Hij Hi Hj Hci Hcj.
  rewrite <- (take_drop (S i) files), for_each_app in Hloop.
  destruct (for_each (upload_step parse_numeric) (take (S i) files) initial_state)
    as [st1| |] eqn:Hpre; cbn [mbind outcome_bind] in Hloop; [|discriminate..].
  assert (c ∈ seen_refs st1) as Hs.
  { apply (upload_loop_seen _ _ _ Hpre). exists fi. split; [|done].
    apply list_elem_of_lookup. exists i. by rewrite lookup_take_lt by lia. }
  apply upload_loop_inv in Hloop as (_ & _ & _ & _ & _ & Hdup).
  apply Hdup; [done|]. exists fj. split; [|done].
  apply list_elem_of_lookup. exists (j - S i)%nat.
  rewrite lookup_drop. by replace (S i + (j - S i))%nat with j by lia.
Qed.

(** The warning of a completed run names exactly the references that are
    item columns of two different uploads, each once and in ascending
    order; when there is none no warning is shown. *)
Theorem warning_names_exactly_repeated_references (con ts : string)
    (files : list UploadedFile) (page : Page) :
  forallb unique_labels files = true ->
  script parse_numeric con ts files = Ok page ->
  exists dups : list string,
    NoDup dups
    /\ Sorted String.le dups
    /\ (forall c, c ∈ dups <->
          exists i j fi fj, (i < j)%nat /\ files !! i = Some fi /\ files !! j = Some fj
            /\ c ∈ item_refs parse_numeric fi /\ c ∈ item_refs parse_numeric fj)
    /\ warning page
       = match dups with
         | [] => None
         | _ => Some ("Duplicate brief reference(s) ignored: " +:+ Py.join ", " dups)
         end.
Proof.
  intros Hu (st & _ & Hloop & _ & _ & Hwarn)%script_ok_inv.
  exists (reported_duplicates (duplicates st)).
  assert (forall c, c ∈ reported_duplicates (duplicates st) <-> c ∈ duplicates st) as Hmem.
  { intros c. unfold reported_duplicates.
    by rewrite merge_sort_Permutation, elem_of_remove_dups. }
  split_and!.
  - unfold reported_duplicates. rewrite merge_sort_Permutation. apply NoDup_remove_dups.
  - apply (Sorted_merge_sort _).
  - intros c. rewrite Hmem. split.
    + intros Hc.
      destruct (upload_loop_duplicates_sound _ _ _ c Hu Hloop Hc)
        as [Hd|(j & fj & Hj & Hcj & [Hs|(i & fi & Hij & Hi & Hci)])].
      * by apply elem_of_nil in Hd.
      * by apply elem_of_empty in Hs.
      * by exists i, j, fi, fj.
    + intros (i & j & fi & fj & Hij & Hi & Hj & Hci & Hcj).
      by eapply upload_loop_duplicates_complete.
  - rewrite Hwarn. destruct (duplicates st) as [|d ds] eqn:Hd; [done|].
    destruct (reported_duplicates (d :: ds)) as [|x xs] eqn:Hr; [|done].
    assert (d ∈ @nil string) as Hin by (apply Hmem; left).
    by apply elem_of_nil in Hin.
Qed.

(** ** Locating the store-number column *)

Lemma renamed_count (cols : list string) (sc : string) :
  sc ≠ "Store Number" -> sc ∈ cols -> "Store Number" ∈ cols ->
  (2 <= List.length
          (filter (fun c => c = "Store Number")
             (map (fun c => if String.eqb c sc then "Store Number" else c) cols)))%nat.
Proof.
  intros Hsc Hin Hsn.
  set (g := fun c : string => if String.eqb c sc then "Store Number" else c).
  assert (forall l, "Store Number" ∈ l ->
            (1 <= List.length (filter (fun c => c = "Store Number") (map g l)))%nat)
    as Hpos.
  { intros l Hl. apply count_pos, list_elem_of_In, in_map_iff.
    exists "Store Number". split; [|by apply list_elem_of_In].
    unfold g. assert ("Store Number" ≠ sc) as Hne by done.
    by apply String.eqb_neq in Hne as ->. }
  apply list_elem_of_split in Hin as (l1 & l2 & ->).
  rewrite map_app. cbn [map]. unfold g at 2. rewrite String.eqb_refl.
  rewrite filter_app, filter_cons_True, length_app by done.
  cbn [List.length].
  apply elem_of_app in Hsn as [Hsn|[?|Hsn]%elem_of_cons]; [|done|].
  - apply Hpos in Hsn. lia.
  - apply Hpos in Hsn. lia.
Qed.

(** When the column located as the store number carries another spelling
    and the sheet also has a column labelled exactly "Store Number", the
    rename leaves two columns of that label and extract_alloc raises
    TypeError at the coercion. *)
Theorem two_store_number_columns_raise_TypeError (file : UploadedFile)
    (store_col : string) :
  find is_store_number (map Py.strip (header file)) = Some store_col ->
  store_col ≠ "Store Number" ->
  "Store Number" ∈ map Py.strip (header file) ->
  extract_alloc parse_numeric file = Raise TypeError.
Proof.
  intros Hf Hsc Hsn. unfold extract_alloc.
  rewrite locate_store_number_text, Hf. cbn [mbind outcome_bind].
  apply String.eqb_neq in Hsc as Hsc'. rewrite Hsc'.
  unfold store_number_to_Int64. cbn [columns].
  assert (store_col ∈ map Py.strip (header file)) as Hin.
  { apply find_some in Hf as [? _]. by apply list_elem_of_In. }
  pose proof (renamed_count _ _ Hsc Hin Hsn) as Hc.
  destruct (1 <? _)%nat eqn:Hlt; [done|].
  apply Nat.ltb_ge in Hlt. lia.
Qed.

Lemma isspace_not_upper (a : ascii) : Py.isspace a = true -> Py.lower_char a = a.
Proof.
  unfold Py.isspace, Py.lower_char. intros H.
  destruct ((65 <=? nat_of_ascii a) && (nat_of_ascii a <=? 90))%nat eqn:Hu; [|done].
  apply andb_true_iff in Hu as [H1%Nat.leb_le H2%Nat.leb_le].
  apply orb_true_iff in H as [H|H]; apply andb_true_iff in H as [_ H%Nat.leb_le]; lia.
Qed.

Ltac bool_false :=
  repeat first
    [ rewrite Bool.andb_false_r | rewrite Bool.andb_false_l
    | rewrite Bool.orb_false_r | rewrite Bool.orb_false_l ];
  try reflexivity.

Lemma isspace_ascii_byte (a : ascii) : Py.isspace a = true -> Py.ascii_byte a = true.
Proof.
  unfold Py.isspace, Py.ascii_byte. cbv zeta. intros H. apply Nat.ltb_lt.
  apply orb_true_iff in H as [H|H]; apply andb_true_iff in H as [_ H%Nat.leb_le]; lia.
Qed.

Lemma ascii_byte_eqb (a : ascii) (n : nat) :
  Py.ascii_byte a = true -> (128 <=? n)%nat = true -> (nat_of_ascii a =? n)%nat = false.
Proof.
  unfold Py.ascii_byte. intros H%Nat.ltb_lt Hn%Nat.leb_le. apply Nat.eqb_neq. lia.
Qed.

Lemma ascii_byte_leb (a : ascii) (n : nat) :
  Py.ascii_byte a = true -> (128 <=? n)%nat = true -> (n <=? nat_of_ascii a)%nat = false.
Proof.
  unfold Py.ascii_byte. intros H%Nat.ltb_lt Hn%Nat.leb_le. apply Nat.leb_gt. lia.
Qed.

Lemma space2_ascii_1 (a b : ascii) : Py.ascii_byte a = true -> Py.space2 a b = false.
Proof.
  intros H. unfold Py.space2. cbv zeta.
  rewrite !(ascii_byte_eqb a) by done. bool_false.
Qed.

Lemma space2_ascii_2 (a b : ascii) : Py.ascii_byte b = true -> Py.space2 a b = false.
Proof.
  intros H. unfold Py.space2. cbv zeta.
  rewrite !(ascii_byte_eqb b) by done. bool_false.
Qed.

Lemma space3_ascii_1 (a b c : ascii) : Py.ascii_byte a = true -> Py.space3 a b c = false.
Proof.
  intros H. unfold Py.space3. cbv zeta.
  rewrite !(ascii_byte_eqb a) by done. bool_false.
Qed.

Lemma space3_ascii_2 (a b c : ascii) : Py.ascii_byte b = true -> Py.space3 a b c = false.
Proof.
  intros H. unfold Py.space3. cbv zeta.
  rewrite !(ascii_byte_eqb b) by done. bool_false.
Qed.

Lemma space3_ascii_3 (a b c : ascii) : Py.ascii_byte c = true -> Py.space3 a b c = false.
Proof.
  intros H. unfold Py.space3. cbv zeta.
  rewrite !(ascii_byte_eqb c), (ascii_byte_leb c) by done. bool_false.
Qed.

Lemma lstrip_pad (pad s : string) :
  forallb Py.isspace (list_ascii_of_string pad) = true ->
  Py.lstrip (pad +:+ s) = Py.lstrip s.
Proof.
  induction pad as [|a pad IH]; intros H; [done|].
  simpl in H. apply andb_true_iff in H as [Ha H].
  simpl. rewrite Ha. by apply IH.
Qed.

Lemma lstrip_spaces (pad : string) :
  forallb Py.isspace (list_ascii_of_string pad) = true -> Py.lstrip pad = "".
Proof.
  induction pad as [|a pad IH]; intros H; [done|].
  simpl in H. apply andb_true_iff in H as [Ha H].
  simpl. rewrite Ha. by apply IH.
Qed.

Lemma lstrip_ascii_start (a : ascii) (s : string) :
  Py.ascii_byte a = true -> Py.isspace a = false -> Py.lstrip (String a s) = String a s.
Proof.
  intros Ha Hs. cbn [Py.lstrip]. rewrite Hs.
  destruct s as [|b [|c s]]; [done|by rewrite space2_ascii_1|].
  by rewrite space2_ascii_1, space3_ascii_1.
Qed.

(** Stripping on the left does not look into a suffix of ASCII bytes
    before it has consumed the whole of what precedes it. *)
Lemma lstrip_app_ascii (t u : string) :
  forallb Py.ascii_byte (list_ascii_of_string u) = true ->
  Py.lstrip (t +:+ u)
  = match Py.lstrip t with
    | EmptyString => Py.lstrip u
    | r => r +:+ u
    end.
Proof.
  intros Hu.
  assert (forall n t, (String.length t <= n)%nat ->
            Py.lstrip (t +:+ u)
            = match Py.lstrip t with
              | EmptyString => Py.lstrip u
              | r => r +:+ u
              end) as Hind; [|by apply (Hind (String.length t))].
  clear t. induction n as [|n IH]; intros t Hlen.
  { destruct t; [done|simpl in Hlen; lia]. }
  destruct t as [|a t1]; [done|].
  change (String a t1 +:+ u) with (String a (t1 +:+ u)).
  cbn [Py.lstrip]. destruct (Py.isspace a) eqn:Ha.
  { apply IH. simpl in Hlen. lia. }
  destruct t1 as [|b t2]; cbv beta iota.
  { change ("" +:+ u) with u.
    destruct u as [|p1 u2]; [done|]. simpl in Hu.
    apply andb_true_iff in Hu as [Hp1 Hu].
    rewrite space2_ascii_2 by done.
    destruct u2 as [|p2 u3]; [done|]. by rewrite space3_ascii_2. }
  change (String b t2 +:+ u) with (String b (t2 +:+ u)).
  cbv beta iota. destruct (Py.space2 a b) eqn:Hab.
  { apply IH. simpl in Hlen. lia. }
  destruct t2 as [|c t3]; cbv beta iota.
  { change ("" +:+ u) with u.
    destruct u as [|p1 u2]; [done|]. simpl in Hu.
    apply andb_true_iff in Hu as [Hp1 Hu].
    by rewrite space3_ascii_3. }
  change (String c t3 +:+ u) with (String c (t3 +:+ u)).
  cbv beta iota. destruct (Py.space3 a b c) eqn:Habc.
  { apply IH. simpl in Hlen. lia. }
  done.
Qed.

Lemma lstrip_app_empty (t u : string) :
  forallb Py.ascii_byte (list_ascii_of_string u) = true ->
  String.eqb (Py.lstrip (t +:+ u)) ""
  = String.eqb (Py.lstrip t) "" && String.eqb (Py.lstrip u) "".
Proof.
  intros Hu. rewrite lstrip_app_ascii by done.
  destruct (Py.lstrip t) as [|a r]; [done|]. done.
Qed.

Lemma spaces_ascii (pad : string) :
  forallb Py.isspace (list_ascii_of_string pad) = true ->
  forallb Py.ascii_byte (list_ascii_of_string pad) = true.
Proof.
  rewrite !forallb_forall. intros H a Ha. by apply isspace_ascii_byte, H.
Qed.

Lemma rstrip_pad (s pad : string) :
  forallb Py.isspace (list_ascii_of_string pad) = true ->
  Py.rstrip (s +:+ pad) = Py.rstrip s.
Proof.
  intros H. induction s as [|a s IH].
  - change ("" +:+ pad) with pad. destruct pad as [|p pad]; [done|].
    cbn [Py.rstrip]. by rewrite lstrip_spaces.
  - change (String a s +:+ pad) with (String a (s +:+ pad)).
    cbn [Py.rstrip]. rewrite IH.
    change (String a (s +:+ pad)) with (String a s +:+ pad).
    rewrite lstrip_app_empty by (by apply spaces_ascii).
    rewrite (lstrip_spaces pad) by done. by rewrite andb_true_r.
Qed.

Lemma rstrip_ends_with (s : string) (a : ascii) :
  Py.ascii_byte a = true -> Py.isspace a = false ->
  Py.rstrip (s +:+ String a "") = s +:+ String a "".
Proof.
  intros Ha Hs.
  assert (Py.lstrip (String a "") = String a "") as Hl by (by apply lstrip_ascii_start).
  induction s as [|b s IH].
  - change ("" +:+ String a "") with (String a ""). cbn [Py.rstrip]. by rewrite Hl.
  - change (String b s +:+ String a "") with (String b (s +:+ String a "")).
    cbn [Py.rstrip]. rewrite IH.
    change (String b (s +:+ String a "")) with (String b s +:+ String a "").
    rewrite lstrip_app_empty by (simpl; by rewrite Ha).
    rewrite Hl. by rewrite andb_false_r.
Qed.

Lemma lower_char_ascii (a : ascii) (c : ascii) :
  Py.lower_char a = c -> Py.ascii_byte c = true -> Py.ascii_byte a = true.
Proof.
  unfold Py.lower_char, Py.ascii_byte.
  destruct ((65 <=? nat_of_ascii a) && (nat_of_ascii a <=? 90))%nat eqn:Hu.
  - intros _ _. apply andb_true_iff in Hu as [_ H%Nat.leb_le]. apply Nat.ltb_lt. lia.
  - by intros ->.
Qed.

(** The column is found whatever the letter case and the surrounding
    whitespace of its label: a header cell that reads "store number" once
    its padding is removed and its letters are lower-cased counts as the
    store-number column, so extract_alloc does not stop. *)
Theorem store_number_is_found_tolerantly (file : UploadedFile)
    (pad1 label pad2 : string) (n : notice) :
  forallb Py.isspace (list_ascii_of_string pad1) = true ->
  forallb Py.isspace (list_ascii_of_string pad2) = true ->
  Py.lower label = "store number" ->
  (pad1 +:+ label +:+ pad2) ∈ header file ->
  Py.strip (pad1 +:+ label +:+ pad2) = label
  /\ lacks_store_number file = false
  /\ extract_alloc parse_numeric file ≠ Stopped n.
Proof.
  intros Hp1 Hp2 Hl Hin.
  assert (exists c1 mid c12, label = String c1 (mid +:+ String c12 "")
            /\ (Py.ascii_byte c1 = true /\ Py.isspace c1 = false)
            /\ (Py.ascii_byte c12 = true /\ Py.isspace c12 = false)) as Hshape.
  { do 12 (destruct label as [|? label]; [discriminate|]).
    destruct label; [|discriminate].
    simpl in Hl. injection Hl as H1 H2 H3 H4 H5 H6 H7 H8 H9 H10 H11 H12.
    eexists _, (String _ (String _ (String _ (String _ (String _
                 (String _ (String _ (String _ (String _ (String _ "")))))))))), _.
    split; [reflexivity|]. split.
    - split; [by apply (lower_char_ascii _ _ H1)|].
      destruct (Py.isspace a) eqn:Hs; [|done].
      pose proof (isspace_not_upper _ Hs) as Hlow. rewrite Hlow in H1.
      subst a. discriminate Hs.
    - split; [by apply (lower_char_ascii _ _ H12)|].
      destruct (Py.isspace a10) eqn:Hs; [|done].
      pose proof (isspace_not_upper _ Hs) as Hlow. rewrite Hlow in H12.
      subst a10. discriminate Hs. }
  destruct Hshape as (c1 & mid & c12 & Hlab & [Hb1 Hc1] & [Hb12 Hc12]).
  assert (Py.rstrip label = label) as Hright.
  { rewrite Hlab.
    change (String c1 (mid +:+ String c12 "")) with (String c1 mid +:+ String c12 "").
    by apply rstrip_ends_with. }
  assert (Py.strip label = label) as Hstrip.
  { unfold Py.strip. rewrite Hlab at 1. rewrite lstrip_ascii_start by done.
    by rewrite <- Hlab. }
  assert (Py.strip (pad1 +:+ label +:+ pad2) = label) as Hpad.
  { unfold Py.strip. rewrite lstrip_pad by done. rewrite Hlab at 1.
    change (String c1 (mid +:+ String c12 "") +:+ pad2)
      with (String c1 ((mid +:+ String c12 "") +:+ pad2)).
    rewrite lstrip_ascii_start by done.
    change (String c1 ((mid +:+ String c12 "") +:+ pad2))
      with (String c1 (mid +:+ String c12 "") +:+ pad2).
    rewrite <- Hlab. by rewrite rstrip_pad. }
  assert (lacks_store_number file = false) as Hlacks.
  { unfold lacks_store_number. apply Bool.not_true_is_false. intros Hall.
    rewrite forallb_forall in Hall.
    specialize (Hall label). 
    assert (In label (map Py.strip (header file))) as Hin'.
    { apply in_map_iff. exists (pad1 +:+ label +:+ pad2).
      split; [done|by apply list_elem_of_In]. }
    apply Hall in Hin'. unfold is_store_number in Hin'.
    rewrite Hstrip, Hl in Hin'. done. }
  split_and!; [done..|].
  intros Hstop. unfold extract_alloc in Hstop.
  rewrite locate_store_number_text in Hstop.
  destruct (find is_store_number (map Py.strip (header file))) as [sc|] eqn:Hf.
  - cbn [mbind outcome_bind] in Hstop.
    unfold store_number_to_Int64 in Hstop. destruct (1 <? _)%nat; [done|].
    destruct (forallb _ (series _ _)); [|done].
    cbn [mbind outcome_bind] in Hstop.
    destruct (read_meta (raw file)) as [m| |n'] eqn:Hm;
      cbn [mbind outcome_bind] in Hstop; [done..|].
    by apply read_meta_not_stopped in Hm.
  - apply find_none_forallb in Hf. unfold lacks_store_number in Hlacks. congruence.
Qed.

End Further.

(** ** The layout of the workbook *)

Lemma size_columns_cells (ws : Worksheet) : cells (size_columns ws) = cells ws.
Proof.
  unfold size_columns. generalize (seq 1 (max_column ws)). intros l.
  revert ws. induction l as [|i l IH]; intros ws; [done|].
  cbn [fold_left]. by rewrite IH.
Qed.

Lemma size_columns_dimension (l : list nat) (w : Worksheet) (letter : string) :
  letter ∈ map get_column_letter l
  \/ column_dimensions w !! letter = Some (mkDim 18 (hide_test letter)) ->
  column_dimensions
    (fold_left
       (fun w col_idx =>
          let col_letter := get_column_letter col_idx in
          set_dimension w col_letter (mkDim 18 (hide_test col_letter)))
       l w) !! letter
  = Some (mkDim 18 (hide_test letter)).
Proof.
  revert w. induction l as [|i l IH]; intros w H.
  - destruct H as [H|H]; [by apply elem_of_nil in H|done].
  - cbn [fold_left]. apply IH.
    destruct (decide (letter = get_column_letter i)) as [->|Hne].
    + right. cbn [set_dimension column_dimensions]. by rewrite lookup_insert_eq.
    + destruct H as [H|H].
      * left. cbn [map] in H. by apply elem_of_cons in H as [?|?].
      * right. cbn [set_dimension column_dimensions]. by rewrite lookup_insert_ne.
Qed.

Lemma max_column_ge (ws : Worksheet) (r c : nat) (v : value) :
  cell_value ws r c = Some v -> (c <= max_column ws)%nat.
Proof.
  unfold cell_value, max_column. revert r c v.
  apply (map_fold_weak_ind
           (fun (b : nat) (m : gmap (nat * nat) value) =>
              forall r c v, m !! (r, c) = Some v -> (c <= b)%nat)).
  - intros r c v H. by rewrite lookup_empty in H.
  - intros [r0 c0] x m b _ IH r c v H. cbn [snd].
    destruct (decide ((r0, c0) = (r, c))) as [[= -> ->]|Hne].
    + lia.
    + rewrite lookup_insert_ne in H by done. specialize (IH r c v H). lia.
Qed.

(** Where build_workbook puts things: the annotation in A1, the four
    labels in K2 to K5, the description of every item in row 2 of its
    column (empty text without metadata), the labels of the table in row
    6 and its cells from row 7 on, each under its own label. A text is
    held as openpyxl stores it, cut to 32767 characters, and a null cell
    of the table is written as the empty text. The summary block never
    overwrites the annotation or the table. *)
Theorem workbook_layout (df : DataFrame) (meta : gmap string MetaEntry)
    (consolidated_on : string) (ws : Worksheet) :
  NoDup (columns df) ->
  build_workbook df meta consolidated_on = Ok ws ->
  cell_value ws 1 1 = Some (stored (Str consolidated_on))
  /\ (forall r_off label, LABELS !! r_off = Some label ->
        cell_value ws (2 + r_off) LABEL_COL_XL = Some (Str label))
  /\ (forall idx item, item_columns df !! idx = Some item ->
        cell_value ws 2 (ITEM_START_XL + idx)
        = Some (stored (match meta !! item with
                        | Some e => brief_description e
                        | None => Str ""
                        end)))
  /\ (forall j c, columns df !! j = Some c ->
        cell_value ws 6 (S j) = Some (stored (Str c)))
  /\ (forall i row j v, rows df !! i = Some row -> row !! j = Some v ->
        cell_value ws (7 + i) (S j) = Some (stored (excel_value v))).
Proof.
  intros _ H.
  apply build_workbook_ok_inv in H as (ws0 & w1 & w2 & w3 & Hx & _ & H1 & H2 & H3 & H4).
  apply to_excel_cells in Hx as (Hhead & Hdata).
  set (w0 := size_columns (set_cell ws0 1 1 (stored (Str consolidated_on)))) in H1.
  assert (forall r c, cell_value w0 r c
            = if decide ((1%nat, 1%nat) = (r, c))
              then Some (stored (Str consolidated_on))
              else cell_value ws0 r c) as Hw0.
  { intros r c. unfold w0, cell_value. rewrite size_columns_cells.
    apply cell_value_set_cell. }
  apply summary_row_written in H1 as (Hc1 & Hr1 & _ & Hl1).
  apply summary_row_written in H2 as (_ & Hr2 & _ & Hl2).
  apply summary_row_written in H3 as (_ & Hr3 & _ & Hl3).
  apply summary_row_written in H4 as (_ & Hr4 & _ & Hl4).
  assert (forall r c, (r < 2 \/ 5 < r)%nat -> cell_value ws r c = cell_value w0 r c)
    as Hout.
  { intros r c Hr. rewrite Hr4, Hr3, Hr2, Hr1 by lia. done. }
  split_and!.
  - rewrite Hout by lia. rewrite Hw0. by rewrite decide_True.
  - intros [|[|[|[|r_off]]]] label Hl; simpl in Hl; try discriminate;
      injection Hl as <-.
    + rewrite Hr4, Hr3, Hr2 by lia. exact Hl1.
    + rewrite Hr4, Hr3 by lia. exact Hl2.
    + rewrite Hr4 by lia. exact Hl3.
    + exact Hl4.
  - intros idx item Hitem. destruct (Hc1 idx item Hitem) as (v & Hv & _ & Hcell).
    rewrite Hr4, Hr3, Hr2 by lia. cbn [Nat.add] in Hcell. rewrite Hcell. do 2 f_equal.
    unfold summary_value in Hv.
    destruct (series_sum (fillna0 (series df item))); cbn [mbind outcome_bind] in Hv;
      [|discriminate..].
    simpl in Hv. by injection Hv as <-.
  - intros j c Hj. rewrite Hout by lia. rewrite Hw0.
    rewrite decide_False by (intros [= ? ?]; lia).
    apply (Hhead j c Hj).
  - intros i row j v Hi Hj. rewrite Hout by lia. rewrite Hw0.
    rewrite decide_False by (intros [= ? ?]; lia).
    apply (Hdata i row j v Hi Hj).
Qed.

(** Every column of the table gets width 18; for a table of at most 78
    columns (67 item columns) the hidden columns are exactly the third to
    the tenth, so no item column and neither of the first two key columns
    is hidden. *)
Theorem workbook_column_dimensions (df : DataFrame) (meta : gmap string MetaEntry)
    (consolidated_on : string) (ws : Worksheet) (i : nat) :
  NoDup (columns df) ->
  build_workbook df meta consolidated_on = Ok ws ->
  (1 <= i <= List.length (columns df))%nat ->
  exists d : ColumnDimension,
    column_dimensions ws !! get_column_letter i = Some d
    /\ width d = 18%nat
    /\ hidden d = hide_test (get_column_letter i)
    /\ ((i <= 78)%nat -> hidden d = ((3 <=? i) && (i <=? 10))%nat).
Proof.
  intros _ H Hi.
  apply build_workbook_ok_inv in H as (ws0 & x1 & x2 & x3 & Hx & _ & H1 & H2 & H3 & H4).
  apply to_excel_cells in Hx as (Hhead & _).
  set (w1 := set_cell ws0 1 1 (stored (Str consolidated_on))) in H1.
  assert (column_dimensions (size_columns w1) !! get_column_letter i
          = Some (mkDim 18 (hide_test (get_column_letter i)))) as Hdim.
  { unfold size_columns. apply size_columns_dimension. left.
    apply list_elem_of_In, in_map, in_seq.
    destruct (lookup_lt_is_Some_2 (columns df) (i - 1)) as [c Hc]; [lia|].
    assert (cell_value w1 6 i = Some (stored (Str c))) as Hcell.
    { unfold w1. rewrite cell_value_set_cell.
      rewrite decide_False by (intros [= ? ?]; lia).
      replace i with (S (i - 1)) by lia. apply (Hhead _ _ Hc). }
    apply max_column_ge in Hcell. lia. }
  assert (column_dimensions ws = column_dimensions (size_columns w1)) as ->.
  { apply summary_row_written in H4 as (_ & _ & -> & _).
    apply summary_row_written in H3 as (_ & _ & -> & _).
    apply summary_row_written in H2 as (_ & _ & -> & _).
    by apply summary_row_written in H1 as (_ & _ & -> & _). }
  eexists. split; [exact Hdim|]. cbn [width hidden]. split_and!; [done..|].
  intros Hle. pose proof hide_test_up_to_BZ as Hall.
  rewrite forallb_forall in Hall.
  specialize (Hall i). apply Bool.eqb_prop, Hall, in_seq. lia.
Qed.

(** ** Overages that are text *)

Lemma summary_value_numeric (df : DataFrame) (meta : gmap string MetaEntry)
    (label item : string) :
  Forall (fun v => forall s, v ≠ Str s) (series df item) ->
  summary_value df meta label item
  = (let overs_ := item_overs meta item in
     let total := Num (foldr Z.add 0 (map number_or_zero (series df item))) in
     if String.eqb label "Brief Description" then
       Ok (match meta !! item with Some e => brief_description e | None => Str "" end)
     else if String.eqb label "Total (inc Overs)" then py_add total overs_
     else if String.eqb label "Total Allocations" then Ok total
     else if String.eqb label "Overs" then Ok overs_
     else Ok NA).
Proof. intros H. unfold summary_value. by rewrite numeric_series_sum. Qed.

Lemma enumerate_item (df : DataFrame) (a : nat * string) :
  a ∈ enumerate 0 (item_columns df) -> snd a ∈ item_columns df.
Proof.
  destruct a as [i x]. intros [_ H]%elem_of_enumerate. by eapply list_elem_of_lookup_2.
Qed.

(** A summary row is written as soon as its label and the value of each
    of its cells can be assigned. *)
Lemma summary_row_ok (df : DataFrame) (meta : gmap string MetaEntry)
    (w : Worksheet) (r_off : nat) (label : string) :
  is_ok (bind_value (Str label)) = true ->
  (forall item, item ∈ item_columns df ->
     exists v, summary_value df meta label item = Ok v
               /\ is_ok (bind_value v) = true) ->
  exists w', summary_row df meta w (r_off, label) = Ok w'.
Proof.
  intros Hlabel Hcells. unfold summary_row. cbn [fst snd].
  rewrite write_cell_legal by done. cbn [mbind outcome_bind].
  apply for_each_ok. intros s a Ha%enumerate_item.
  destruct (Hcells _ Ha) as (v & -> & Hv). cbn [mbind outcome_bind].
  rewrite write_cell_legal by done. by eexists.
Qed.

Lemma description_row_ok (df : DataFrame) (meta : gmap string MetaEntry)
    (w : Worksheet) :
  (forall c, c ∈ item_columns df -> Forall (fun v => forall s, v ≠ Str s) (series df c)) ->
  (forall item e, item ∈ item_columns df -> meta !! item = Some e ->
     is_ok (bind_value (brief_description e)) = true) ->
  exists w', summary_row df meta w (0%nat, "Brief Description") = Ok w'.
Proof.
  intros Hnum Hdesc. apply summary_row_ok; [reflexivity|].
  intros item Hitem. rewrite summary_value_numeric by (by apply Hnum).
  cbv zeta. simpl String.eqb. eexists. split; [reflexivity|].
  destruct (meta !! item) as [e|] eqn:He; [by eapply Hdesc|reflexivity].
Qed.

Lemma total_row_ok (df : DataFrame) (meta : gmap string MetaEntry) (w : Worksheet) :
  (forall c, c ∈ item_columns df -> Forall (fun v => forall s, v ≠ Str s) (series df c)) ->
  exists w', summary_row df meta w (2%nat, "Total Allocations") = Ok w'.
Proof.
  intros Hnum. apply summary_row_ok; [reflexivity|].
  intros item Hitem. rewrite summary_value_numeric by (by apply Hnum).
  cbv zeta. simpl String.eqb. eexists. split; reflexivity.
Qed.

Lemma item_overs_not_text (df : DataFrame) (meta : gmap string MetaEntry)
    (item : string) :
  (forall item e, item ∈ item_columns df -> meta !! item = Some e ->
     forall s, overs e ≠ Str s) ->
  item ∈ item_columns df -> forall s, item_overs meta item ≠ Str s.
Proof.
  intros Hov Hitem s. unfold item_overs.
  destruct (meta !! item) as [e|] eqn:He; [by eapply Hov|done].
Qed.

Lemma overs_row_ok (df : DataFrame) (meta : gmap string MetaEntry) (w : Worksheet) :
  (forall c, c ∈ item_columns df -> Forall (fun v => forall s, v ≠ Str s) (series df c)) ->
  (forall item e, item ∈ item_columns df -> meta !! item = Some e ->
     forall s, overs e ≠ Str s) ->
  exists w', summary_row df meta w (3%nat, "Overs") = Ok w'.
Proof.
  intros Hnum Hov. apply summary_row_ok; [reflexivity|].
  intros item Hitem. rewrite summary_value_numeric by (by apply Hnum).
  cbv zeta. simpl String.eqb. eexists. split; [reflexivity|].
  pose proof (item_overs_not_text df meta item Hov Hitem) as Hne.
  by rewrite (proj1 (bind_value_not_text _ Hne)).
Qed.

Lemma py_add_number (t : Z) (ov : value) :
  (forall s, ov ≠ Str s) ->
  exists v, py_add (Num t) ov = Ok v /\ is_ok (bind_value v) = true.
Proof.
  intros Hne. destruct ov as [|o|s]; simpl; [by eexists..|]. by destruct (Hne s).
Qed.

Lemma sum_row_ok (df : DataFrame) (meta : gmap string MetaEntry) (w : Worksheet) :
  (forall c, c ∈ item_columns df -> Forall (fun v => forall s, v ≠ Str s) (series df c)) ->
  (forall item e, item ∈ item_columns df -> meta !! item = Some e ->
     forall s, overs e ≠ Str s) ->
  exists w', summary_row df meta w (1%nat, "Total (inc Overs)") = Ok w'.
Proof.
  intros Hnum Hov. apply summary_row_ok; [reflexivity|].
  intros item Hitem. rewrite summary_value_numeric by (by apply Hnum).
  cbv zeta. simpl String.eqb.
  apply py_add_number. by eapply item_overs_not_text.
Qed.

Lemma sum_row_text_overage (df : DataFrame) (meta : gmap string MetaEntry)
    (w : Worksheet) (item : string) (e : MetaEntry) (s : string) :
  (forall c, c ∈ item_columns df -> Forall (fun v => forall s, v ≠ Str s) (series df c)) ->
  item ∈ item_columns df -> meta !! item = Some e -> overs e = Str s ->
  summary_row df meta w (1%nat, "Total (inc Overs)") = Raise TypeError.
Proof.
  intros Hnum Hitem He Hs. unfold summary_row. cbn [fst snd].
  rewrite write_cell_legal by reflexivity. cbn [mbind outcome_bind].
  apply for_each_raises.
  - intros w0 a Ha%enumerate_item.
    rewrite summary_value_numeric by (by apply Hnum). cbv zeta. simpl String.eqb.
    destruct (item_overs meta a.2) as [|o|s'] eqn:Hov; cbn [py_add mbind outcome_bind];
      [|  |by right].
    + left. rewrite write_cell_not_text by done. by eexists.
    + left. rewrite write_cell_not_text by done. by eexists.
  - pose proof (Hnum item Hitem) as Hnumi.
    apply list_elem_of_lookup in Hitem as [idx Hidx].
    exists (idx, item). split.
    + apply elem_of_enumerate. split; [lia|]. by rewrite Nat.sub_0_r.
    + intros w0. cbn [snd].
      rewrite summary_value_numeric by done. cbv zeta. simpl String.eqb.
      unfold item_overs. by rewrite He, Hs.
Qed.

(** A table and an annotation that to_excel and openpyxl accept, with
    numeric item columns whose totals stay in the range where the sums
    are exact, and item descriptions that openpyxl accepts: for these
    build_workbook raises TypeError as soon as the overage of one item
    is text, because the sum total + overs of the row "Total (inc
    Overs)" cannot be formed; no workbook is returned. *)
Theorem text_overage_raises_TypeError (df : DataFrame) (meta : gmap string MetaEntry)
    (consolidated_on : string) (item : string) (e : MetaEntry) (s : string) :
  NoDup (columns df) ->
  is_ok (to_excel df (List.length LABELS + 1)) = true ->
  is_ok (bind_value (Str consolidated_on)) = true ->
  (forall c, c ∈ item_columns df -> Forall (fun v => forall s, v ≠ Str s) (series df c)) ->
  (forall c, c ∈ item_columns df ->
     magnitude (series df c) + Z.abs (number_or_zero (item_overs meta c)) <= 2 ^ 53) ->
  (forall c d, c ∈ item_columns df -> meta !! c = Some d ->
     is_ok (bind_value (brief_description d)) = true) ->
  item ∈ item_columns df -> meta !! item = Some e -> overs e = Str s ->
  build_workbook df meta consolidated_on = Raise TypeError.
Proof.
  intros _ Hfit Hcon Hnum _ Hdesc Hitem He Hs. unfold build_workbook.
  destruct (to_excel df (List.length LABELS + 1)) as [ws0| |]; [|discriminate..].
  cbn [mbind outcome_bind]. rewrite write_cell_legal by done.
  cbn [mbind outcome_bind].
  change (enumerate 0 LABELS) with
    [(0%nat, "Brief Description"); (1%nat, "Total (inc Overs)");
     (2%nat, "Total Allocations"); (3%nat, "Overs")].
  cbn [for_each].
  destruct (description_row_ok df meta
              (size_columns (set_cell ws0 1 1 (stored (Str consolidated_on))))
              Hnum Hdesc) as [w1 ->].
  cbn [mbind outcome_bind].
  by rewrite (sum_row_text_overage df meta w1 item e s).
Qed.

(** Conversely, under the same conditions on the table, the annotation
    and the descriptions, build_workbook returns a workbook whenever no
    item has a text overage. *)
Theorem workbook_is_built_without_text_overage (df : DataFrame)
    (meta : gmap string MetaEntry) (consolidated_on : string) :
  NoDup (columns df) ->
  is_ok (to_excel df (List.length LABELS + 1)) = true ->
  is_ok (bind_value (Str consolidated_on)) = true ->
  (forall c, c ∈ item_columns df -> Forall (fun v => forall s, v ≠ Str s) (series df c)) ->
  (forall c, c ∈ item_columns df ->
     magnitude (series df c) + Z.abs (number_or_zero (item_overs meta c)) <= 2 ^ 53) ->
  (forall c d, c ∈ item_columns df -> meta !! c = Some d ->
     is_ok (bind_value (brief_description d)) = true) ->
  (forall item e, item ∈ item_columns df -> meta !! item = Some e ->
     forall s, overs e ≠ Str s) ->
  exists ws, build_workbook df meta consolidated_on = Ok ws.
Proof.
  intros _ Hfit Hcon Hnum _ Hdesc Hov. unfold build_workbook.
  destruct (to_excel df (List.length LABELS + 1)) as [ws0| |]; [|discriminate..].
  cbn [mbind outcome_bind]. rewrite write_cell_legal by done.
  cbn [mbind outcome_bind].
  change (enumerate 0 LABELS) with
    [(0%nat, "Brief Description"); (1%nat, "Total (inc Overs)");
     (2%nat, "Total Allocations"); (3%nat, "Overs")].
  cbn [for_each].
  destruct (description_row_ok df meta
              (size_columns (set_cell ws0 1 1 (stored (Str consolidated_on))))
              Hnum Hdesc) as [w1 ->].
  cbn [mbind outcome_bind].
  destruct (sum_row_ok df meta w1 Hnum Hov) as [w2 ->].
  cbn [mbind outcome_bind].
  destruct (total_row_ok df meta w2 Hnum) as [w3 ->].
  cbn [mbind outcome_bind].
  destruct (overs_row_ok df meta w3 Hnum Hov) as [w4 ->].
  cbn [mbind outcome_bind]. by exists w4.
Qed.

(** ** The further properties on the sample inputs *)

Lemma extract_alloc_touches_only_store_number_witness :
  exists (df : DataFrame) (meta_ : gmap string MetaEntry),
    extract_alloc parse_decimal unnumbered = Ok (df, meta_)
    /\ List.length (filter (fun c => c = "Store Number") (columns df)) = 1%nat
    /\ List.length (columns df) = List.length (header unnumbered)
    /\ List.length (rows df) = List.length (data unnumbered)
    /\ (forall i r, data unnumbered !! i = Some r ->
          exists r', rows df !! i = Some r'
            /\ at_col (columns df) r' "Store Number"
               = to_numeric parse_decimal (at_col (columns df) r "Store Number")
            /\ forall c, c ≠ "Store Number" ->
                 at_col (columns df) r' c = at_col (columns df) r c).
Proof.
  destruct (extract_alloc parse_decimal unnumbered) as [[df meta_]| |] eqn:Hex;
    [|vm_compute in Hex; discriminate..].
  exists df, meta_. split; [done|].
  apply (extract_alloc_touches_only_store_number parse_decimal unnumbered df meta_ Hex).
Defined.

Lemma extract_alloc_meta_entries_witness :
  exists (df : DataFrame) (meta_ : gmap string MetaEntry),
    extract_alloc parse_decimal north = Ok (df, meta_)
    /\ meta_ !! "BR-1" = Some (mkMeta (Str "Poster") (Num 2))
    /\ exists (col : nat) (ref_ ov : value),
         (List.length KEY_COLS <= col < shape1 (raw north))%nat
         /\ iloc (raw north) 6 col = Ok ref_ /\ str ref_ = "BR-1"
         /\ iloc (raw north) 1 col = Ok (Str "Poster")
         /\ iloc (raw north) 4 col = Ok ov
         /\ Num 2 = (if isna ov then Num 0 else ov).
Proof.
  destruct (extract_alloc parse_decimal north) as [[df meta_]| |] eqn:Hex;
    [|vm_compute in Hex; discriminate..].
  assert (match extract_alloc parse_decimal north with
          | Ok (_, m) => m !! "BR-1"
          | _ => None
          end = Some (mkMeta (Str "Poster") (Num 2))) as Hk
    by (vm_compute; reflexivity).
  rewrite Hex in Hk.
  exists df, meta_. split; [done|]. split; [exact Hk|].
  apply (extract_alloc_meta_entries parse_decimal north df meta_ "BR-1"
           (mkMeta (Str "Poster") (Num 2)) Hex Hk).
Defined.

Lemma merged_stores_are_the_input_stores_witness :
  (forall k, Num k ∈ series north_south_table "Store Number"
             <-> k ∈ store_numbers [north_table; south_table])
  /\ List.length (rows north_south_table)
     = List.length (remove_dups (store_numbers [north_table; south_table])).
Proof.
  apply (merged_stores_are_the_input_stores parse_decimal [north_table; south_table]
           north_south_table);
    [done|vm_compute; reflexivity|vm_compute; reflexivity].
Defined.

Lemma merged_item_cell_is_sum_over_tables_witness :
  exists k : Z,
    at_col (columns north_south_table) (store_row (Num 1) (Str "Leeds") [Num 8])
      "Store Number" = Num k
    /\ at_col (columns north_south_table) (store_row (Num 1) (Str "Leeds") [Num 8])
         "BR-1"
       = Num (foldr Z.add 0
                (map (fun df => store_total parse_decimal df k "BR-1")
                     [north_table; south_table]))
    /\ Z.abs (foldr Z.add 0
                (map (fun df => store_total parse_decimal df k "BR-1")
                     [north_table; south_table])) <= 2 ^ 53.
Proof.
  apply (merged_item_cell_is_sum_over_tables parse_decimal [north_table; south_table]
           north_south_table).
  - done.
  - vm_compute; reflexivity.
  - vm_compute; reflexivity.
  - apply (bool_decide_unpack _). vm_compute; reflexivity.
  - apply (bool_decide_unpack _). vm_compute; reflexivity.
  - apply (bool_decide_unpack _). vm_compute; reflexivity.
  - intros k. destruct (decide (k = 1)) as [->|H1]; [apply Z.leb_le; vm_compute; reflexivity|].
    destruct (decide (k = 2)) as [->|H2]; [apply Z.leb_le; vm_compute; reflexivity|].
    unfold group_cells, north_table, south_table, row_key, store_row.
    cbn [flat_map columns rows map app at_col KEY_COLS bool_decide decide_rel
         int64_key filter list_filter].
    simpl. rewrite !decide_False by congruence. simpl. done.
Defined.

Lemma upload_loop_collects_allocation_tables_witness :
  exists st : LoopState,
    for_each (upload_step parse_decimal) [north; south] initial_state = Ok st
    /\ List.length (all_dfs st) = List.length [north; south]
    /\ forallb allocation_table (all_dfs st) = true
    /\ (forall i f fr, [north; south] !! i = Some f -> all_dfs st !! i = Some fr ->
          exists (df : DataFrame) (meta_ : gmap string MetaEntry) (refs : list string),
            extract_alloc parse_decimal f = Ok (df, meta_)
            /\ columns fr = KEY_COLS ++ refs
            /\ (forall c, c ∈ refs -> c ∈ item_refs parse_decimal f)
            /\ List.length (rows fr) = List.length (data f)
            /\ (forall j r, data f !! j = Some r ->
                  exists r', rows fr !! j = Some r'
                    /\ at_col (columns fr) r' "Store Number"
                       = to_numeric parse_decimal (at_col (columns df) r "Store Number")
                    /\ forall c, c ∈ columns fr -> c ≠ "Store Number" ->
                         at_col (columns fr) r' c = at_col (columns df) r c)).
Proof.
  destruct (for_each (upload_step parse_decimal) [north; south] initial_state)
    as [st| |] eqn:Hloop; [|vm_compute in Hloop; discriminate..].
  exists st. split; [done|].
  apply (upload_loop_collects_allocation_tables parse_decimal [north; south] st);
    [vm_compute; reflexivity|exact Hloop].
Defined.

Lemma null_store_numbers_are_dropped_witness :
  exists (page : Page) (df : DataFrame) (meta_ : gmap string MetaEntry)
         (st : LoopState) (fr : DataFrame),
    script parse_decimal "Consolidated on 04/11/2026 10:00" "20261104_1000"
      [unnumbered; north] = Ok page
    /\ extract_alloc parse_decimal unnumbered = Ok (df, meta_)
    /\ series df "Store Number"
       = map (to_numeric parse_decimal)
           (series (mkDF (columns df) (data unnumbered)) "Store Number")
    /\ (forall s, parse_decimal s = None -> to_numeric parse_decimal (Str s) = NA)
    /\ (forall data',
          Forall (fun r => int64_safe (to_numeric parse_decimal
                                        (at_col (columns df) r "Store Number")) = true)
            data' ->
          is_ok (extract_alloc parse_decimal
                   (mkFile (header unnumbered) data' (raw unnumbered))) = true)
    /\ for_each (upload_step parse_decimal) [unnumbered; north] initial_state = Ok st
    /\ all_dfs st !! 0%nat = Some fr
    /\ series fr "Store Number" = series df "Store Number"
    /\ merge_allocations parse_decimal (all_dfs st) = Ok (master_df page)
    /\ merge_allocations parse_decimal (map without_null_stores (all_dfs st))
       = Ok (master_df page)
    /\ List.length (rows (master_df page))
       = List.length (remove_dups (store_numbers (all_dfs st)))
    /\ (forall v, v ∈ series (master_df page) "Store Number" -> exists k, v = Num k)
    /\ NA ∉ series (master_df page) "Store Number".
Proof.
  destruct (script parse_decimal "Consolidated on 04/11/2026 10:00" "20261104_1000"
              [unnumbered; north]) as [page| |] eqn:Hrun;
    [|vm_compute in Hrun; discriminate..].
  destruct (null_store_numbers_are_dropped parse_decimal
              "Consolidated on 04/11/2026 10:00" "20261104_1000"
              [unnumbered; north] page 0 unnumbered)
    as (df & meta_ & st & fr & H);
    [vm_compute; reflexivity|exact Hrun|reflexivity|].
  exists page, df, meta_, st, fr. split; [done|exact H].
Defined.

Lemma master_columns_are_keys_then_references_witness :
  exists (page : Page) (refs : list string),
    script parse_decimal "Consolidated on 04/11/2026 10:00" "20261104_1000"
      [north; unnumbered] = Ok page
    /\ columns (master_df page) = KEY_COLS ++ refs
    /\ NoDup refs
    /\ (forall c, c ∈ refs <->
          exists f, f ∈ [north; unnumbered] /\ c ∈ item_refs parse_decimal f)
    /\ item_columns (master_df page) = refs
    /\ lines_count page = Z.of_nat (List.length refs)
    /\ stores page = List.length (rows (master_df page)).
Proof.
  destruct (script parse_decimal "Consolidated on 04/11/2026 10:00" "20261104_1000"
              [north; unnumbered]) as [page| |] eqn:Hrun;
    [|vm_compute in Hrun; discriminate..].
  destruct (master_columns_are_keys_then_references parse_decimal
              "Consolidated on 04/11/2026 10:00" "20261104_1000"
              [north; unnumbered] page) as [refs Hrefs];
    [vm_compute; reflexivity|exact Hrun|].
  exists page, refs. split; [done|exact Hrefs].
Defined.

Lemma completed_run_read_every_upload_witness :
  is_ok (extract_alloc parse_decimal south) = true
  /\ lacks_store_number south = false
  /\ (forall k, k ∈ KEY_COLS -> k ≠ "Store Number" -> k ∈ map Py.strip (header south)).
Proof.
  destruct (script parse_decimal "Consolidated on 04/11/2026 10:00" "20261104_1000"
              [north; south]) as [page| |] eqn:Hrun;
    [|vm_compute in Hrun; discriminate..].
  apply (completed_run_read_every_upload parse_decimal
           "Consolidated on 04/11/2026 10:00" "20261104_1000"
           [north; south] page south Hrun).
  right. left.
Defined.

Lemma metadata_comes_from_first_upload_witness :
  exists (st : LoopState) (i : nat) (f : UploadedFile) (df : DataFrame)
         (meta_ : gmap string MetaEntry),
    for_each (upload_step parse_decimal) [north; south] initial_state = Ok st
    /\ meta st !! "BR-1" = Some (mkMeta (Str "Poster") (Num 2))
    /\ [north; south] !! i = Some f
    /\ extract_alloc parse_decimal f = Ok (df, meta_)
    /\ meta_ !! "BR-1" = Some (mkMeta (Str "Poster") (Num 2))
    /\ "BR-1" ∈ item_columns df
    /\ (forall j f', (j < i)%nat -> [north; south] !! j = Some f' ->
          "BR-1" ∉ item_refs parse_decimal f').
Proof.
  destruct (for_each (upload_step parse_decimal) [north; south] initial_state)
    as [st| |] eqn:Hloop; [|vm_compute in Hloop; discriminate..].
  assert (match for_each (upload_step parse_decimal) [north; south] initial_state with
          | Ok st => meta st !! "BR-1"
          | _ => None
          end = Some (mkMeta (Str "Poster") (Num 2))) as Hk
    by (vm_compute; reflexivity).
  rewrite Hloop in Hk.
  destruct (metadata_comes_from_first_upload parse_decimal [north; south] st "BR-1"
              (mkMeta (Str "Poster") (Num 2)) Hloop Hk)
    as (i & f & df & meta_ & H).
  exists st, i, f, df, meta_. split; [done|]. split; [exact Hk|exact H].
Defined.

Lemma warning_names_exactly_repeated_references_witness :
  exists (page : Page) (dups : list string),
    script parse_decimal "Consolidated on 04/11/2026 10:00" "20261104_1000"
      [north; south] = Ok page
    /\ NoDup dups
    /\ Sorted String.le dups
    /\ (forall c, c ∈ dups <->
          exists i j fi fj, (i < j)%nat /\ [north; south] !! i = Some fi
            /\ [north; south] !! j = Some fj
            /\ c ∈ item_refs parse_decimal fi /\ c ∈ item_refs parse_decimal fj)
    /\ warning page
       = match dups with
         | [] => None
         | _ => Some ("Duplicate brief reference(s) ignored: " +:+ Py.join ", " dups)
         end.
Proof.
  destruct (script parse_decimal "Consolidated on 04/11/2026 10:00" "20261104_1000"
              [north; south]) as [page| |] eqn:Hrun;
    [|vm_compute in Hrun; discriminate..].
  destruct (warning_names_exactly_repeated_references parse_decimal
              "Consolidated on 04/11/2026 10:00" "20261104_1000"
              [north; south] page) as [dups Hdups];
    [vm_compute; reflexivity|exact Hrun|].
  exists page, dups. split; [done|exact Hdups].
Defined.

Lemma two_store_number_columns_raise_TypeError_witness :
  extract_alloc parse_decimal two_store_numbers = Raise TypeError.
Proof.
  apply (two_store_number_columns_raise_TypeError parse_decimal two_store_numbers
           "store number").
  - vm_compute; reflexivity.
  - discriminate.
  - apply (bool_decide_unpack _). vm_compute; reflexivity.
Defined.

Lemma store_number_is_found_tolerantly_witness :
  Py.strip ("  " +:+ "store NUMBER" +:+ " ") = "store NUMBER"
  /\ lacks_store_number no_store_name = false
  /\ extract_alloc parse_decimal no_store_name ≠ Stopped (StError STORE_NUMBER_MISSING).
Proof.
  apply (store_number_is_found_tolerantly parse_decimal no_store_name
           "  " "store NUMBER" " " (StError STORE_NUMBER_MISSING)).
  - reflexivity.
  - reflexivity.
  - vm_compute; reflexivity.
  - apply (bool_decide_unpack _). vm_compute; reflexivity.
Defined.

Lemma workbook_layout_witness :
  exists ws : Worksheet,
    build_workbook north_table poster_meta "Consolidated on 04/11/2026 10:00" = Ok ws
    /\ cell_value ws 1 1 = Some (stored (Str "Consolidated on 04/11/2026 10:00"))
    /\ (forall r_off label, LABELS !! r_off = Some label ->
          cell_value ws (2 + r_off) LABEL_COL_XL = Some (Str label))
    /\ (forall idx item, item_columns north_table !! idx = Some item ->
          cell_value ws 2 (ITEM_START_XL + idx)
          = Some (stored (match poster_meta !! item with
                          | Some e => brief_description e
                          | None => Str ""
                          end)))
    /\ (forall j c, columns north_table !! j = Some c ->
          cell_value ws 6 (S j) = Some (stored (Str c)))
    /\ (forall i row j v, rows north_table !! i = Some row -> row !! j = Some v ->
          cell_value ws (7 + i) (S j) = Some (stored (excel_value v))).
Proof.
  destruct (build_workbook north_table poster_meta "Consolidated on 04/11/2026 10:00")
    as [ws| |] eqn:Hwb; [|vm_compute in Hwb; discriminate..].
  exists ws. split; [done|].
  apply (workbook_layout north_table poster_meta "Consolidated on 04/11/2026 10:00" ws);
    [apply (bool_decide_unpack _); vm_compute; reflexivity|exact Hwb].
Defined.

Lemma workbook_column_dimensions_witness :
  exists (ws : Worksheet) (d : ColumnDimension),
    build_workbook north_table poster_meta "Consolidated on 04/11/2026 10:00" = Ok ws
    /\ column_dimensions ws !! get_column_letter 3 = Some d
    /\ width d = 18%nat
    /\ hidden d = hide_test (get_column_letter 3)
    /\ ((3 <= 78)%nat -> hidden d = ((3 <=? 3) && (3 <=? 10))%nat).
Proof.
  destruct (build_workbook north_table poster_meta "Consolidated on 04/11/2026 10:00")
    as [ws| |] eqn:Hwb; [|vm_compute in Hwb; discriminate..].
  destruct (workbook_column_dimensions north_table poster_meta
              "Consolidated on 04/11/2026 10:00" ws 3) as [d Hd];
    [apply (bool_decide_unpack _); vm_compute; reflexivity|exact Hwb
    |vm_compute; lia|].
  exists ws, d. split; [done|exact Hd].
Defined.

Lemma text_overage_raises_TypeError_witness :
  build_workbook north_table tbc_meta "Consolidated on 04/11/2026 10:00"
  = Raise TypeError.
Proof.
  assert (item_columns north_table = ["BR-1"]) as Hitems by (vm_compute; reflexivity).
  assert (series north_table "BR-1" = [Num 3; Num 4]) as Hseries
    by (vm_compute; reflexivity).
  apply (text_overage_raises_TypeError north_table tbc_meta
           "Consolidated on 04/11/2026 10:00" "BR-1"
           (mkMeta (Str "Poster") (Str "TBC")) "TBC").
  - apply (bool_decide_unpack _). vm_compute; reflexivity.
  - vm_compute; reflexivity.
  - vm_compute; reflexivity.
  - intros c Hc. rewrite Hitems in Hc. apply list_elem_of_singleton in Hc as ->.
    rewrite Hseries. repeat constructor; discriminate.
  - intros c Hc. rewrite Hitems in Hc. apply list_elem_of_singleton in Hc as ->.
    apply Z.leb_le. vm_compute; reflexivity.
  - intros c d Hc Hd. rewrite Hitems in Hc. apply list_elem_of_singleton in Hc as ->.
    vm_compute in Hd. injection Hd as <-. vm_compute; reflexivity.
  - apply (bool_decide_unpack _). vm_compute; reflexivity.
  - vm_compute; reflexivity.
  - reflexivity.
Defined.

Lemma workbook_is_built_without_text_overage_witness :
  exists ws,
    build_workbook north_table poster_meta "Consolidated on 04/11/2026 10:00" = Ok ws.
Proof.
  assert (item_columns north_table = ["BR-1"]) as Hitems by (vm_compute; reflexivity).
  assert (series north_table "BR-1" = [Num 3; Num 4]) as Hseries
    by (vm_compute; reflexivity).
  apply (workbook_is_built_without_text_overage north_table poster_meta
           "Consolidated on 04/11/2026 10:00").
  - apply (bool_decide_unpack _). vm_compute; reflexivity.
  - vm_compute; reflexivity.
  - vm_compute; reflexivity.
  - intros c Hc. rewrite Hitems in Hc. apply list_elem_of_singleton in Hc as ->.
    rewrite Hseries. repeat constructor; discriminate.
  - intros c Hc. rewrite Hitems in Hc. apply list_elem_of_singleton in Hc as ->.
    apply Z.leb_le. vm_compute; reflexivity.
  - intros c d Hc Hd. rewrite Hitems in Hc. apply list_elem_of_singleton in Hc as ->.
    vm_compute in Hd. injection Hd as <-. vm_compute; reflexivity.
  - intros item e Hitem He s. rewrite Hitems in Hitem.
    apply list_elem_of_singleton in Hitem as ->.
    vm_compute in He. injection He as <-. discriminate.
Defined.
